(** * News impact analyzer: the text normalizer, the signal pipeline and
      the analysis run, embedded from the Python sources.

    Python strings are sequences of Unicode code points; they are modelled
    as [list N].  JSON documents and the dictionaries built from them are
    modelled by [value]; a dictionary is an insertion-ordered association
    list, as a Python [dict] is.  Exceptions are modelled by [result]. *)

From Stdlib Require Import ZArith NArith List String Ascii Lia Bool.
From Stdlib Require Import Permutation Sorted.
From stdpp Require Import base decidable option list gmap sets sorting.

Set Warnings "-register-all,-clear-no-such-hyp".
Local Open Scope N_scope.

(** ** Strings *)

Abbreviation pystr := (list N).

(** A literal of the source, as the sequence of its code points. *)
Definition py (s : string) : pystr :=
  List.map N_of_ascii (list_ascii_of_string s).

Fixpoint take_while {A} (p : A → bool) (l : list A) : list A :=
  match l with
  | [] => []
  | x :: l' => if p x then x :: take_while p l' else []
  end.

Fixpoint drop_while {A} (p : A → bool) (l : list A) : list A :=
  match l with
  | [] => []
  | x :: l' => if p x then drop_while p l' else l
  end.

(** ** Character classes

    CPython classifies code points below 128 with fixed tables and the
    others with the Unicode database.  The database is not part of the
    repository: its three predicates are taken as they come. *)

Record unicode_db := {
  uni_isspace : N → bool;    (* Py_UNICODE_ISSPACE on code points >= 128 *)
  uni_isdecimal : N → bool;  (* Py_UNICODE_ISDECIMAL on code points >= 128 *)
  uni_isalnum : N → bool     (* Py_UNICODE_ISALNUM on code points >= 128 *)
}.

(** The database that classifies no code point above 127: enough to run
    the functions on ASCII text. *)
Definition ascii_only : unicode_db :=
  {| uni_isspace := fun _ => false;
     uni_isdecimal := fun _ => false;
     uni_isalnum := fun _ => false |}.


Definition between (lo hi c : N) : bool := (lo <=? c) && (c <=? hi).

Definition ascii_isspace (c : N) : bool :=
  between 9 13 c || between 28 32 c.
Definition ascii_isdigit (c : N) : bool := between 48 57 c.
Definition ascii_isupper (c : N) : bool := between 65 90 c.
Definition ascii_islower (c : N) : bool := between 97 122 c.
Definition ascii_isalnum (c : N) : bool :=
  ascii_isdigit c || ascii_isupper c || ascii_islower c.

Section Tables.
Variable U : unicode_db.

(** [\s] of [re] and the characters removed by [str.strip()]. *)
Definition isspace (c : N) : bool :=
  if c <? 128 then ascii_isspace c else uni_isspace U c.
(** [\d] of [re]. *)
Definition isdecimal (c : N) : bool :=
  if c <? 128 then ascii_isdigit c else uni_isdecimal U c.
(** [\w] of [re]: alphanumeric or underscore. *)
Definition isword (c : N) : bool :=
  if c <? 128 then ascii_isalnum c || (c =? 95) else uni_isalnum U c.

End Tables.

(** ** The regular expressions of the sources ([import re])

    The three patterns of the repository are sequences of bounded or
    unbounded greedy repetitions of one character class, and of the
    zero-width assertions [\b] and [$]. *)

Module re.

Inductive cls :=
  | Lit (c : N)            (* a literal character *)
  | Space                  (* \s *)
  | Digit                  (* \d *)
  | Range (lo hi : N).     (* [lo-hi] *)

Inductive node :=
  | Repeat (lo : nat) (hi : option nat) (k : cls)   (* k{lo,hi}, greedy *)
  | Boundary                                        (* \b *)
  | AtEnd.                                          (* $ *)

Section Engine.
Variable U : unicode_db.

Definition in_cls (k : cls) (c : N) : bool :=
  match k with
  | Lit d => c =? d
  | Space => isspace U c
  | Digit => isdecimal U c
  | Range lo hi => between lo hi c
  end.

Definition isword_opt (o : option N) : bool :=
  match o with Some c => isword U c | None => false end.

(** [\b]: exactly one of the two neighbours is a word character. *)
Definition word_boundary (prev : option N) (s : pystr) : bool :=
  xorb (isword_opt prev) (isword_opt (head s)).

(** [$] without MULTILINE: at the end, or before a final newline. *)
Definition at_end (s : pystr) : bool :=
  match s with
  | [] => true
  | [c] => c =? 10
  | _ => false
  end.

(** The character before the position reached after [n] more characters. *)
Definition prev_after (prev : option N) (s : pystr) (n : nat) : option N :=
  match n with
  | O => prev
  | S m => match s !! m with Some c => Some c | None => prev end
  end.

(** Greedy repetition: the counts [k], [k-1], ..., [lo] in that order. *)
Fixpoint backtrack (f : nat → option nat) (lo k : nat) {struct k} : option nat :=
  if (k <? lo)%nat then None
  else match f k with
       | Some r => Some r
       | None => match k with
                 | O => None
                 | S k' => backtrack f lo k'
                 end
       end.

(** Match the pattern at the start of [s]; the result is the number of
    characters consumed by the first match in backtracking order. *)
Fixpoint match_here (re : list node) (prev : option N) (s : pystr) : option nat :=
  match re with
  | [] => Some O
  | Repeat lo hi k :: re' =>
      let avail := length (take_while (in_cls k) s) in
      let most := match hi with Some h => Nat.min h avail | None => avail end in
      backtrack
        (fun n => match match_here re' (prev_after prev s n) (drop n s) with
                  | Some r => Some (n + r)%nat
                  | None => None
                  end)
        lo most
  | Boundary :: re' =>
      if word_boundary prev s then match_here re' prev s else None
  | AtEnd :: re' =>
      if at_end s then match_here re' prev s else None
  end.

(** [re.findall]: scan from the left; after a match the scan resumes at
    its end ([skip] counts the characters still to step over). *)
Fixpoint findall_from (re : list node) (prev : option N) (s : pystr)
    (skip : nat) : list pystr :=
  match skip with
  | S k =>
      match s with
      | [] => []
      | c :: s' => findall_from re (Some c) s' k
      end
  | O =>
      match match_here re prev s with
      | Some n =>
          take n s ::
          match s with
          | [] => []
          | c :: s' => findall_from re (Some c) s' (n - 1)
          end
      | None =>
          match s with
          | [] => []
          | c :: s' => findall_from re (Some c) s' O
          end
      end
  end.

Definition findall (re : list node) (s : pystr) : list pystr :=
  findall_from re None s O.

(** [re.sub]: every match replaced by [repl], the rest copied. *)
Fixpoint sub_from (re : list node) (repl : pystr) (prev : option N)
    (s : pystr) (skip : nat) : pystr :=
  match skip with
  | S k =>
      match s with
      | [] => []
      | c :: s' => sub_from re repl (Some c) s' k
      end
  | O =>
      match match_here re prev s with
      | Some O =>
          repl ++
          match s with
          | [] => []
          | c :: s' => c :: sub_from re repl (Some c) s' O
          end
      | Some (S n) =>
          repl ++
          match s with
          | [] => []
          | c :: s' => sub_from re repl (Some c) s' n
          end
      | None =>
          match s with
          | [] => []
          | c :: s' => c :: sub_from re repl (Some c) s' O
          end
      end
  end.

Definition sub (re : list node) (repl s : pystr) : pystr :=
  sub_from re repl None s O.

End Engine.

Definition one (k : cls) : node := Repeat 1 (Some 1%nat) k.
Definition star (k : cls) : node := Repeat 0 None k.
Definition plus (k : cls) : node := Repeat 1 None k.
Definition literal (s : string) : list node := List.map (fun c => one (Lit c)) (py s).

End re.

(** ** Methods of [str] *)

Section Str.
Variable U : unicode_db.

(** [s.strip()] *)
Definition strip (s : pystr) : pystr :=
  rev (drop_while (isspace U) (rev (drop_while (isspace U) s))).

End Str.

Fixpoint is_prefix (a b : pystr) : bool :=
  match a, b with
  | [], _ => true
  | x :: a', y :: b' => (x =? y) && is_prefix a' b'
  | _ :: _, [] => false
  end.

(** [a in b] for two strings *)
Fixpoint is_substring (a b : pystr) : bool :=
  is_prefix a b ||
  match b with
  | [] => false
  | _ :: b' => is_substring a b'
  end.

(** [s.replace(old, new)]: the occurrences of [old], left to right and
    without overlap ([skip] counts the characters of an occurrence still
    to step over). *)
Fixpoint replace_from (old new s : pystr) (skip : nat) : pystr :=
  match skip with
  | S k =>
      match s with
      | [] => []
      | _ :: s' => replace_from old new s' k
      end
  | O =>
      if is_prefix old s then
        new ++
        match s, old with
        | [], _ => []
        | c :: s', [] => c :: replace_from old new s' O
        | _ :: s', _ :: old' => replace_from old new s' (length old')
        end
      else
        match s with
        | [] => []
        | c :: s' => c :: replace_from old new s' O
        end
  end.

Definition replace (old new s : pystr) : pystr := replace_from old new s O.

(** ** Python values

    What [json.load] returns, and what the sources build from it.  Numbers
    are the integers of the data model. *)

Inductive value :=
  | VNone
  | VBool (b : bool)
  | VInt (z : Z)
  | VStr (s : pystr)
  | VList (l : list value)
  | VDict (d : list (pystr * value)).

(** A dictionary with string keys: the pairs in insertion order, no key
    twice. *)
Abbreviation assoc V := (list (pystr * V)).
Abbreviation dict := (assoc value).

Fixpoint assoc_get {V} (k : pystr) (d : assoc V) : option V :=
  match d with
  | [] => None
  | (k', v) :: d' => if decide (k' = k) then Some v else assoc_get k d'
  end.

(** [d[k] = v]: a key already present keeps its place. *)
Fixpoint assoc_set {V} (k : pystr) (v : V) (d : assoc V) : assoc V :=
  match d with
  | [] => [(k, v)]
  | (k', v') :: d' =>
      if decide (k' = k) then (k, v) :: d' else (k', v') :: assoc_set k v d'
  end.

Definition assoc_has {V} (k : pystr) (d : assoc V) : bool :=
  match assoc_get k d with Some _ => true | None => false end.

(** [d.get(k)] and [d.get(k, default)] *)
Definition dict_get_default (k : string) (dflt : value) (d : dict) : value :=
  match assoc_get (py k) d with
  | Some v => v
  | None => dflt
  end.
Definition dict_get (k : string) (d : dict) : value := dict_get_default k VNone d.

(** [bool(v)] *)
Definition truthy (v : value) : bool :=
  match v with
  | VNone => false
  | VBool b => b
  | VInt z => negb (z =? 0)%Z
  | VStr s => match s with [] => false | _ => true end
  | VList l => match l with [] => false | _ => true end
  | VDict d => match d with [] => false | _ => true end
  end.

(** [isinstance(v, str)] *)
Definition is_str (v : value) : bool :=
  match v with VStr _ => true | _ => false end.

(** [v == s] for a string literal [s] *)
Definition eq_str (v : value) (s : pystr) : bool :=
  match v with VStr t => bool_decide (t = s) | _ => false end.

Definition type_name (v : value) : pystr :=
  match v with
  | VNone => py "NoneType"
  | VBool _ => py "bool"
  | VInt _ => py "int"
  | VStr _ => py "str"
  | VList _ => py "list"
  | VDict _ => py "dict"
  end.

(** ** Exceptions *)

Inductive exn :=
  | KeyError (key : pystr)
  | TypeError (msg : pystr)
  | AttributeError (msg : pystr)
  | ValueError (msg : pystr)
  | LibraryError (msg : pystr).   (* raised inside a library call *)

(** [str(e)].  The key of a [KeyError] is shown as [repr] shows a plain
    string. *)
Definition str_exn (e : exn) : pystr :=
  match e with
  | KeyError key => py "'" ++ key ++ py "'"
  | TypeError msg | AttributeError msg | ValueError msg | LibraryError msg => msg
  end.

Inductive result (A : Type) :=
  | Ok (a : A)
  | Raise (e : exn).
Arguments Ok {A} a.
Arguments Raise {A} e.

(** Statements in sequence: an exception ends the block. *)
#[global] Instance result_ret : MRet result := @Ok.
#[global] Instance result_bind : MBind result :=
  λ A B k r, match r with
             | Ok a => k a
             | Raise e => Raise e
             end.

(** [d[k]] *)
Definition getitem (k : string) (d : dict) : result value :=
  match assoc_get (py k) d with
  | Some v => Ok v
  | None => Raise (KeyError (py k))
  end.

(** [v.get]: only a dictionary has the method. *)
Definition get_method (v : value) : result dict :=
  match v with
  | VDict d => Ok d
  | _ => Raise (AttributeError
                  (py "'" ++ type_name v ++ py "' object has no attribute 'get'"))
  end.

(** [s in v] for a string literal [s] *)
Definition contains (s : pystr) (v : value) : result bool :=
  match v with
  | VDict d => Ok (assoc_has s d)
  | VStr t => Ok (is_substring s t)
  | VList l => Ok (existsb (fun x => eq_str x s) l)
  | _ => Raise (TypeError
                  (py "argument of type '" ++ type_name v ++ py "' is not iterable"))
  end.

(** [v < n] for an integer [n] *)
Definition less_than (v : value) (n : Z) : result bool :=
  match v with
  | VInt z => Ok (z <? n)%Z
  | VBool b => Ok (Z.b2z b <? n)%Z
  | _ => Raise (TypeError
                  (py "'<' not supported between instances of '" ++ type_name v
                   ++ py "' and 'int'"))
  end.

(** [for x in v]: the elements of a list, the characters of a string, the
    keys of a dictionary. *)
Definition iterate (v : value) : result (list value) :=
  match v with
  | VList l => Ok l
  | VStr s => Ok (List.map (fun c => VStr [c]) s)
  | VDict d => Ok (List.map (fun kv => VStr (fst kv)) d)
  | _ => Raise (TypeError (py "'" ++ type_name v ++ py "' object is not iterable"))
  end.

(** ** preprocessor.py *)

Section Preprocessor.
Variable U : unicode_db.

(** r'\s*\[\+\d+\s*chars\]\s*$' *)
Definition TRUNCATION_NOTICE : list re.node :=
  [re.star re.Space] ++ re.literal "[+" ++ [re.plus re.Digit; re.star re.Space] ++
  re.literal "chars]" ++ [re.star re.Space; re.AtEnd].

(** r'\s+' *)
Definition WHITESPACE_RUN : list re.node := [re.plus re.Space].

Definition clean_article_content (text : pystr) : pystr :=
  let text := re.sub U TRUNCATION_NOTICE [] text in
  let text := re.sub U WHITESPACE_RUN (py " ") text in
  strip U text.

(** The body of the loop: [processed] is the list built so far. *)
Definition preprocess_step (processed : list dict) (article : dict) : list dict :=
  if negb (truthy (dict_get "content" article))
     || negb (is_str (dict_get "content" article))
  then processed
  else
    match dict_get "content" article with
    | VStr content =>
        let cleaned_content := clean_article_content content in
        if truthy (VStr cleaned_content) then
          processed ++ [assoc_set (py "cleaned_content") (VStr cleaned_content) article]
        else processed
    | _ => processed
    end.

Definition preprocess_articles (articles : list dict) : list dict :=
  fold_left preprocess_step articles [].

(** *** Predicates used to state the properties *)

Definition isspace_opt (o : option N) : bool :=
  match o with Some c => isspace U c | None => false end.

(** Every whitespace character is one ASCII space followed by a
    character that is not whitespace, or by the end. *)
Fixpoint collapsed (s : pystr) : bool :=
  match s with
  | [] => true
  | c :: s' =>
      (negb (isspace U c) || ((c =? 32) && negb (isspace_opt (head s'))))
      && collapsed s'
  end.

(** The articles the filter is said to keep: [content] present, a string,
    and not empty once normalized. *)
Definition has_usable_content (article : dict) : bool :=
  match assoc_get (py "content") article with
  | Some (VStr content) =>
      match clean_article_content content with [] => false | _ => true end
  | _ => false
  end.

Definition with_cleaned_content (article : dict) : dict :=
  match assoc_get (py "content") article with
  | Some (VStr content) =>
      assoc_set (py "cleaned_content") (VStr (clean_article_content content)) article
  | _ => article
  end.

End Preprocessor.

(** ** dashboard.py *)

Abbreviation signal := (pystr * pystr)%type.

Section Dashboard.
Variable U : unicode_db.
(** [VALID_TICKERS = get_ticker_list()]: the set of listed symbols, loaded
    when the module is imported. *)
Variable VALID_TICKERS : gset pystr.

(** r'\b[A-Z]{1,5}\b' *)
Definition TICKER_TOKEN : list re.node :=
  [re.Boundary; re.Repeat 1 (Some 5%nat) (re.Range 65 90); re.Boundary].

(** The two inner loops, for one entity of [affected_entities]. *)
Definition entity_signals (sentiment : pystr) (entity : value) : list signal :=
  match entity with
  | VStr entity =>
      let potential_tickers := re.findall U TICKER_TOKEN entity in
      (λ ticker, (ticker, sentiment)) <$>
        filter (λ ticker, ticker ∈ VALID_TICKERS) potential_tickers
  | _ => []
  end.

(** The body of the loop over the articles: the signals the article adds,
    [[]] where the source says [continue]. *)
Definition article_signals (article : dict) (confidence_threshold : Z)
    : result (list signal) :=
  let analysis := dict_get "analysis" article in
  if negb (truthy analysis) then mret [] else
  failed ← contains (py "error") analysis;
  if (failed : bool) then mret [] else
  fields ← get_method analysis;
  low ← less_than (dict_get_default "confidence_score" (VInt 0) fields)
                  confidence_threshold;
  if (low : bool) then mret [] else
  let sentiment := dict_get "sentiment" fields in
  if negb (eq_str sentiment (py "Positive") || eq_str sentiment (py "Negative"))
  then mret [] else
  match sentiment with
  | VStr sentiment =>
      entities ← iterate (dict_get_default "affected_entities" (VList []) fields);
      mret (flat_map (entity_signals sentiment) entities)
  | _ => mret []
  end.

Fixpoint extract_loop (articles : list dict) (confidence_threshold : Z)
    (signals : list signal) : result (list signal) :=
  match articles with
  | [] => mret signals
  | article :: rest =>
      new ← article_signals article confidence_threshold;
      extract_loop rest confidence_threshold (signals ++ new)
  end.

Definition extract_valid_signals (articles : list dict) (confidence_threshold : Z)
    : result (list signal) :=
  extract_loop articles confidence_threshold [].

(** *** The extraction as the specification words it

    These definitions follow the description of the SignalExtractor, not
    the code; the two are compared below. *)

Definition is_upper (c : N) : bool := between 65 90 c.

Definition char_before (s : pystr) (i : nat) : option N :=
  match i with O => None | S j => s !! j end.

(** A word boundary at position [i] of [s]: exactly one of the characters
    on its two sides is a word character. *)
Definition boundary_at (s : pystr) (i : nat) : bool :=
  xorb (re.isword_opt U (char_before s i)) (re.isword_opt U (s !! i)).

(** The candidate that starts at position [i], if any: a run of uppercase
    ASCII letters that extends neither to the left nor to the right, of
    1 to 5 letters, with a word boundary on each side. *)
Definition candidate_at (s : pystr) (i : nat) : option pystr :=
  let run := take_while is_upper (drop i s) in
  if negb (match char_before s i with Some c => is_upper c | None => false end)
     && (1 <=? length run)%nat && (length run <=? 5)%nat
     && boundary_at s i && boundary_at s (i + length run)
  then Some run else None.

Definition candidates_spec (s : pystr) : list pystr :=
  omap (candidate_at s) (seq 0 (length s)).

Definition confidence_spec (fields : dict) : Z :=
  match assoc_get (py "confidence_score") fields with
  | Some (VInt z) => z
  | _ => 0
  end.

Definition sentiment_spec (fields : dict) : option pystr :=
  match assoc_get (py "sentiment") fields with
  | Some (VStr s) =>
      if decide (s = py "Positive" ∨ s = py "Negative") then Some s else None
  | _ => None
  end.

Definition entity_strings_spec (fields : dict) : list pystr :=
  match assoc_get (py "affected_entities") fields with
  | Some (VList l) => omap (λ e, match e with VStr s => Some s | _ => None end) l
  | _ => []
  end.

Definition article_signals_spec (article : dict) (confidence_threshold : Z)
    : list signal :=
  match assoc_get (py "analysis") article with
  | Some (VDict fields) =>
      if assoc_has (py "error") fields then []                           (* Failure *)
      else if (confidence_spec fields <? confidence_threshold)%Z then []
      else match sentiment_spec fields with
           | None => []
           | Some sentiment =>
               entity ← entity_strings_spec fields;
               candidate ← candidates_spec entity;
               if decide (candidate ∈ VALID_TICKERS)
               then [(candidate, sentiment)] else []
           end
  | _ => []                                                              (* absent *)
  end.

Definition extract_signals_spec (articles : list dict) (confidence_threshold : Z)
    : list signal :=
  article ← articles; article_signals_spec article confidence_threshold.

(** An analyzed article of the data model: the analysis is absent, or an
    object; a Success object has an integer [confidence_score] and a list
    of [affected_entities] when it has these keys. *)
Definition analyzed_article (article : dict) : bool :=
  match assoc_get (py "analysis") article with
  | None | Some VNone => true
  | Some (VDict fields) =>
      assoc_has (py "error") fields
      || (match assoc_get (py "confidence_score") fields with
          | None | Some (VInt _) => true
          | _ => false
          end
          && match assoc_get (py "affected_entities") fields with
             | None | Some (VList _) => true
             | _ => false
             end)
  | _ => false
  end.

End Dashboard.

(** [defaultdict(lambda: {'positive': 0, 'negative': 0})]: the two counters
    of a ticker. *)
Record tally := { tally_positive : Z; tally_negative : Z }.

(** An entry of [scored_tickers]. *)
Record scored_ticker := { positive : Z; negative : Z; net_score : Z }.

(** The body of the first loop of [score_tickers]. *)
Definition count_signal (ticker_scores : assoc tally) (s : signal) : assoc tally :=
  let '(ticker, sentiment) := s in
  if decide (sentiment = py "Positive") then
    let scores := default {| tally_positive := 0; tally_negative := 0 |}
                          (assoc_get ticker ticker_scores) in
    assoc_set ticker {| tally_positive := tally_positive scores + 1;
                        tally_negative := tally_negative scores |} ticker_scores
  else if decide (sentiment = py "Negative") then
    let scores := default {| tally_positive := 0; tally_negative := 0 |}
                          (assoc_get ticker ticker_scores) in
    assoc_set ticker {| tally_positive := tally_positive scores;
                        tally_negative := tally_negative scores + 1 |} ticker_scores
  else ticker_scores.

(** The body of the second loop. *)
Definition keep_scored (scored_tickers : assoc scored_ticker) (item : pystr * tally)
    : assoc scored_ticker :=
  let '(ticker, scores) := item in
  let net := (tally_positive scores - tally_negative scores)%Z in
  if negb (net =? 0)%Z then
    assoc_set ticker {| positive := tally_positive scores;
                        negative := tally_negative scores;
                        net_score := net |} scored_tickers
  else scored_tickers.

Definition score_tickers (signals : list signal) : assoc scored_ticker :=
  let ticker_scores := fold_left count_signal signals [] in
  fold_left keep_scored ticker_scores [].

(** How many of the signals are [(ticker, sentiment)]. *)
Definition count_of (ticker sentiment : pystr) (signals : list signal) : Z :=
  Z.of_nat (length (filter (λ s, s = (ticker, sentiment)) signals)).

(** *** The ranked view

    [df] has one row per entry of [scored_tickers], in the order of the
    dictionary.  [DataFrame.sort_values] belongs to pandas: it is taken as
    a function of the key, the direction and the rows. *)

Abbreviation row := (pystr * scored_ticker)%type.

Definition by_net_score (r : row) : Z := net_score r.2.

Section RankedView.
Variable sort_values : (row → Z) → bool → list row → list row.

Definition bullish_df (df : list row) : list row :=
  sort_values by_net_score false (filter (λ r, (0 < by_net_score r)%Z) df).

Definition bearish_df (df : list row) : list row :=
  sort_values by_net_score true (filter (λ r, (by_net_score r < 0)%Z) df).

End RankedView.

(** The order asked of [sort_values]. *)
Definition in_order (by_ : row → Z) (ascending : bool) (a b : row) : Prop :=
  if ascending then (by_ a ≤ by_ b)%Z else (by_ b ≤ by_ a)%Z.

(** ** analyzer.py *)

Definition quoted (s : string) : pystr := [34%N] ++ py s ++ [34%N].

(** [ANALYSIS_PROMPT], before and after the placeholder
    [{article_content}]. *)
Definition ANALYSIS_PROMPT_head : pystr :=
  py "
As an expert financial analyst, analyze the following news article.
Provide your output strictly in a JSON format with the following keys:
- " ++ quoted "sentiment" ++ py ": " ++ quoted "Positive" ++ py ", "
  ++ quoted "Negative" ++ py ", or " ++ quoted "Neutral" ++ py ".
- " ++ quoted "affected_entities"
  ++ py ": A list of stock tickers or market sectors directly affected.
- " ++ quoted "event_summary"
  ++ py ": A brief, one-sentence summary of the key event.
- " ++ quoted "potential_impact"
  ++ py ": A concise analysis of the potential impact on the entities.
- " ++ quoted "confidence_score"
  ++ py ": A score from 1 to 5 on your confidence in this analysis.

Article: " ++ [34%N].

Definition ANALYSIS_PROMPT_tail : pystr :=
  [34%N] ++ py "

JSON Output:
".

(** The libraries behind the analyzers, and the environment of a run.
    A model does not answer the same text twice the same way: the
    requests are numbered. *)
Record services := {
  (** [ollama.chat(model=..., messages=[...], format='json')['message']['content']]
      for request [n], model and prompt *)
  ollama_chat : nat → pystr → pystr → result pystr;
  (** [openai.chat.completions.create(...).choices[0].message.content]
      for request [n], API key, model and prompt *)
  openai_create : nat → pystr → pystr → pystr → result pystr;
  (** [genai.GenerativeModel(model).generate_content(prompt).text]
      for request [n], API key, model and prompt *)
  gemini_generate_content : nat → pystr → pystr → pystr → result pystr;
  (** [json.loads] *)
  json_loads : pystr → result value;
  (** [str(v)] for a value that is not a string *)
  str_value : value → pystr;
  (** [os.getenv("NEWS_API_KEY")] *)
  NEWS_API_KEY : option pystr;
  (** [NewsFetcher.fetch_us_headlines()] *)
  fetch_us_headlines : pystr → result (list dict)
}.

Inductive LLMAnalyzer :=
  | OllamaAnalyzer (model_name : pystr)
  | OpenAIAnalyzer (api_key model_name : pystr)
  | GeminiAnalyzer (api_key model_name : pystr).

Section Analyzer.
Variable svc : services.
Variable U : unicode_db.

(** [ANALYSIS_PROMPT.format(article_content=article_content)] *)
Definition format_prompt (article_content : value) : pystr :=
  ANALYSIS_PROMPT_head
  ++ match article_content with
     | VStr s => s
     | v => str_value svc v
     end
  ++ ANALYSIS_PROMPT_tail.

(** The text an analyzer hands to [json.loads], for request [n]. *)
Definition reply_text (analyzer : LLMAnalyzer) (n : nat) (article_content : value)
    : result pystr :=
  match analyzer with
  | OllamaAnalyzer model_name =>
      let prompt := format_prompt article_content in
      ollama_chat svc n model_name prompt
  | OpenAIAnalyzer api_key model_name =>
      let prompt := format_prompt article_content in
      openai_create svc n api_key model_name prompt
  | GeminiAnalyzer api_key model_name =>
      let prompt :=
        format_prompt article_content
        ++ py "
Ensure your entire response is only the raw JSON object, without any markdown formatting." in
      text ← gemini_generate_content svc n api_key model_name prompt;
      let cleaned_response :=
        replace (py "```") [] (replace (py "```json") [] (strip U text)) in
      mret cleaned_response
  end.

(** [analyzer.analyze(article_content)], as request [n] *)
Definition analyze (analyzer : LLMAnalyzer) (n : nat) (article_content : value)
    : result value :=
  text ← reply_text analyzer n article_content;
  json_loads svc text.

End Analyzer.

(** [x or default] for an optional string *)
Definition or_default (x : option pystr) (dflt : string) : pystr :=
  match x with
  | Some (c :: s) => c :: s
  | _ => py dflt
  end.

(** [not api_key] *)
Definition missing (api_key : option pystr) : bool :=
  match api_key with
  | Some (_ :: _) => false
  | _ => true
  end.

(** The constructors of the analyzers store the key and the model name;
    they do not raise. *)
Definition get_analyzer (provider : pystr) (api_key model_name : option pystr)
    : result LLMAnalyzer :=
  if decide (provider = py "Ollama") then
    Ok (OllamaAnalyzer (or_default model_name "llama3.1"))
  else if decide (provider = py "OpenAI") then
    if missing api_key then Raise (ValueError (py "OpenAI API key is required."))
    else Ok (OpenAIAnalyzer (default [] api_key) (or_default model_name "gpt-4o-mini"))
  else if decide (provider = py "Google Gemini") then
    if missing api_key then Raise (ValueError (py "Google Gemini API key is required."))
    else Ok (GeminiAnalyzer (default [] api_key)
                            (or_default model_name "gemini-1.5-flash"))
  else Raise (ValueError (py "Unknown LLM provider: " ++ provider)).

(** ** pipeline.py *)

(** What a run reads and changes: the two JSON documents on disk (absent,
    or the list of articles they hold) and the number of requests sent to
    a provider so far. *)
Record world := {
  preprocessed_file : option (list dict);   (* preprocessed_articles.json *)
  analyzed_file : option (list dict);       (* analyzed_articles.json *)
  requests : nat
}.

(** A block of statements: it returns or raises, and changes the world. *)
Definition io (A : Type) : Type := world → result A * world.

#[global] Instance io_ret : MRet io := λ A a w, (Ok a, w).
#[global] Instance io_bind : MBind io :=
  λ A B k m w, match m w with
               | (Ok a, w') => k a w'
               | (Raise e, w') => (Raise e, w')
               end.

Definition pure {A} (r : result A) : io A := λ w, (r, w).

(** [try: body  except Exception as e: handler(e)] *)
Definition try_except {A} (body : io A) (handler : exn → io A) : io A :=
  λ w, match body w with
       | (Ok a, w') => (Ok a, w')
       | (Raise e, w') => handler e w'
       end.

(** *** Writing a document

    A document is written with [json.dump(document, f, ensure_ascii=False,
    indent=4)] into a file opened with [encoding='utf-8']: the text of
    every key and of every string goes to the file as it is.  UTF-8 has no
    encoding for a surrogate, a code point from U+D800 to U+DFFF, which
    [json.loads] and [response.json] return for an escape that no second
    escape completes: [f.write] then raises [UnicodeEncodeError], when
    [open] has already emptied the file.  (What [print] makes of such
    text depends on the console, which is taken to print any text.) *)

Definition is_surrogate (c : N) : bool := ((55296 <=? c) && (c <=? 57343))%N.

Definition encodable_text (s : pystr) : bool :=
  forallb (λ c, negb (is_surrogate c)) s.

Fixpoint encodable (v : value) : bool :=
  match v with
  | VStr s => encodable_text s
  | VList l => forallb encodable l
  | VDict d => forallb (λ kv, match kv with
                              | (k, x) => encodable_text k && encodable x
                              end) d
  | VNone | VBool _ | VInt _ => true
  end.

(** The [UnicodeEncodeError] of the codec.  Of its message the reason is
    kept; the character and its position in the text are left out. *)
Definition UnicodeEncodeError : exn := LibraryError (py "surrogates not allowed").

(** What the [with] statement leaves in the file: the document, or the
    exception when it cannot be encoded. *)
Definition json_dump (document : list dict) : result (list dict) :=
  if forallb (λ article, encodable (VDict article)) document then Ok document
  else Raise UnicodeEncodeError.

(** What a run leaves on disk: a world, or what is left of one when the
    writing of a document was cut short.  The file is there, it holds
    the beginning of the text at most, and [json.load] finds no document
    in it. *)
Inductive disk :=
  | Intact (w : world)
  | PreprocessedCutShort (analyzed : option (list dict)) (sent : nat)
  | AnalyzedCutShort (preprocessed : option (list dict)) (sent : nat).

Coercion Intact : world >-> disk.
Arguments pair {A B} & a b.

(** A run of a pipeline from a world. *)
Definition run (A : Type) : Type := world → result A * disk.

(** What identifies a value in a [set]: its hash and [==].  [True] and
    [False] are the integers 1 and 0; lists and dictionaries cannot be
    hashed. *)
Abbreviation set_key := (option (Z + pystr))%type.

Definition hash_key (v : value) : result set_key :=
  match v with
  | VNone => Ok None
  | VBool b => Ok (Some (inl (Z.b2z b)))
  | VInt z => Ok (Some (inl z))
  | VStr s => Ok (Some (inr s))
  | VList _ | VDict _ =>
      Raise (TypeError (py "unhashable type: '" ++ type_name v ++ py "'"))
  end.

(** The loop that removes duplicates in [run_fetch_pipeline]. *)
Fixpoint unique_loop (us_articles unique_articles : list dict)
    (seen_urls : gset set_key) : result (list dict) :=
  match us_articles with
  | [] => Ok unique_articles
  | article :: rest =>
      url ← getitem "url" article;
      k ← hash_key url;
      if decide (k ∉ seen_urls) then
        unique_loop rest (unique_articles ++ [article]) (seen_urls ∪ {[k]})
      else
        unique_loop rest unique_articles seen_urls
  end.

Definition unique_articles (us_articles : list dict) : result (list dict) :=
  unique_loop us_articles [] ∅.

(** [v[:50]] as the title of an article is printed: a string or a list
    can be sliced (the message for a dictionary is that of CPython up to
    3.11). *)
Definition slice50 (v : value) : result value :=
  match v with
  | VStr s => Ok (VStr (take 50 s))
  | VList l => Ok (VList (take 50 l))
  | VDict _ => Raise (TypeError (py "unhashable type: 'slice'"))
  | _ => Raise (TypeError (py "'" ++ type_name v ++ py "' object is not subscriptable"))
  end.

Section Pipeline.
Variable svc : services.
Variable U : unicode_db.

Definition run_fetch_pipeline : run bool :=
  λ w,
    match NEWS_API_KEY svc with
    | Some (c :: key) =>
        match us_articles ← fetch_us_headlines svc (c :: key);
              unique ← unique_articles us_articles;
              mret (preprocess_articles U unique) with
        | Ok [] => (Ok false, Intact w)
        | Ok processed_articles =>
            match json_dump processed_articles with
            | Ok written =>
                (Ok true, Intact {| preprocessed_file := Some written;
                                    analyzed_file := analyzed_file w;
                                    requests := requests w |})
            | Raise e => (Raise e, PreprocessedCutShort (analyzed_file w) (requests w))
            end
        | Raise e => (Raise e, Intact w)
        end
    | _ => (Raise (ValueError
             (py "API key not found. Please set the 'NEWS_API_KEY' environment variable.")),
            Intact w)
    end.

(** One request to the provider. *)
Definition request (analyzer : LLMAnalyzer) (article_content : value) : io value :=
  λ w, (analyze svc U analyzer (requests w) article_content,
        {| preprocessed_file := preprocessed_file w;
           analyzed_file := analyzed_file w;
           requests := S (requests w) |}).

(** [{"error": str(e)}] *)
Definition error_object (e : exn) : value :=
  VDict [(py "error", VStr (str_exn e))].

(** The [try] statement of the loop, for one article. *)
Definition analyze_article (analyzer : LLMAnalyzer) (article : dict) : io dict :=
  try_except
    (article_content ← pure (getitem "cleaned_content" article);
     analysis_data ← request analyzer article_content;
     mret (assoc_set (py "analysis") analysis_data article))
    (λ e, mret (assoc_set (py "analysis") (error_object e) article)).

Fixpoint analyze_loop (analyzer : LLMAnalyzer) (processed_articles : list dict)
    (analyzed_articles : list dict) : io (list dict) :=
  match processed_articles with
  | [] => mret analyzed_articles
  | article :: rest =>
      (* the title is printed before the [try] statement *)
      title ← pure (getitem "title" article);
      _ ← pure (slice50 title);
      article ← analyze_article analyzer article;
      analyze_loop analyzer rest (analyzed_articles ++ [article])
  end.

Definition run_analysis_pipeline (llm_provider : pystr)
    (api_key model_name : option pystr) : run bool :=
  λ w,
    match preprocessed_file w with
    | None => (Ok false, Intact w)
    | Some processed_articles =>
        match get_analyzer llm_provider api_key model_name with
        | Raise (ValueError _) => (Ok false, Intact w)
        | Raise e => (Raise e, Intact w)
        | Ok analyzer =>
            match analyze_loop analyzer processed_articles [] w with
            | (Ok analyzed_articles, w') =>
                match json_dump analyzed_articles with
                | Ok written =>
                    (Ok true, Intact {| preprocessed_file := preprocessed_file w';
                                        analyzed_file := Some written;
                                        requests := requests w' |})
                | Raise e =>
                    (Raise e, AnalyzedCutShort (preprocessed_file w') (requests w'))
                end
            | (Raise e, w') => (Raise e, Intact w')
            end
        end
    end.

(** *** What a run is said to leave behind *)

(** The [analysis] of an article whose request has number [n]. *)
Definition analysis_entry (analyzer : LLMAnalyzer) (n : nat) (article : dict) : value :=
  match assoc_get (py "cleaned_content") article with
  | None => error_object (KeyError (py "cleaned_content"))
  | Some article_content =>
      match analyze svc U analyzer n article_content with
      | Ok analysis_data => analysis_data
      | Raise e => error_object e
      end
  end.

(** The number of requests the articles cause: one for each article with
    a [cleaned_content]. *)
Definition requests_for (articles : list dict) : nat :=
  length (filter (λ a, assoc_has (py "cleaned_content") a = true) articles).

(** The articles of the input, each with its [analysis], the first
    request having number [n]. *)
Definition annotated (analyzer : LLMAnalyzer) (n : nat) (articles : list dict)
    : list dict :=
  imap (λ i article,
          assoc_set (py "analysis")
            (analysis_entry analyzer (n + requests_for (take i articles)) article)
            article)
       articles.

End Pipeline.

(** An article whose title can be printed. *)
Definition has_title (article : dict) : bool :=
  match assoc_get (py "title") article with
  | Some (VStr _) | Some (VList _) => true
  | _ => false
  end.

(** The key under which the url of an article is remembered, when it has
    one. *)
Definition url_key (article : dict) : option set_key :=
  match assoc_get (py "url") article with
  | Some url => match hash_key url with Ok k => Some k | Raise _ => None end
  | None => None
  end.

Definition has_url (article : dict) : bool :=
  match url_key article with Some _ => true | None => false end.

(** The first article of each url: those whose url is not the url of an
    earlier article. *)
Definition first_occurrences (articles : list dict) : list dict :=
  omap (λ i, article ← articles !! i;
             if decide (url_key article ∈ url_key <$> take i articles)
             then None else Some article)
       (seq 0 (length articles)).

(** ** Values for the examples *)

Definition example_analysis (sentiment : string) (confidence_score : Z)
    (affected_entities : list string) : value :=
  VDict [(py "sentiment", VStr (py sentiment));
         (py "affected_entities", VList ((λ e, VStr (py e)) <$> affected_entities));
         (py "event_summary", VStr (py "Quarterly results were published."));
         (py "potential_impact", VStr (py "The shares may move."));
         (py "confidence_score", VInt confidence_score)].

Definition example_article (title url content : string) : dict :=
  [(py "source", VStr (py "Newswire"));
   (py "title", VStr (py title));
   (py "url", VStr (py url));
   (py "published_at", VStr (py "2024-05-01T12:00:00Z"));
   (py "content", VStr (py content))].

Definition example_cleaned (title url content : string) : dict :=
  example_article title url content
  ++ [(py "cleaned_content", VStr (clean_article_content ascii_only (py content)))].

Definition example_analyzed (title : string) (analysis : value) : dict :=
  example_cleaned title "https://example.com/a" "Apple rallied."
  ++ [(py "analysis", analysis)].

Definition example_registry : gset pystr := {[ py "AAPL"; py "MSFT" ]}.

(** An environment for the examples: Ollama answers the first request
    with prose and the later ones with the empty object; the other
    providers cannot be reached.  [json.loads] is given on these two
    texts. *)
Definition example_services : services :=
  {| ollama_chat := λ n _ _,
       match n with
       | O => Ok (py "Sorry, I cannot help with that.")
       | _ => Ok (py "{}")
       end;
     openai_create := λ _ _ _ _, Raise (LibraryError (py "Connection error."));
     gemini_generate_content := λ _ _ _ _, Raise (LibraryError (py "Connection error."));
     json_loads := λ text,
       if decide (text = py "{}") then Ok (VDict [])
       else Raise (LibraryError (py "Expecting value: line 1 column 1 (char 0)"));
     str_value := λ _, [];
     NEWS_API_KEY := None;
     fetch_us_headlines := λ _, Ok [] |}.

(** A sort for the examples: the merge sort of stdpp on the order asked of
    [sort_values]. *)
#[global] Instance in_order_dec by_ ascending a b :
  Decision (in_order by_ ascending a b).
Proof. unfold in_order. destruct ascending; apply _. Defined.

Definition example_sort_values (by_ : row → Z) (ascending : bool) (df : list row)
    : list row :=
  merge_sort (in_order by_ ascending) df.

Definition example_scored : assoc scored_ticker :=
  [(py "A", {| positive := 3; negative := 0; net_score := 3 |});
   (py "B", {| positive := 1; negative := 3; net_score := -2 |});
   (py "C", {| positive := 2; negative := 1; net_score := 1 |})].

(** A run with Ollama on two articles: the first reply is not JSON, the
    second is. *)
Definition example_world : world :=
  {| preprocessed_file :=
       Some [example_cleaned "Acme" "https://example.com/1" "Shares of Acme fell.";
             example_cleaned "Apple" "https://example.com/2" "Apple (AAPL) rose."];
     analyzed_file := None;
     requests := 0 |}.

(** An environment with a key for NewsAPI, where three headlines are
    fetched: the third has the url of the first, the second is blank. *)
Definition example_news_services : services :=
  {| ollama_chat := ollama_chat example_services;
     openai_create := openai_create example_services;
     gemini_generate_content := gemini_generate_content example_services;
     json_loads := json_loads example_services;
     str_value := str_value example_services;
     NEWS_API_KEY := Some (py "0123456789abcdef");
     fetch_us_headlines := λ _,
       Ok [example_article "Rates" "https://example.com/1" "Rates   held [+12 chars]";
           example_article "Blank" "https://example.com/2" "   ";
           example_article "Rates again" "https://example.com/1" "Rates held."] |}.

Definition example_start : world :=
  {| preprocessed_file := None; analyzed_file := None; requests := 0 |}.

(** ** dashboard.py: the controls and the main display

    The session state and the redrawing of the page are left out; what is
    kept is what the script decides and what it computes. *)

(** The choices of the [st.selectbox]. *)
Definition LLM_PROVIDERS : list pystr :=
  [py "Ollama"; py "OpenAI"; py "Google Gemini"].

(** [api_key] as the controls set it: the text of the field shown for
    OpenAI and for Google Gemini, [None] for Ollama. *)
Definition sidebar_api_key (llm_provider typed : pystr) : option pystr :=
  if decide (llm_provider = py "OpenAI") then Some typed
  else if decide (llm_provider = py "Google Gemini") then Some typed
  else None.

Inductive message :=
  | st_warning (text : pystr)
  | st_success (text : pystr)
  | st_error (text : pystr).

Section Controls.
Variable svc : services.
Variable U : unicode_db.

(** What the button "Analyze News" does.  It is disabled while
    preprocessed_articles.json does not exist. *)
Definition analyze_news (llm_provider typed : pystr) : run message :=
  λ w,
    let api_key := sidebar_api_key llm_provider typed in
    if negb (bool_decide (llm_provider = py "Ollama")) && missing api_key then
      (Ok (st_warning (py "Please enter your " ++ llm_provider ++ py " API key.")),
       Intact w)
    else
      match run_analysis_pipeline svc U llm_provider api_key None w with
      | (Ok success, left_on_disk) =>
          (Ok (if (success : bool) then st_success (py "Analysis complete!")
               else st_error (py "Analysis failed.")), left_on_disk)
      | (Raise e, left_on_disk) => (Raise e, left_on_disk)
      end.

(** What the button "Fetch Latest News" does. *)
Definition fetch_latest_news : run message :=
  λ w,
    match run_fetch_pipeline svc U w with
    | (Ok success, left_on_disk) =>
        (Ok (if (success : bool) then st_success (py "News fetched successfully!")
             else st_error (py "Failed to fetch news.")), left_on_disk)
    | (Raise e, left_on_disk) => (Raise e, left_on_disk)
    end.

End Controls.

(** What the main part of the page shows. *)
Inductive display :=
  | Welcome                        (* no analyzed articles *)
  | NoSignals                      (* no scored ticker *)
  | Overview (total_articles : nat) (bullish bearish : list row).

Section MainDisplay.
Variable U : unicode_db.
Variable VALID_TICKERS : gset pystr.
Variable sort_values : (row → Z) → bool → list row → list row.

(** [articles] is what [load_analyzed_data] returned: [None] without the
    file, the document otherwise. *)
Definition main_display (articles : option (list dict)) (confidence_thresh : Z)
    : result display :=
  match articles with
  | None | Some [] => mret Welcome
  | Some articles =>
      signals ← extract_valid_signals U VALID_TICKERS articles confidence_thresh;
      let scored_tickers := score_tickers signals in
      match scored_tickers with
      | [] => mret NoSignals
      | _ =>
          let df := scored_tickers in
          mret (Overview (length articles)
                         (bullish_df sort_values df) (bearish_df sort_values df))
      end
  end.

End MainDisplay.

(** [load_analyzed_data()] *)
Definition load_analyzed_data (w : world) : option (list dict) := analyzed_file w.

(** A token: 1 to 5 capital letters of ASCII. *)
Definition ticker_shaped (t : pystr) : Prop :=
  (1 ≤ length t ≤ 5)%nat ∧ ∀ c, c ∈ t → is_upper c = true.


(** ** [news_fetcher.py] *)

(** What [requests.get], [raise_for_status] and [response.json] give for
    a request: the decoded body, or a [RequestException] (no connection,
    a status of error, a body that is not JSON). *)
Inductive response :=
  | RequestException (msg : pystr)
  | Json (data : value).

(** [v[k]] for a string literal [k] (the messages are those of CPython
    3.11). *)
Definition subscript (k : string) (v : value) : result value :=
  match v with
  | VDict d => getitem k d
  | VStr _ => Raise (TypeError (py "string indices must be integers, not 'str'"))
  | VList _ => Raise (TypeError (py "list indices must be integers or slices, not str"))
  | _ => Raise (TypeError (py "'" ++ type_name v ++ py "' object is not subscriptable"))
  end.

Module NewsFetcher.

Definition HEADLINES_URL : pystr := py "https://newsapi.org/v2/top-headlines".

(** The loop of [_clean_articles]. *)
Fixpoint clean_loop (articles : list value) (cleaned_articles : list dict)
    : result (list dict) :=
  match articles with
  | [] => Ok cleaned_articles
  | article :: rest =>
      a ← get_method article;
      if truthy (dict_get "content" a) then
        source ← getitem "source" a;
        name ← subscript "name" source;
        title ← getitem "title" a;
        url ← getitem "url" a;
        published_at ← getitem "publishedAt" a;
        content ← getitem "content" a;
        clean_loop rest
          (cleaned_articles ++
           [[(py "source", name); (py "title", title); (py "url", url);
             (py "published_at", published_at); (py "content", content)]])
      else clean_loop rest cleaned_articles
  end.

Definition _clean_articles (data : value) : result (list dict) :=
  d ← get_method data;
  articles ← iterate (dict_get_default "articles" (VList []) d);
  clean_loop articles [].

Definition us_params (api_key : pystr) (page_size : Z) : dict :=
  [(py "country", VStr (py "us")); (py "category", VStr (py "business"));
   (py "pageSize", VInt page_size); (py "apiKey", VStr api_key)].

Definition keyword_params (api_key query country : pystr) (page_size : Z) : dict :=
  [(py "country", VStr country); (py "q", VStr query);
   (py "pageSize", VInt page_size); (py "apiKey", VStr api_key)].

Section Requests.
(** [requests.get(url, params=params)] and the decoding of its reply *)
Variable requests_get : pystr → dict → response.

Definition fetch_us_headlines (api_key : pystr) (page_size : Z)
    : result (list dict) :=
  match requests_get HEADLINES_URL (us_params api_key page_size) with
  | Json data => _clean_articles data
  | RequestException e => Ok []
  end.

Definition fetch_international_keyword_news (api_key query country : pystr)
    (page_size : Z) : result (list dict) :=
  match requests_get HEADLINES_URL (keyword_params api_key query country page_size) with
  | Json data => _clean_articles data
  | RequestException e => Ok []
  end.

End Requests.

End NewsFetcher.

(** The keys of an article as [_clean_articles] builds it. *)
Definition FETCHED_KEYS : list pystr :=
  [py "source"; py "title"; py "url"; py "published_at"; py "content"].

(** What the loop appends for an entry. *)
Definition fetched_from (articles : list value) (a : dict) : Prop :=
  a.*1 = FETCHED_KEYS
  ∧ truthy (dict_get "content" a) = true
  ∧ ∃ src, VDict src ∈ articles
      ∧ assoc_get (py "title") src = assoc_get (py "title") a
      ∧ assoc_get (py "url") src = assoc_get (py "url") a
      ∧ assoc_get (py "content") src = assoc_get (py "content") a
      ∧ assoc_get (py "publishedAt") src = assoc_get (py "published_at") a.

(** An entry of ["articles"] with the fields NewsAPI documents: a source
    with a name, a title, a url that is a string, a date. *)
Definition documented (article : value) : bool :=
  match article with
  | VDict a =>
      match assoc_get (py "source") a, assoc_get (py "title") a,
            assoc_get (py "url") a, assoc_get (py "publishedAt") a with
      | Some (VDict source), Some _, Some (VStr _), Some _ =>
          assoc_has (py "name") source
      | _, _, _, _ => false
      end
  | _ => false
  end.

(** An environment whose headlines come from [NewsFetcher] over
    [requests_get]; [run_fetch_pipeline] leaves [page_size] at 100. *)
Definition over_requests (svc : services) (requests_get : pystr → dict → response)
    : Prop :=
  ∀ api_key,
    fetch_us_headlines svc api_key
    = NewsFetcher.fetch_us_headlines requests_get api_key 100.

(** ** [ticker_validator.py] *)

Definition TICKER_URLS : list (pystr * pystr) :=
  [(py "NASDAQ", py "https://www.nasdaqtrader.com/dynamic/SymDir/nasdaqlisted.txt");
   (py "NYSE", py "https://www.nasdaqtrader.com/dynamic/SymDir/otherlisted.txt")].

(** The characters at which [str.splitlines] ends a line: LF, VT, FF, CR,
    FS, GS, RS, NEL, LS and PS. *)
Definition is_linebreak (c : N) : bool :=
  existsb (N.eqb c) [10; 11; 12; 13; 28; 29; 30; 133; 8232; 8233]%N.

(** [s.splitlines()]: CR LF ends one line, and no empty line follows the
    last line break. *)
Fixpoint splitlines_from (s line : pystr) : list pystr :=
  match s with
  | [] => match line with [] => [] | _ => [line] end
  | c :: s' =>
      if is_linebreak c then
        match c, s' with
        | 13%N, 10%N :: s'' => line :: splitlines_from s'' []
        | _, _ => line :: splitlines_from s' []
        end
      else splitlines_from s' (line ++ [c])
  end.

Definition splitlines (s : pystr) : list pystr := splitlines_from s [].

(** A table as [pd.read_csv] returns it, with text in its cells: the
    columns by name, [None] for NaN. *)
Abbreviation DataFrame := (assoc (list (option pystr))).

Definition ticker_column (df : DataFrame) : pystr :=
  if bool_decide (py "Symbol" ∈ df.*1) then py "Symbol" else py "ACT Symbol".

(** [df[:-1][ticker_column].dropna().tolist()] *)
Definition symbols (df : DataFrame) : result (list pystr) :=
  match assoc_get (ticker_column df) df with
  | Some cells => Ok (omap id (removelast cells))
  | None => Raise (KeyError (ticker_column df))
  end.

Section TickerValidator.
(** [pd.read_csv(url, sep='|')] *)
Variable read_csv : pystr → result DataFrame.
(** [sorted] on a list of strings *)
Variable sorted : list pystr → list pystr.

(** The loop over the exchanges, with its [try] statement. *)
Fixpoint download_loop (urls : list (pystr * pystr)) (all_tickers : gset pystr)
    : gset pystr :=
  match urls with
  | [] => all_tickers
  | (exchange, url) :: rest =>
      match df ← read_csv url; symbols df with
      | Ok tickers => download_loop rest (all_tickers ∪ list_to_set tickers)
      | Raise e => download_loop rest all_tickers
      end
  end.

(** [get_ticker_list()], from the text of the cache file when there is
    one; returns the set and the cache file it leaves. *)
Definition get_ticker_list (cache : option pystr) : gset pystr * option pystr :=
  match cache with
  | Some text => (list_to_set (splitlines text), cache)
  | None =>
      let all_tickers := download_loop TICKER_URLS ∅ in
      (all_tickers,
       Some (concat ((λ ticker, ticker ++ [10%N]) <$> sorted (elements all_tickers))))
  end.

End TickerValidator.

(** ** More values for the examples *)

(** What the fetch run writes from [example_start]. *)
Definition example_fetched : world :=
  {| preprocessed_file :=
       Some [example_cleaned "Rates" "https://example.com/1" "Rates   held [+12 chars]"];
     analyzed_file := None;
     requests := 0 |}.

(** What the analysis run with Ollama makes of it: the first request is
    answered with prose. *)
Definition example_fetched_analyzed : world :=
  {| preprocessed_file := preprocessed_file example_fetched;
     analyzed_file :=
       Some [example_cleaned "Rates" "https://example.com/1" "Rates   held [+12 chars]"
             ++ [(py "analysis",
                  VDict [(py "error",
                          VStr (py "Expecting value: line 1 column 1 (char 0)"))])]];
     requests := 1 |}.



(** Gemini answering with a fenced block. *)
Definition example_fenced : pystr :=
  py "```json" ++ [10%N] ++ py "{}" ++ [10%N] ++ py "```".

Definition example_gemini_services : services :=
  {| ollama_chat := ollama_chat example_services;
     openai_create := openai_create example_services;
     gemini_generate_content := λ _ _ _ _, Ok example_fenced;
     json_loads := json_loads example_services;
     str_value := str_value example_services;
     NEWS_API_KEY := None;
     fetch_us_headlines := fetch_us_headlines example_services |}.

(** An entry of the reply of NewsAPI. *)
Definition example_entry (title url : string) (content : value) : value :=
  VDict [(py "source", VDict [(py "id", VNone); (py "name", VStr (py "Newswire"))]);
         (py "author", VNone);
         (py "title", VStr (py title));
         (py "description", VNone);
         (py "url", VStr (py url));
         (py "urlToImage", VNone);
         (py "publishedAt", VStr (py "2024-05-01T12:00:00Z"));
         (py "content", content)].

(** A reply with two entries, the second without content. *)
Definition example_body : dict :=
  [(py "status", VStr (py "ok"));
   (py "totalResults", VInt 2);
   (py "articles",
    VList [example_entry "Rates" "https://example.com/1"
             (VStr (py "Rates   held [+12 chars]"));
           example_entry "Video" "https://example.com/2" VNone])].

(** A reply whose second entry has a content and nothing else. *)
Definition example_broken_body : dict :=
  [(py "status", VStr (py "ok"));
   (py "articles",
    VList ([example_entry "Rates" "https://example.com/1" (VStr (py "Rates held."))]
           ++ VDict [(py "content", VStr (py "Orphan."))] :: []))].

(** An environment with a key for NewsAPI whose headlines come from
    [NewsFetcher] over [requests_get]. *)
Definition example_http_services (requests_get : pystr → dict → response) : services :=
  {| ollama_chat := ollama_chat example_services;
     openai_create := openai_create example_services;
     gemini_generate_content := gemini_generate_content example_services;
     json_loads := json_loads example_services;
     str_value := str_value example_services;
     NEWS_API_KEY := Some (py "0123456789abcdef");
     fetch_us_headlines := λ api_key,
       NewsFetcher.fetch_us_headlines requests_get api_key 100 |}.

(** The order of [sorted] on strings: by code points. *)
Fixpoint str_le (a b : pystr) : bool :=
  match a, b with
  | [], _ => true
  | _ :: _, [] => false
  | x :: a', y :: b' => (x <? y) || ((x =? y) && str_le a' b')
  end.

Definition example_sorted (l : list pystr) : list pystr :=
  merge_sort (λ a b, Is_true (str_le a b)) l.

(** The file of NASDAQ with two symbols, a cell without value and the
    footer; the file of NYSE cannot be read. *)
Definition example_read_csv (url : pystr) : result DataFrame :=
  if decide (url = py "https://www.nasdaqtrader.com/dynamic/SymDir/nasdaqlisted.txt")
  then Ok [(py "Symbol",
            [Some (py "MSFT"); None; Some (py "AAPL");
             Some (py "File Creation Time: 0501202412:00")]);
           (py "Security Name",
            [Some (py "Microsoft Corporation"); None; Some (py "Apple Inc.");
             None])]
  else Raise (LibraryError (py "HTTP Error 503: Service Unavailable")).

(** An environment where a surrogate comes in: the headline ends in the
    first half of a pair, and so does what the oracle answers. *)
Definition example_surrogate_services : services :=
  {| ollama_chat := λ _ _ _, Ok (py "{}");
     openai_create := openai_create example_services;
     gemini_generate_content := gemini_generate_content example_services;
     json_loads := λ _, Ok (VDict [(py "event_summary", VStr [55357%N])]);
     str_value := str_value example_services;
     NEWS_API_KEY := Some (py "0123456789abcdef");
     fetch_us_headlines := λ _,
       Ok [[(py "source", VStr (py "Newswire"));
            (py "title", VStr (py "Rates"));
            (py "url", VStr (py "https://example.com/1"));
            (py "published_at", VStr (py "2024-05-01T12:00:00Z"));
            (py "content", VStr (py "Rates held " ++ [55357%N]))]] |}.
(* ------------------------------------------------------------------ *)
(** * Properties *)

(** ** Lists and strings *)

Lemma take_drop_while {A} (p : A → bool) (l : list A) :
  take_while p l ++ drop_while p l = l.
Proof.
  induction l as [|x l IH]; simpl; [done|].
  destruct (p x); simpl; [by rewrite IH | done].
Qed.

Lemma drop_while_head {A} (p : A → bool) (l : list A) (x : A) :
  head (drop_while p l) = Some x → p x = false.
Proof.
  induction l as [|y l IH]; simpl; [done|].
  destruct (p y) eqn:E; simpl; [done|]. intros [= <-]. done.
Qed.

Lemma drop_while_id {A} (p : A → bool) (l : list A) :
  (∀ x, head l = Some x → p x = false) → drop_while p l = l.
Proof.
  destruct l as [|y l]; simpl; [done|].
  intros H. by rewrite (H y eq_refl).
Qed.

Lemma head_rev {A} (l : list A) : head (rev l) = last l.
Proof.
  induction l as [|x l IH] using rev_ind; [done|].
  by rewrite rev_unit, last_snoc.
Qed.

Lemma backtrack_always (f : nat → option nat) (g : nat → nat) lo k :
  (∀ n, f n = Some (g n)) →
  re.backtrack f lo k = if (k <? lo)%nat then None else Some (g k).
Proof.
  intros Hf. destruct k; simpl; rewrite Hf; done.
Qed.

Section Normalizer.
Variable U : unicode_db.

Lemma isspace_32 : isspace U 32 = true.
Proof. reflexivity. Qed.

Lemma match_here_whitespace prev s :
  re.match_here U WHITESPACE_RUN prev s =
  match length (take_while (isspace U) s) with
  | O => None
  | S n => Some (S n)
  end.
Proof.
  unfold WHITESPACE_RUN, re.plus. cbn [re.match_here re.in_cls].
  rewrite (backtrack_always _ (fun n => (n + 0)%nat)) by done.
  destruct (length _) as [|n]; simpl; [done|]. f_equal. lia.
Qed.

Lemma sub_whitespace_collapsed s :
  ∀ prev,
    (∀ k, k = length (take_while (isspace U) s) →
          let out := re.sub_from U WHITESPACE_RUN (py " ") prev s k in
          collapsed U out = true ∧ isspace_opt U (head out) = false)
    ∧ collapsed U (re.sub_from U WHITESPACE_RUN (py " ") prev s O) = true.
Proof.
  induction s as [|c s IH]; intros prev.
  - split; [intros k ->|]; cbn [re.sub_from take_while length];
      rewrite ?match_here_whitespace; simpl; done.
  - destruct (IH (Some c)) as [IH1 IH2].
    assert (Hnow : ∀ p, collapsed U (re.sub_from U WHITESPACE_RUN (py " ") p (c :: s) O) = true
              ∧ (isspace U c = false →
                 isspace_opt U (head (re.sub_from U WHITESPACE_RUN (py " ") p (c :: s) O)) = false)).
    { intros p. cbn [re.sub_from]. rewrite match_here_whitespace.
      cbn [take_while]. destruct (isspace U c) eqn:Ec; cbn [length].
      - destruct (IH1 _ eq_refl) as [Hc Hh]. split; [|done].
        change (py " ") with [32] in *. cbn [app collapsed].
        rewrite Hc, Hh. done.
      - cbn [collapsed head isspace_opt]. rewrite Ec, IH2. done. }
    split; [|apply Hnow].
    intros k ->. cbn [take_while].
    destruct (isspace U c) eqn:Ec; cbn [length].
    + cbn [re.sub_from]. apply IH1. done.
    + destruct (Hnow prev) as [H1 H2]. split; [done|]. by apply H2.
Qed.

Lemma sub_whitespace_fixed s prev :
  collapsed U s = true → re.sub_from U WHITESPACE_RUN (py " ") prev s O = s.
Proof.
  revert prev. induction s as [|c s IH]; intros prev Hc.
  - cbn [re.sub_from]. rewrite match_here_whitespace. done.
  - cbn [collapsed] in Hc. apply andb_true_iff in Hc as [Hc Hs].
    cbn [re.sub_from]. rewrite match_here_whitespace. cbn [take_while].
    destruct (isspace U c) eqn:Ec; cbn [length].
    + simpl in Hc. apply andb_true_iff in Hc as [Hc32 Hnext].
      apply N.eqb_eq in Hc32 as ->.
      assert (take_while (isspace U) s = []) as ->.
      { destruct s as [|d s]; [done|]. simpl in Hnext |- *.
        destruct (isspace U d); done. }
      cbn [length]. change (py " ") with [32]. cbn [app].
      by rewrite IH.
    + by rewrite IH.
Qed.

Lemma collapsed_app_l a b : collapsed U (a ++ b) = true → collapsed U a = true.
Proof.
  induction a as [|c a IH]; [done|]. cbn [app collapsed].
  intros H. apply andb_true_iff in H as [Hc Ha].
  rewrite (IH Ha), andb_true_r.
  destruct a as [|d a]; [|done].
  cbn [head isspace_opt]. destruct (isspace U c) eqn:Ec; [|done].
  simpl in Hc |- *. apply andb_true_iff in Hc as [-> _]. done.
Qed.

Lemma collapsed_app_r a b : collapsed U (a ++ b) = true → collapsed U b = true.
Proof.
  induction a as [|c a IH]; [done|]. cbn [app collapsed].
  intros H. apply andb_true_iff in H as [_ Ha]. auto.
Qed.

(** What [strip] returns: collapsed U text stays collapsed U, and neither end
    is whitespace. *)
Lemma strip_ends s :
  isspace_opt U (head (strip U s)) = false ∧ isspace_opt U (last (strip U s)) = false.
Proof.
  unfold strip. set (t := drop_while (isspace U) s).
  assert (Ht : isspace_opt U (head t) = false).
  { destruct (head t) as [x|] eqn:E; [|done]. simpl.
    by apply (drop_while_head _ s). }
  pose proof (take_drop_while (isspace U) (rev t)) as Hsplit.
  set (w := take_while (isspace U) (rev t)) in *.
  set (d := drop_while (isspace U) (rev t)) in *.
  assert (Hd : isspace_opt U (head d) = false).
  { destruct (head d) as [x|] eqn:E; [|done]. simpl.
    by apply (drop_while_head _ (rev t)). }
  assert (Hrev : t = rev d ++ rev w).
  { rewrite <- rev_app_distr, Hsplit. by rewrite rev_involutive. }
  split.
  - destruct (rev d) as [|x r] eqn:Er; [done|].
    rewrite Hrev in Ht. done.
  - by rewrite <- head_rev, rev_involutive.
Qed.

Lemma strip_collapsed s : collapsed U s = true → collapsed U (strip U s) = true.
Proof.
  intros Hs. unfold strip.
  set (t := drop_while (isspace U) s).
  assert (Ht : collapsed U t = true).
  { apply (collapsed_app_r (take_while (isspace U) s)).
    unfold t. by rewrite take_drop_while. }
  pose proof (take_drop_while (isspace U) (rev t)) as Hsplit.
  apply (collapsed_app_l _ (rev (take_while (isspace U) (rev t)))).
  rewrite <- rev_app_distr, Hsplit. by rewrite rev_involutive.
Qed.

Lemma strip_fixed s :
  isspace_opt U (head s) = false → isspace_opt U (last s) = false → strip U s = s.
Proof.
  intros Hh Hl. unfold strip.
  rewrite (drop_while_id _ s).
  - rewrite (drop_while_id _ (rev s)); [apply rev_involutive|].
    intros x. rewrite head_rev. intros E. by rewrite E in Hl.
  - intros x E. by rewrite E in Hh.
Qed.

Lemma clean_article_content_collapsed s :
  collapsed U (clean_article_content U s) = true.
Proof.
  unfold clean_article_content. apply strip_collapsed.
  apply sub_whitespace_collapsed.
Qed.

(** Removing matches never lengthens the text, and leaves the length as
    it was only when nothing was removed. *)
Lemma sub_remove_length (pattern : list re.node) (s : pystr) :
  ∀ prev k,
    (length (re.sub_from U pattern [] prev s k) ≤ length s)%nat
    ∧ (length (re.sub_from U pattern [] prev s O) = length s →
       re.sub_from U pattern [] prev s O = s).
Proof.
  induction s as [|c s IH]; intros prev k.
  - split.
    + destruct k; cbn [re.sub_from]; [|done].
      by destruct (re.match_here U pattern prev []) as [[|n]|].
    + intros _. cbn [re.sub_from].
      by destruct (re.match_here U pattern prev []) as [[|n]|].
  - assert (Hnow : (length (re.sub_from U pattern [] prev (c :: s) O)
                    ≤ length (c :: s))%nat).
    { cbn [re.sub_from].
      destruct (re.match_here U pattern prev (c :: s)) as [[|n]|]; cbn [app length].
      - destruct (IH (Some c) O) as [Hle _]. lia.
      - destruct (IH (Some c) n) as [Hle _]. lia.
      - destruct (IH (Some c) O) as [Hle _]. lia. }
    split.
    + destruct k as [|k]; [done|]. cbn [re.sub_from length].
      destruct (IH (Some c) k) as [Hle _]. lia.
    + cbn [re.sub_from].
      destruct (re.match_here U pattern prev (c :: s)) as [[|n]|]; cbn [app length].
      * intros [= Hlen]. destruct (IH (Some c) O) as [_ Heq]. by rewrite Heq.
      * intros Hlen. destruct (IH (Some c) n) as [Hle _]. lia.
      * intros [= Hlen]. destruct (IH (Some c) O) as [_ Heq]. by rewrite Heq.
Qed.

Lemma sub_whitespace_length (s : pystr) :
  ∀ prev k,
    (k ≤ length (take_while (isspace U) s))%nat →
    (length (re.sub_from U WHITESPACE_RUN (py " ") prev s k) + k ≤ length s)%nat.
Proof.
  induction s as [|c s IH]; intros prev k Hk.
  - cbn [take_while length] in Hk. assert (k = O) as -> by lia.
    cbn [re.sub_from]. by rewrite match_here_whitespace.
  - destruct k as [|k].
    + cbn [re.sub_from]. rewrite match_here_whitespace. cbn [take_while].
      destruct (isspace U c); cbn [length].
      * specialize (IH (Some c) (length (take_while (isspace U) s)) (Nat.le_refl _)).
        change (py " ") with [32] in *. cbn [app length]. lia.
      * specialize (IH (Some c) O (Nat.le_0_l _)). lia.
    + revert Hk. cbn [take_while re.sub_from].
      destruct (isspace U c); cbn [length]; [|lia].
      intros Hk. specialize (IH (Some c) k). lia.
Qed.

Lemma drop_while_length {A} (p : A → bool) (l : list A) :
  (length (drop_while p l) ≤ length l)%nat.
Proof.
  induction l as [|x l IH]; cbn [drop_while length]; [done|].
  destruct (p x); cbn [length]; lia.
Qed.

Lemma strip_length s : (length (strip U s) ≤ length s)%nat.
Proof.
  unfold strip. rewrite length_rev.
  etrans; [apply drop_while_length|]. rewrite length_rev.
  apply drop_while_length.
Qed.

(** C3, as amended: normalizing a second time changes nothing exactly when
    the first result does not itself end in a truncation notice; the
    notice is removed once per pass. *)
Theorem clean_article_content_stable (s : pystr) :
  clean_article_content U (clean_article_content U s) = clean_article_content U s
  ↔ re.sub U TRUNCATION_NOTICE [] (clean_article_content U s)
    = clean_article_content U s.
Proof.
  split.
  - set (t := clean_article_content U s). intros Hsame.
    apply (f_equal length) in Hsame. unfold clean_article_content in Hsame.
    pose proof (strip_length
                  (re.sub U WHITESPACE_RUN (py " ") (re.sub U TRUNCATION_NOTICE [] t)))
      as H1.
    pose proof (sub_whitespace_length (re.sub U TRUNCATION_NOTICE [] t) None O
                  (Nat.le_0_l _)) as H2.
    destruct (sub_remove_length TRUNCATION_NOTICE t None O) as [H3 H4].
    apply H4. unfold re.sub in *. lia.
  - intros Hno. unfold clean_article_content at 1. rewrite Hno.
    unfold re.sub. rewrite sub_whitespace_fixed by apply clean_article_content_collapsed.
    unfold clean_article_content. apply strip_fixed; apply strip_ends.
Qed.

End Normalizer.

Local Close Scope N_scope.

(** ** The ticker pattern *)

Lemma backtrack_top (f : nat → option nat) lo k r :
  lo ≤ k → f k = Some r → re.backtrack f lo k = Some r.
Proof.
  intros Hle Hf. destruct k; simpl; rewrite Hf.
  - by destruct lo; [|lia].
  - destruct (Nat.ltb_spec (S k) lo); [lia|done].
Qed.

Lemma backtrack_none (f : nat → option nat) lo k :
  (∀ n, lo ≤ n ≤ k → f n = None) → re.backtrack f lo k = None.
Proof.
  induction k as [|k IH]; intros Hf; simpl.
  - destruct (Nat.ltb_spec 0 lo); [done|]. by rewrite Hf by lia.
  - destruct (Nat.ltb_spec (S k) lo); [done|].
    rewrite Hf by lia. apply IH. intros n Hn. apply Hf. lia.
Qed.

Lemma take_while_length_le {A} (p : A → bool) (l : list A) :
  length (take_while p l) ≤ length l.
Proof. induction l as [|x l IH]; simpl; [lia|]. destruct (p x); simpl; lia. Qed.

Lemma take_while_lookup {A} (p : A → bool) (l : list A) i :
  i < length (take_while p l) → ∃ x, l !! i = Some x ∧ p x = true.
Proof.
  revert i. induction l as [|x l IH]; intros i; simpl; [lia|].
  destruct (p x) eqn:E; simpl; [|lia].
  destruct i as [|i]; [eauto|]. intros Hi. apply IH. lia.
Qed.

Lemma take_while_stop {A} (p : A → bool) (l : list A) x :
  l !! length (take_while p l) = Some x → p x = false.
Proof.
  induction l as [|y l IH]; simpl; [done|].
  destruct (p y) eqn:E; simpl; [done|]. by intros [= <-].
Qed.

Lemma take_take_while {A} (p : A → bool) (l : list A) :
  take (length (take_while p l)) l = take_while p l.
Proof.
  induction l as [|x l IH]; simpl; [done|].
  destruct (p x); simpl; [by rewrite IH|done].
Qed.

Lemma head_drop {A} (l : list A) n : head (drop n l) = l !! n.
Proof. by rewrite head_lookup, lookup_drop, Nat.add_0_r. Qed.

Section Ticker.
Variable U : unicode_db.

Lemma is_upper_isword c : is_upper c = true → isword U c = true.
Proof.
  unfold is_upper, isword, between, ascii_isalnum, ascii_isupper, between.
  intros H. apply andb_true_iff in H as [H1 H2].
  apply N.leb_le in H2.
  destruct (N.ltb_spec c 128) as [_|Hge]; [|lia].
  rewrite H1. apply N.leb_le in H2. rewrite H2. simpl.
  by rewrite orb_true_r.
Qed.

(** What the backtracking search for r'\b[A-Z]{1,5}\b' finds at one
    position: the whole run of capitals, when it is short enough and
    stands between two boundaries. *)
Lemma match_here_ticker prev t :
  re.match_here U TICKER_TOKEN prev t =
  let n := length (take_while is_upper t) in
  if re.word_boundary U prev t && (1 <=? n) && (n <=? 5)
     && negb (re.isword_opt U (t !! n))
  then Some n else None.
Proof.
  unfold TICKER_TOKEN. cbn [re.match_here].
  change (re.in_cls U (re.Range 65 90)) with is_upper.
  set (n := length (take_while is_upper t)). cbv zeta.
  destruct (re.word_boundary U prev t); [|done]. cbn [andb].
  set (f := λ k : nat, _).
  assert (Hf : ∀ k, 1 ≤ k ≤ n →
            f k = if negb (re.isword_opt U (t !! k)) then Some k else None).
  { intros k [Hk1 Hk2]. unfold f. destruct k as [|m]; [lia|].
    destruct (take_while_lookup is_upper t m) as (c & Hc & Hup); [unfold n in Hk2; lia|].
    cbn [re.prev_after]. rewrite Hc.
    unfold re.word_boundary. cbn [re.isword_opt].
    rewrite (is_upper_isword c Hup), head_drop. cbn [xorb].
    destruct (re.isword_opt U (t !! S m)); simpl; [done|]. f_equal. lia. }
  assert (Hbelow : ∀ k, 1 ≤ k < n → f k = None).
  { intros k Hk. rewrite Hf by lia.
    destruct (take_while_lookup is_upper t k) as (c & Hc & Hup); [unfold n in Hk; lia|].
    rewrite Hc. cbn [re.isword_opt]. by rewrite (is_upper_isword c Hup). }
  destruct (Nat.leb_spec 1 n) as [H1|H1]; cbn [andb].
  - destruct (Nat.leb_spec n 5) as [H5|H5]; cbn [andb].
    + replace (5 `min` n) with n by lia.
      destruct (negb (re.isword_opt U (t !! n))) eqn:E.
      * apply backtrack_top; [done|]. by rewrite Hf, E by lia.
      * apply backtrack_none. intros k Hk.
        destruct (decide (k = n)) as [->|]; [by rewrite Hf, E by lia|].
        apply Hbelow. lia.
    + replace (5 `min` n) with 5 by lia.
      apply backtrack_none. intros k Hk. apply Hbelow. lia.
  - replace (5 `min` n) with 0 by lia. done.
Qed.

Lemma char_before_app (pre t : pystr) :
  char_before (pre ++ t) (length pre) = last pre.
Proof.
  destruct pre as [|x pre] using rev_ind; [done|].
  rewrite length_app, Nat.add_1_r. cbn [char_before].
  rewrite last_snoc, <- app_assoc.
  by rewrite lookup_app_r, Nat.sub_diag by lia.
Qed.

(** The candidate the specification places at a position is the match the
    search finds there. *)
Lemma candidate_at_here (pre t : pystr) :
  candidate_at U (pre ++ t) (length pre) =
  (λ n, take n t) <$> re.match_here U TICKER_TOKEN (last pre) t.
Proof.
  rewrite match_here_ticker. unfold candidate_at. cbv zeta.
  rewrite drop_app_length.
  set (n := length (take_while is_upper t)).
  unfold boundary_at. rewrite char_before_app.
  rewrite lookup_app_r, Nat.sub_diag by lia.
  fold (re.word_boundary U (last pre) t).
  rewrite <- (head_lookup t).
  change (xorb (re.isword_opt U (last pre)) (re.isword_opt U (head t)))
    with (re.word_boundary U (last pre) t).
  destruct (Nat.leb_spec 1 n) as [H1|H1]; cbn [andb];
    [|by rewrite !andb_false_r, ?andb_false_l].
  destruct (take_while_lookup is_upper t 0) as (c & Hc & Hup); [unfold n in H1; lia|].
  destruct (take_while_lookup is_upper t (n - 1)) as (d & Hd & Hupd);
    [unfold n in H1 |- *; lia|].
  assert (Hbefore : char_before (pre ++ t) (length pre + n) = Some d).
  { replace (length pre + n) with (S (length pre + (n - 1))) by lia.
    cbn [char_before]. by rewrite lookup_app_r, Nat.add_comm, Nat.add_sub by lia. }
  rewrite Hbefore. cbn [re.isword_opt]. rewrite (is_upper_isword d Hupd).
  rewrite lookup_app_r by lia.
  replace (length pre + n - length pre) with n by lia. cbn [xorb].
  rewrite andb_true_r.
  assert (Hleft : re.word_boundary U (last pre) t = true →
            match last pre with Some c => is_upper c | None => false end = false).
  { unfold re.word_boundary. rewrite head_lookup, Hc. cbn [re.isword_opt].
    rewrite (is_upper_isword c Hup).
    destruct (last pre) as [p|]; [|done]. cbn [re.isword_opt].
    destruct (is_upper p) eqn:Ep; [|done].
    by rewrite (is_upper_isword p Ep). }
  destruct (re.word_boundary U (last pre) t) eqn:Eb.
  - rewrite (Hleft eq_refl). cbn [negb andb].
    destruct (n <=? 5); cbn [andb]; [|done].
    destruct (re.isword_opt U (t !! n)); cbn [negb]; [done|].
    cbn [fmap option_fmap option_map]. f_equal. apply eq_sym, take_take_while.
  - by rewrite !andb_false_r, ?andb_false_l.
Qed.

Lemma findall_from_candidates (t : pystr) :
  ∀ (pre : pystr) (k : nat),
    (k = 0 ∨ (match last pre with Some c => is_upper c | None => false end = true
              ∧ k ≤ length (take_while is_upper t))) →
    re.findall_from U TICKER_TOKEN (last pre) t k =
    omap (candidate_at U (pre ++ t)) (seq (length pre) (length t)).
Proof.
  induction t as [|c t IH]; intros pre k Hk.
  - cbn [length seq omap]. destruct k; cbn [re.findall_from]; [|done].
    rewrite match_here_ticker. cbn [take_while length Nat.leb].
    by rewrite andb_false_r.
  - cbn [length seq omap list_omap]. rewrite candidate_at_here.
    replace (pre ++ c :: t) with ((pre ++ [c]) ++ t) by by rewrite <- app_assoc.
    replace (S (length pre)) with (length (pre ++ [c]))
      by (rewrite length_app; simpl; lia).
    assert (IH' : ∀ j,
              (j = 0 ∨ (is_upper c = true ∧ j ≤ length (take_while is_upper t))) →
              re.findall_from U TICKER_TOKEN (Some c) t j =
              omap (candidate_at U ((pre ++ [c]) ++ t))
                   (seq (length (pre ++ [c])) (length t))).
    { intros j Hj. rewrite <- (IH (pre ++ [c]) j); rewrite last_snoc; done. }
    destruct k as [|k].
    + cbn [re.findall_from].
      destruct (re.match_here U TICKER_TOKEN (last pre) (c :: t)) as [n|] eqn:Em;
        cbn [fmap option_fmap option_map].
      * f_equal. apply IH'. right.
        rewrite match_here_ticker in Em. cbv zeta in Em.
        destruct (_ && _) eqn:Econd in Em; [|done]. injection Em as <-.
        apply andb_true_iff in Econd as [Econd _].
        apply andb_true_iff in Econd as [Econd _].
        apply andb_true_iff in Econd as [_ E1]. apply Nat.leb_le in E1.
        revert E1. cbn [take_while]. destruct (is_upper c); cbn [length]; [|lia].
        intros _. split; [done|lia].
      * apply IH'. by left.
    + destruct Hk as [|[Hprev Hrun]]; [done|].
      assert (Hc : is_upper c = true).
      { revert Hrun. cbn [take_while]. destruct (is_upper c); [done|]. simpl. lia. }
      assert (re.match_here U TICKER_TOKEN (last pre) (c :: t) = None) as ->.
      { rewrite match_here_ticker. cbv zeta. unfold re.word_boundary.
        destruct (last pre) as [p|]; [|done]. cbn [re.isword_opt head].
        by rewrite (is_upper_isword p Hprev), (is_upper_isword c Hc). }
      cbn [fmap option_fmap option_map re.findall_from].
      apply IH'. right. split; [done|].
      revert Hrun. cbn [take_while]. rewrite Hc. simpl. lia.
Qed.

(** [re.findall(r'\b[A-Z]{1,5}\b', entity)] returns the candidates of the
    specification, in their order in the string. *)
Lemma findall_ticker_candidates (s : pystr) :
  re.findall U TICKER_TOKEN s = candidates_spec U s.
Proof.
  exact (findall_from_candidates s [] 0 (or_introl eq_refl)).
Qed.

End Ticker.

(** ** Signal extraction *)

Section Extraction.
Variable U : unicode_db.
Variable VALID_TICKERS : gset pystr.

Lemma extract_loop_app l1 l2 thr acc :
  extract_loop U VALID_TICKERS (l1 ++ l2) thr acc =
  extract_loop U VALID_TICKERS l1 thr acc ≫= extract_loop U VALID_TICKERS l2 thr.
Proof.
  revert acc. induction l1 as [|a l1 IH]; intros acc; [done|].
  cbn [app extract_loop].
  destruct (article_signals U VALID_TICKERS a thr) as [new|e]; [|done].
  apply IH.
Qed.

Lemma fmap_filter_bind {A B} (P : A → Prop) `{∀ x, Decision (P x)}
    (f : A → B) (l : list A) :
  f <$> filter P l = l ≫= (λ x, if decide (P x) then [f x] else []).
Proof.
  induction l as [|x l IH]; [done|].
  rewrite filter_cons. cbn [mbind list_bind] in *.
  destruct (decide (P x)); [rewrite fmap_cons|]; by rewrite IH.
Qed.

Lemma entity_signals_spec sentiment (l : list value) :
  flat_map (entity_signals U VALID_TICKERS sentiment) l =
  omap (λ e, match e with VStr s => Some s | _ => None end) l ≫=
    (λ entity, candidates_spec U entity ≫=
       (λ candidate, if decide (candidate ∈ VALID_TICKERS)
                     then [(candidate, sentiment)] else [])).
Proof.
  induction l as [|e l IH]; [done|].
  cbn [flat_map omap list_omap]. rewrite IH.
  destruct e; try done.
  cbn [entity_signals mbind list_bind]. f_equal.
  rewrite findall_ticker_candidates.
  apply (fmap_filter_bind (λ t, t ∈ VALID_TICKERS)).
Qed.

(** One article: the loop body does what the five steps of the
    specification say. *)
Lemma article_signals_conforms article thr :
  analyzed_article article = true →
  article_signals U VALID_TICKERS article thr =
  Ok (article_signals_spec U VALID_TICKERS article thr).
Proof.
  unfold analyzed_article, article_signals, article_signals_spec, dict_get,
    dict_get_default.
  destruct (assoc_get (py "analysis") article) as [[| | | | |fields]|];
    try done. intros Hok.
  cbn [truthy].
  destruct fields as [|kv fields']; [|set (fields := kv :: fields') in *].
  { cbn. by destruct (0 <? thr)%Z. }
  cbn [negb contains mbind result_bind].
  destruct (assoc_has (py "error") fields) eqn:Eerr; [done|].
  cbn [orb] in Hok. apply andb_true_iff in Hok as [Hconf Hent].
  cbn [get_method mbind result_bind].
  assert (Hlow : less_than match assoc_get (py "confidence_score") fields with
                            | Some v => v
                            | None => VInt 0
                            end thr
                 = Ok (confidence_spec fields <? thr)%Z).
  { unfold confidence_spec. revert Hconf.
    by destruct (assoc_get (py "confidence_score") fields) as [[]|]. }
  rewrite Hlow. cbn [mbind result_bind]. destruct (confidence_spec fields <? thr)%Z; [done|].
  unfold sentiment_spec, entity_strings_spec.
  destruct (assoc_get (py "sentiment") fields) as [[| | |s| |]|]; try done.
  cbn [eq_str].
  destruct (decide (s = py "Positive" ∨ s = py "Negative")) as [Hs|Hs].
  - assert (bool_decide (s = py "Positive") || bool_decide (s = py "Negative") = true)
      as ->.
    { destruct Hs as [->| ->]; [done|]. by rewrite orb_true_r. }
    cbn [negb].
    destruct (assoc_get (py "affected_entities") fields) as [[| | | |l|]|];
      try done; cbn [iterate mbind result_bind]; unfold mret, result_ret; f_equal.
    apply entity_signals_spec.
  - assert (bool_decide (s = py "Positive") || bool_decide (s = py "Negative") = false)
      as ->; [|done].
    apply orb_false_iff. split; apply bool_decide_eq_false; tauto.
Qed.

Lemma extract_loop_conforms articles thr acc :
  Forall (λ a, analyzed_article a = true) articles →
  extract_loop U VALID_TICKERS articles thr acc =
  Ok (acc ++ extract_signals_spec U VALID_TICKERS articles thr).
Proof.
  intros Hall. revert acc.
  induction Hall as [|a l Ha Hl IH]; intros acc.
  - cbn. by rewrite app_nil_r.
  - cbn [extract_loop]. rewrite article_signals_conforms by done.
    cbn [mbind result_bind]. rewrite IH.
    unfold extract_signals_spec. cbn [mbind list_bind].
    by rewrite app_assoc.
Qed.

(** C1: on analyzed articles, [extract_valid_signals] returns the signals
    the specification describes, in the same order, for every threshold
    (those from 1 to 5 among them). *)
Theorem extract_valid_signals_spec (articles : list dict) (confidence_threshold : Z) :
  Forall (λ a, analyzed_article a = true) articles →
  extract_valid_signals U VALID_TICKERS articles confidence_threshold =
  Ok (extract_signals_spec U VALID_TICKERS articles confidence_threshold).
Proof.
  intros Hall. unfold extract_valid_signals.
  by rewrite extract_loop_conforms.
Qed.

(** C10: a Success analysis without [confidence_score] counts as
    confidence 0: for a threshold of 1 or more the article adds no signal,
    whatever its sentiment and entities. *)
Theorem missing_confidence_no_signal
    (before after : list dict) (article fields : dict) (confidence_threshold : Z) :
  assoc_get (py "analysis") article = Some (VDict fields) →
  assoc_has (py "error") fields = false →
  assoc_get (py "confidence_score") fields = None →
  (1 ≤ confidence_threshold)%Z →
  article_signals U VALID_TICKERS article confidence_threshold = Ok []
  ∧ extract_valid_signals U VALID_TICKERS (before ++ article :: after)
      confidence_threshold
    = extract_valid_signals U VALID_TICKERS (before ++ after) confidence_threshold.
Proof.
  intros Han Herr Hconf Hthr.
  assert (Hnone : article_signals U VALID_TICKERS article confidence_threshold = Ok []).
  { unfold article_signals, dict_get, dict_get_default. rewrite Han.
    cbn [truthy].
    destruct fields as [|kv fields']; [done|set (fields := kv :: fields') in *].
    cbn [negb contains mbind result_bind]. rewrite Herr.
    cbn [get_method mbind result_bind]. rewrite Hconf.
    cbn [less_than mbind result_bind].
    destruct (Z.ltb_spec 0 confidence_threshold); [done|lia]. }
  split; [done|].
  unfold extract_valid_signals. rewrite !extract_loop_app.
  destruct (extract_loop U VALID_TICKERS before confidence_threshold []) as [acc|e];
    [|done].
  cbn [mbind result_bind extract_loop]. rewrite Hnone.
  cbn [mbind result_bind]. by rewrite app_nil_r.
Qed.

End Extraction.

(** ** Dictionaries *)

Lemma assoc_get_set {V} (k k' : pystr) (v : V) (d : assoc V) :
  assoc_get k (assoc_set k' v d) = if decide (k' = k) then Some v else assoc_get k d.
Proof.
  induction d as [|[k0 v0] d IH]; cbn [assoc_set assoc_get].
  - done.
  - destruct (decide (k0 = k')) as [->|Hne]; cbn [assoc_get].
    + by destruct (decide (k' = k)).
    + destruct (decide (k0 = k)) as [->|]; [|done].
      by destruct (decide (k' = k)).
Qed.

Lemma assoc_get_set_eq {V} (k : pystr) (v : V) (d : assoc V) :
  assoc_get k (assoc_set k v d) = Some v.
Proof. rewrite assoc_get_set. by destruct (decide (k = k)). Qed.

Lemma assoc_get_set_ne {V} (k k' : pystr) (v : V) (d : assoc V) :
  k' ≠ k → assoc_get k (assoc_set k' v d) = assoc_get k d.
Proof. intros. rewrite assoc_get_set. by destruct (decide (k' = k)). Qed.

Lemma assoc_get_None {V} (k : pystr) (d : assoc V) :
  k ∉ d.*1 → assoc_get k d = None.
Proof.
  induction d as [|[k0 v0] d IH]; cbn [assoc_get fmap list_fmap]; [done|].
  rewrite not_elem_of_cons. intros [Hne Hd]. cbn [fst] in Hne.
  destruct (decide (k0 = k)); [congruence|auto].
Qed.

Lemma assoc_set_keys {V} (k k0 : pystr) (v : V) (d : assoc V) :
  k0 ∈ (assoc_set k v d).*1 ↔ k0 = k ∨ k0 ∈ d.*1.
Proof.
  induction d as [|[k1 v1] d IH]; cbn [assoc_set].
  - cbn. rewrite list_elem_of_singleton. set_solver.
  - destruct (decide (k1 = k)) as [->|Hne]; rewrite !fmap_cons; cbn [fst].
    + set_solver.
    + rewrite !elem_of_cons, IH. tauto.
Qed.

Lemma assoc_set_NoDup {V} (k : pystr) (v : V) (d : assoc V) :
  NoDup d.*1 → NoDup (assoc_set k v d).*1.
Proof.
  induction d as [|[k1 v1] d IH]; cbn [assoc_set].
  - intros _. cbn. apply NoDup_singleton.
  - rewrite fmap_cons, NoDup_cons. cbn [fst]. intros [Hk1 Hd].
    destruct (decide (k1 = k)) as [->|Hne]; rewrite fmap_cons, NoDup_cons; cbn [fst].
    + done.
    + split; [|auto]. rewrite assoc_set_keys. tauto.
Qed.

(** ** Scoring *)

Lemma count_of_cons ticker sentiment (s : signal) signals :
  count_of ticker sentiment (s :: signals) =
  ((if decide (s = (ticker, sentiment)) then 1 else 0)
   + count_of ticker sentiment signals)%Z.
Proof.
  unfold count_of. rewrite filter_cons.
  destruct (decide (s = (ticker, sentiment))); cbn [length]; lia.
Qed.

Lemma count_of_nonneg ticker sentiment signals :
  (0 ≤ count_of ticker sentiment signals)%Z.
Proof. unfold count_of. lia. Qed.

Lemma positive_ne_negative : py "Positive" ≠ py "Negative".
Proof. by vm_compute. Qed.

(** The first loop: the counters of [ticker] grow by the number of its
    Positive and of its Negative signals; a ticker without counters gets
    them at its first such signal. *)
Lemma count_signal_loop ticker signals :
  ∀ ticker_scores,
    assoc_get ticker (fold_left count_signal signals ticker_scores) =
    let p := count_of ticker (py "Positive") signals in
    let n := count_of ticker (py "Negative") signals in
    match assoc_get ticker ticker_scores with
    | Some c => Some {| tally_positive := tally_positive c + p;
                        tally_negative := tally_negative c + n |}
    | None => if decide (p = 0 ∧ n = 0)%Z then None
              else Some {| tally_positive := p; tally_negative := n |}
    end.
Proof.
  induction signals as [|[tk snt] signals IH]; intros acc; cbv zeta.
  - cbn [fold_left]. unfold count_of. cbn.
    destruct (assoc_get ticker acc) as [[p n]|]; [|done].
    cbn. do 2 f_equal; lia.
  - cbn [fold_left]. rewrite IH. cbv zeta. rewrite !count_of_cons.
    pose proof (count_of_nonneg ticker (py "Positive") signals) as Hp.
    pose proof (count_of_nonneg ticker (py "Negative") signals) as Hn.
    set (p := count_of ticker (py "Positive") signals) in *.
    set (n := count_of ticker (py "Negative") signals) in *.
    pose proof positive_ne_negative as Hpn.
    unfold count_signal.
    destruct (decide (tk = ticker)) as [->|Htk].
    + repeat case_decide; simplify_eq; rewrite ?assoc_get_set_eq;
        destruct (assoc_get ticker acc) as [[p0 n0]|]; cbn;
        repeat case_decide; try lia; try congruence; try (do 2 f_equal; lia).
    + repeat case_decide; simplify_eq; rewrite ?assoc_get_set_ne by done;
        destruct (assoc_get ticker acc) as [[p0 n0]|]; cbn;
        repeat case_decide; try lia; try congruence; try (do 2 f_equal; lia).
Qed.

Lemma count_signal_NoDup signals :
  ∀ ticker_scores,
    NoDup ticker_scores.*1 →
    NoDup (fold_left count_signal signals ticker_scores).*1.
Proof.
  induction signals as [|[tk snt] signals IH]; intros acc Hacc; [done|].
  cbn [fold_left]. apply IH. unfold count_signal.
  repeat case_decide; auto using assoc_set_NoDup.
Qed.

(** The second loop, over a dictionary: the entry of [ticker] is made from
    its counters when they differ. *)
Lemma keep_scored_loop ticker (ticker_scores : assoc tally) :
  ∀ scored_tickers,
    NoDup ticker_scores.*1 →
    assoc_get ticker (fold_left keep_scored ticker_scores scored_tickers) =
    match assoc_get ticker ticker_scores with
    | Some c =>
        if decide (tally_positive c - tally_negative c = 0)%Z
        then assoc_get ticker scored_tickers
        else Some {| positive := tally_positive c;
                     negative := tally_negative c;
                     net_score := tally_positive c - tally_negative c |}
    | None => assoc_get ticker scored_tickers
    end.
Proof.
  induction ticker_scores as [|[k c] rest IH]; intros acc Hnd; [done|].
  rewrite fmap_cons, NoDup_cons in Hnd. cbn [fst] in Hnd. destruct Hnd as [Hk Hrest].
  cbn [fold_left assoc_get]. rewrite IH by done.
  unfold keep_scored.
  destruct (decide (k = ticker)) as [->|Hne].
  - rewrite (assoc_get_None ticker rest) by done.
    destruct (Z.eqb_spec (tally_positive c - tally_negative c) 0) as [E|E];
      cbn [negb]; case_decide; try done.
    by rewrite assoc_get_set_eq.
  - destruct (assoc_get ticker rest) as [c'|]; [case_decide; [|done]|];
      destruct (negb _); by rewrite ?assoc_get_set_ne.
Qed.

Lemma keep_scored_NoDup (ticker_scores : assoc tally) :
  ∀ scored_tickers,
    NoDup scored_tickers.*1 →
    NoDup (fold_left keep_scored ticker_scores scored_tickers).*1.
Proof.
  induction ticker_scores as [|[k c] rest IH]; intros acc Hacc; [done|].
  cbn [fold_left]. apply IH. unfold keep_scored.
  destruct (negb _); auto using assoc_set_NoDup.
Qed.

(** C2: the entry of a ticker holds the number of its Positive signals,
    the number of its Negative signals and their difference; a ticker
    whose difference is zero (one without signals among them) has no
    entry; no ticker has two entries. *)
Theorem score_tickers_spec (signals : list signal) :
  (∀ ticker,
     assoc_get ticker (score_tickers signals) =
     let p := count_of ticker (py "Positive") signals in
     let n := count_of ticker (py "Negative") signals in
     if decide (p - n = 0)%Z then None
     else Some {| positive := p; negative := n; net_score := p - n |})
  ∧ NoDup (score_tickers signals).*1.
Proof.
  unfold score_tickers. split.
  - intros ticker. cbv zeta.
    rewrite keep_scored_loop by (apply count_signal_NoDup; constructor).
    rewrite count_signal_loop. cbv zeta. cbn [assoc_get].
    set (p := count_of ticker (py "Positive") signals).
    set (n := count_of ticker (py "Negative") signals).
    destruct (decide (p = 0 ∧ n = 0)%Z) as [[Hp Hn]|Hpn].
    + case_decide; [done|lia].
    + cbn [tally_positive tally_negative]. by case_decide.
  - apply keep_scored_NoDup. constructor.
Qed.

(** ** Preprocessing *)

Section Preprocess.
Variable U : unicode_db.

Lemma clean_article_content_empty : clean_article_content U [] = [].
Proof. reflexivity. Qed.

Lemma preprocess_step_spec processed article :
  preprocess_step U processed article =
  processed ++ (if has_usable_content U article
                then [with_cleaned_content U article] else []).
Proof.
  unfold preprocess_step, has_usable_content, with_cleaned_content,
    dict_get, dict_get_default.
  destruct (assoc_get (py "content") article) as [[| | |s| |]|];
    cbn [truthy is_str negb orb andb]; rewrite ?app_nil_r;
    try done; try (by destruct (negb _)).
  destruct s as [|c s]; cbn [negb orb].
  - by rewrite clean_article_content_empty, app_nil_r.
  - destruct (clean_article_content U (c :: s)); by rewrite ?app_nil_r.
Qed.

Lemma preprocess_loop articles :
  ∀ processed,
    fold_left (preprocess_step U) articles processed =
    processed ++ (with_cleaned_content U <$>
                    filter (λ a, has_usable_content U a = true) articles).
Proof.
  induction articles as [|a l IH]; intros acc.
  - cbn. by rewrite app_nil_r.
  - cbn [fold_left]. rewrite IH, preprocess_step_spec, filter_cons.
    destruct (has_usable_content U a) eqn:E.
    + rewrite decide_True by done. by rewrite fmap_cons, <- app_assoc.
    + rewrite decide_False by done. by rewrite app_nil_r.
Qed.

(** C8: the articles kept are those whose [content] is a string that is
    not empty once normalized, in their order; each carries the
    normalized text, not empty, under [cleaned_content]; none is added. *)
Theorem preprocess_articles_spec (articles : list dict) :
  preprocess_articles U articles =
    (with_cleaned_content U <$>
       filter (λ a, has_usable_content U a = true) articles)
  ∧ length (preprocess_articles U articles) ≤ length articles
  ∧ ∀ kept, kept ∈ preprocess_articles U articles →
      ∃ article content,
        article ∈ articles
        ∧ assoc_get (py "content") article = Some (VStr content)
        ∧ clean_article_content U content ≠ []
        ∧ kept = assoc_set (py "cleaned_content")
                   (VStr (clean_article_content U content)) article
        ∧ assoc_get (py "cleaned_content") kept
          = Some (VStr (clean_article_content U content)).
Proof.
  assert (Heq : preprocess_articles U articles =
                with_cleaned_content U <$>
                  filter (λ a, has_usable_content U a = true) articles).
  { unfold preprocess_articles. by rewrite preprocess_loop. }
  split; [done|]. rewrite Heq. split.
  - rewrite length_fmap. apply length_filter.
  - intros kept Hkept. apply list_elem_of_fmap in Hkept as (a & -> & Ha).
    apply list_elem_of_filter in Ha as [Huse Ha].
    unfold has_usable_content in Huse. unfold with_cleaned_content.
    destruct (assoc_get (py "content") a) as [[| | |content| |]|] eqn:Ec; try done.
    exists a, content. repeat split; try done.
    + by destruct (clean_article_content U content).
    + apply assoc_get_set_eq.
Qed.

End Preprocess.

(** ** The analyzers and the analysis run *)

Lemma world_eta w :
  {| preprocessed_file := preprocessed_file w;
     analyzed_file := analyzed_file w;
     requests := requests w |} = w.
Proof. by destruct w. Qed.

Section Run.
Variable svc : services.
Variable U : unicode_db.

(** C6: [get_analyzer] raises, and only [ValueError], exactly for OpenAI
    or Google Gemini without a key and for an unknown provider; the run
    then returns [False] and leaves the world as it was: no request is
    sent and no file is written. *)
Theorem configuration_error_is_fatal (provider : pystr) (api_key model_name : option pystr) :
  ((∃ msg, get_analyzer provider api_key model_name = Raise (ValueError msg)) ↔
     ((provider = py "OpenAI" ∨ provider = py "Google Gemini")
      ∧ (api_key = None ∨ api_key = Some []))
     ∨ (provider ≠ py "Ollama" ∧ provider ≠ py "OpenAI"
        ∧ provider ≠ py "Google Gemini"))
  ∧ (∀ e, get_analyzer provider api_key model_name = Raise e → ∃ msg, e = ValueError msg)
  ∧ (∀ e w, get_analyzer provider api_key model_name = Raise e →
        run_analysis_pipeline svc U provider api_key model_name w = (Ok false, w)).
Proof.
  assert (Hmissing : missing api_key = true ↔ api_key = None ∨ api_key = Some []).
  { destruct api_key as [[|c k]|]; cbn; naive_solver. }
  assert (Hraise : ∀ e, get_analyzer provider api_key model_name = Raise e →
                        ∃ msg, e = ValueError msg).
  { unfold get_analyzer. intros e.
    repeat case_decide; try destruct (missing api_key); intros [= <-]; eauto. }
  split; [|split; [done|]].
  - unfold get_analyzer. split.
    + intros [msg Hmsg]. revert Hmsg.
      destruct (decide (provider = py "Ollama")) as [?|H1]; [done|].
      destruct (decide (provider = py "OpenAI")) as [?|H2].
      { destruct (missing api_key) eqn:E; [intros _|done].
        left. split; [by left|by apply Hmissing]. }
      destruct (decide (provider = py "Google Gemini")) as [?|H3].
      { destruct (missing api_key) eqn:E; [intros _|done].
        left. split; [by right|by apply Hmissing]. }
      intros _. by right.
    + intros [[[-> | ->] Hkey] | (H1 & H2 & H3)].
      * apply Hmissing in Hkey. rewrite decide_False by (by vm_compute).
        rewrite decide_True by done. rewrite Hkey. eauto.
      * apply Hmissing in Hkey. rewrite !decide_False by (by vm_compute).
        rewrite decide_True by done. rewrite Hkey. eauto.
      * rewrite !decide_False by done. eauto.
  - intros e w He. destruct (Hraise e He) as [msg ->].
    unfold run_analysis_pipeline. rewrite He.
    by destruct (preprocessed_file w).
Qed.

(** The [try] statement: the article gets its analysis, or the error
    object; one request is sent when the article has a
    [cleaned_content]. *)
Lemma analyze_article_spec analyzer article w :
  analyze_article svc U analyzer article w =
  (Ok (assoc_set (py "analysis")
         (analysis_entry svc U analyzer (requests w) article) article),
   {| preprocessed_file := preprocessed_file w;
      analyzed_file := analyzed_file w;
      requests := requests w + requests_for [article] |}).
Proof.
  unfold analyze_article, try_except, analysis_entry, requests_for, getitem, pure,
    request, assoc_has.
  unfold mbind, io_bind, mret, io_ret. rewrite filter_cons, filter_nil.
  destruct (assoc_get (py "cleaned_content") article) as [c|].
  - rewrite decide_True by done. cbn [length].
    replace (requests w + 1) with (S (requests w)) by lia.
    by destruct (analyze svc U analyzer (requests w) c).
  - rewrite decide_False by done. cbn [length].
    by rewrite Nat.add_0_r, world_eta.
Qed.

Lemma requests_for_cons article articles :
  requests_for (article :: articles) = requests_for [article] + requests_for articles.
Proof.
  unfold requests_for. rewrite !filter_cons, filter_nil.
  case_decide; cbn [length]; lia.
Qed.

Lemma annotated_cons analyzer n article articles :
  annotated svc U analyzer n (article :: articles) =
  assoc_set (py "analysis") (analysis_entry svc U analyzer n article) article
  :: annotated svc U analyzer (n + requests_for [article]) articles.
Proof.
  unfold annotated. rewrite imap_cons. f_equal.
  - change (requests_for (take 0 (article :: articles))) with 0.
    by rewrite (Nat.add_0_r n).
  - apply imap_ext. intros i a _. cbn [compose]. rewrite firstn_cons.
    rewrite (requests_for_cons article). do 2 f_equal. lia.
Qed.

Lemma analyze_loop_spec analyzer articles :
  ∀ analyzed_articles w,
    Forall (λ a, has_title a = true) articles →
    analyze_loop svc U analyzer articles analyzed_articles w =
    (Ok (analyzed_articles ++ annotated svc U analyzer (requests w) articles),
     {| preprocessed_file := preprocessed_file w;
        analyzed_file := analyzed_file w;
        requests := requests w + requests_for articles |}).
Proof.
  induction articles as [|a l IH]; intros acc w Htitles.
  - cbn. by rewrite app_nil_r, Nat.add_0_r, world_eta.
  - apply Forall_cons in Htitles as [Ha Hl].
    cbn [analyze_loop]. unfold has_title in Ha.
    unfold pure, getitem, mbind, io_bind.
    destruct (assoc_get (py "title") a) as [[| | |t|t|]|]; try done;
      cbn [slice50]; rewrite analyze_article_spec, IH by done;
      cbn [requests preprocessed_file analyzed_file];
      rewrite annotated_cons, (requests_for_cons a l), <- app_assoc;
      by rewrite Nat.add_assoc.
Qed.

Lemma json_dump_cases (document : list dict) :
  (json_dump document = Ok document
   ∧ Forall (λ article, encodable (VDict article) = true) document)
  ∨ (json_dump document = Raise UnicodeEncodeError
     ∧ ¬ Forall (λ article, encodable (VDict article) = true) document).
Proof.
  unfold json_dump.
  destruct (forallb _ document) eqn:Hall.
  - left. split; [done|]. apply Forall_forall. intros article Hin.
    rewrite forallb_forall in Hall. apply Hall. by apply list_elem_of_In.
  - right. split; [done|]. intros Hdoc.
    assert (forallb (λ article, encodable (VDict article)) document = true) as Ht.
    { apply forallb_forall. intros article Hin. rewrite Forall_forall in Hdoc.
      apply Hdoc. by apply list_elem_of_In. }
    by rewrite Ht in Hall.
Qed.

Lemma json_dump_Ok (document written : list dict) :
  json_dump document = Ok written →
  written = document ∧ Forall (λ article, encodable (VDict article) = true) document.
Proof.
  destruct (json_dump_cases document) as [[-> ?]|[-> _]]; [|done].
  by intros [= <-].
Qed.

Lemma json_dump_Raise (document : list dict) (e : exn) :
  json_dump document = Raise e → e = UnicodeEncodeError.
Proof.
  destruct (json_dump_cases document) as [[-> _]|[-> _]]; [done|].
  by intros [= <-].
Qed.

(** The run on articles whose titles can be printed: the loop ends, and
    the outcome is that of the writing. *)
Lemma run_analysis_pipeline_writes
    (provider : pystr) (api_key model_name : option pystr)
    (analyzer : LLMAnalyzer) (articles : list dict) (w : world) :
  preprocessed_file w = Some articles →
  get_analyzer provider api_key model_name = Ok analyzer →
  Forall (λ a, has_title a = true) articles →
  run_analysis_pipeline svc U provider api_key model_name w =
  match json_dump (annotated svc U analyzer (requests w) articles) with
  | Ok written =>
      (Ok true, Intact {| preprocessed_file := Some articles;
                          analyzed_file := Some written;
                          requests := requests w + requests_for articles |})
  | Raise e =>
      (Raise e, AnalyzedCutShort (Some articles) (requests w + requests_for articles))
  end.
Proof.
  intros Hfile Han Htitles.
  unfold run_analysis_pipeline. rewrite Hfile, Han, analyze_loop_spec by done.
  cbn [app preprocessed_file analyzed_file requests]. by rewrite Hfile.
Qed.


(** C4, as amended: [analyze] returns what [json.loads] makes of the
    reply, whatever its shape, and raises what the provider call or
    [json.loads] raises; the [try] statement of [run_analysis_pipeline]
    turns the exception into the object [{error: message}]. *)
Theorem analyze_raises_to_the_pipeline
    (analyzer : LLMAnalyzer) (n : nat) (article_content : value) :
  (∀ e, reply_text svc U analyzer n article_content = Raise e →
        analyze svc U analyzer n article_content = Raise e)
  ∧ (∀ text, reply_text svc U analyzer n article_content = Ok text →
        analyze svc U analyzer n article_content = json_loads svc text)
  ∧ (∀ e article w,
        assoc_get (py "cleaned_content") article = Some article_content →
        requests w = n →
        analyze svc U analyzer n article_content = Raise e →
        fst (analyze_article svc U analyzer article w)
        = Ok (assoc_set (py "analysis") (VDict [(py "error", VStr (str_exn e))])
                article)).
Proof.
  repeat split.
  - intros e He. unfold analyze. by rewrite He.
  - intros text Ht. unfold analyze. by rewrite Ht.
  - intros e article w Hc <- He. rewrite analyze_article_spec. cbn [fst].
    unfold analysis_entry. by rewrite Hc, He.
Qed.

End Run.

(** ** Removing duplicates *)

(** The first occurrences among [rest], the articles of [pre] having come
    before. *)
Lemma first_from_cons (pre : list dict) (a : dict) (rest : list dict) :
  omap (λ i, article ← (pre ++ a :: rest) !! i;
             if decide (url_key article ∈ url_key <$> take i (pre ++ a :: rest))
             then None else Some article)
       (seq (length pre) (length (a :: rest)))
  = (if decide (url_key a ∈ url_key <$> pre) then [] else [a])
    ++ omap (λ i, article ← ((pre ++ [a]) ++ rest) !! i;
                  if decide (url_key article ∈ url_key <$> take i ((pre ++ [a]) ++ rest))
                  then None else Some article)
            (seq (length (pre ++ [a])) (length rest)).
Proof.
  cbn [length seq omap list_omap].
  rewrite list_lookup_middle by done. cbn [mbind option_bind].
  rewrite take_app_length.
  replace (pre ++ a :: rest) with ((pre ++ [a]) ++ rest) by by rewrite <- app_assoc.
  replace (S (length pre)) with (length (pre ++ [a]))
    by (rewrite length_app; simpl; lia).
  by case_decide.
Qed.

Lemma unique_loop_spec (rest : list dict) :
  ∀ (pre unique : list dict) (seen_urls : gset set_key),
    Forall (λ a, has_url a = true) rest →
    (∀ k, k ∈ seen_urls ↔ Some k ∈ url_key <$> pre) →
    unique_loop rest unique seen_urls =
    Ok (unique ++
        omap (λ i, article ← (pre ++ rest) !! i;
                   if decide (url_key article ∈ url_key <$> take i (pre ++ rest))
                   then None else Some article)
             (seq (length pre) (length rest))).
Proof.
  induction rest as [|a rest IH]; intros pre acc seen Hurls Hseen.
  - cbn. by rewrite app_nil_r.
  - apply Forall_cons in Hurls as [Ha Hrest].
    rewrite first_from_cons. cbn [unique_loop].
    unfold has_url in Ha. unfold getitem.
    assert (Hkey : ∃ url k, assoc_get (py "url") a = Some url
                            ∧ hash_key url = Ok k ∧ url_key a = Some k).
    { unfold url_key in *. destruct (assoc_get (py "url") a) as [url|]; [|done].
      destruct (hash_key url) as [k|] eqn:E; [|done]. by exists url, k. }
    destruct Hkey as (url & k & -> & Hk & Hua).
    cbn [mbind result_bind]. rewrite Hk, Hua. cbn [mbind result_bind].
    destruct (decide (k ∉ seen)) as [Hnew|Hold].
    + rewrite decide_False by (by rewrite <- Hseen).
      rewrite (IH (pre ++ [a])); [by rewrite <- app_assoc|done|].
      intros k'. rewrite fmap_app, elem_of_app, <- Hseen. cbn.
      rewrite Hua, list_elem_of_singleton. set_solver.
    + apply dec_stable in Hold.
      rewrite decide_True by (by rewrite <- Hseen).
      rewrite (IH (pre ++ [a])); [done|done|].
      intros k'. rewrite fmap_app, elem_of_app, <- Hseen. cbn.
      rewrite Hua, list_elem_of_singleton. split; [tauto|].
      intros [?|[= ->]]; done.
Qed.

(** What the first occurrences are like. *)
Lemma first_from_properties (rest : list dict) :
  ∀ pre : list dict,
    let kept :=
      omap (λ i, article ← (pre ++ rest) !! i;
                 if decide (url_key article ∈ url_key <$> take i (pre ++ rest))
                 then None else Some article)
           (seq (length pre) (length rest)) in
    kept `sublist_of` rest
    ∧ (∀ a, a ∈ kept → url_key a ∉ url_key <$> pre)
    ∧ NoDup (url_key <$> kept)
    ∧ (∀ a, a ∈ rest →
         url_key a ∈ (url_key <$> pre) ∨ url_key a ∈ (url_key <$> kept)).
Proof.
  induction rest as [|a rest IH]; intros pre; cbv zeta.
  - cbn. repeat split; try constructor; set_solver.
  - rewrite first_from_cons.
    destruct (IH (pre ++ [a])) as (Hsub & Hfresh & Hnd & Hcover).
    set (kept := omap _ _) in *.
    assert (Hfresh' : ∀ b, b ∈ kept →
              (url_key b ∉ (url_key <$> pre)) ∧ url_key b ≠ url_key a).
    { intros b Hb. specialize (Hfresh b Hb).
      rewrite fmap_app, elem_of_app in Hfresh. cbn in Hfresh.
      rewrite list_elem_of_singleton in Hfresh. tauto. }
    assert (Hcover' : ∀ b, b ∈ rest →
              url_key b ∈ (url_key <$> pre) ∨ url_key b = url_key a
              ∨ url_key b ∈ (url_key <$> kept)).
    { intros b Hb. specialize (Hcover b Hb).
      rewrite fmap_app, elem_of_app in Hcover. cbn in Hcover.
      rewrite list_elem_of_singleton in Hcover. tauto. }
    destruct (decide (url_key a ∈ url_key <$> pre)) as [Hin|Hout]; cbn [app].
    + repeat split.
      * by apply sublist_cons.
      * intros b Hb. by apply Hfresh'.
      * done.
      * intros b [->|Hb]%elem_of_cons; [by left|].
        destruct (Hcover' b Hb) as [?|[->|?]]; auto.
    + repeat split.
      * by apply sublist_skip.
      * intros b [->|Hb]%elem_of_cons; [done|]. by apply Hfresh'.
      * rewrite fmap_cons. apply NoDup_cons. split; [|done].
        intros (b & Hab & Hb)%list_elem_of_fmap.
        by destruct (Hfresh' b Hb) as [_ []].
      * intros b [->|Hb]%elem_of_cons; rewrite fmap_cons, elem_of_cons; [auto|].
        destruct (Hcover' b Hb) as [?|[->|?]]; auto.
Qed.

(** C7: of the articles of each url the first is kept and the later ones
    are dropped: no two articles of the result share a url, the result is
    drawn from the input in the order of the input, and every url of the
    input is the url of an article of the result. *)
Theorem unique_articles_first_occurrences (us_articles : list dict) :
  Forall (λ a, has_url a = true) us_articles →
  unique_articles us_articles = Ok (first_occurrences us_articles)
  ∧ NoDup (url_key <$> first_occurrences us_articles)
  ∧ first_occurrences us_articles `sublist_of` us_articles
  ∧ (∀ a, a ∈ us_articles → url_key a ∈ url_key <$> first_occurrences us_articles).
Proof.
  intros Hurls.
  destruct (first_from_properties us_articles []) as (Hsub & _ & Hnd & Hcover).
  repeat split; try done.
  - unfold unique_articles.
    rewrite (unique_loop_spec us_articles [] [] ∅) by (done || set_solver). done.
  - intros a Ha. destruct (Hcover a Ha) as [Hpre|?]; [|done]. by cbn in Hpre; set_solver.
Qed.

(** ** The ranked view *)

Lemma filter_iff_elem_of {A} (P Q : A → Prop)
    `{∀ x, Decision (P x)} `{∀ x, Decision (Q x)} (l : list A) :
  (∀ x, x ∈ l → (P x ↔ Q x)) → filter P l = filter Q l.
Proof.
  induction l as [|x l IH]; intros Hl; [done|].
  rewrite !filter_cons.
  rewrite IH by (intros y Hy; apply Hl; by right).
  destruct (decide (P x)) as [HP|HP], (decide (Q x)) as [HQ|HQ]; try done;
    exfalso; apply (Hl x) in HP || apply (Hl x) in HQ; by (done || left).
Qed.

Section Ranked.
Variable sort_values : (row → Z) → bool → list row → list row.
(** What is asked of pandas: the rows of the result are the rows of the
    frame, in the order of the key. *)
Hypothesis sort_values_permutation :
  ∀ by_ ascending df, sort_values by_ ascending df ≡ₚ df.
Hypothesis sort_values_sorted :
  ∀ by_ ascending df, Sorted (in_order by_ ascending) (sort_values by_ ascending df).

(** C9: the bullish rows are the entries with a positive net score, from
    the highest down; the bearish rows are those with a negative one, from
    the lowest up; among equal scores the order is the one [sort_values]
    gives to the rows of the dictionary; each ticker is in one list and
    not in the other. *)
Theorem ranked_view_partition (scored_tickers : assoc scored_ticker) :
  NoDup scored_tickers.*1 →
  (∀ r, r ∈ scored_tickers → net_score r.2 ≠ 0%Z) →
  let bullish := bullish_df sort_values scored_tickers in
  let bearish := bearish_df sort_values scored_tickers in
  (∀ r, r ∈ bullish ↔ r ∈ scored_tickers ∧ (0 < net_score r.2)%Z)
  ∧ Sorted (λ a b, (net_score b.2 ≤ net_score a.2)%Z) bullish
  ∧ (∀ r, r ∈ bearish ↔ r ∈ scored_tickers ∧ (net_score r.2 < 0)%Z)
  ∧ Sorted (λ a b, (net_score a.2 ≤ net_score b.2)%Z) bearish
  ∧ bullish ++ bearish ≡ₚ scored_tickers
  ∧ (∀ ticker, ticker ∈ scored_tickers.*1 →
       (ticker ∈ (bullish.*1) ∧ ticker ∉ (bearish.*1))
       ∨ ((ticker ∉ (bullish.*1)) ∧ ticker ∈ (bearish.*1))).
Proof.
  intros Hnd Hnz bullish bearish.
  assert (Hbull : ∀ r, r ∈ bullish ↔ r ∈ scored_tickers ∧ (0 < net_score r.2)%Z).
  { intros r. unfold bullish, bullish_df.
    rewrite sort_values_permutation, list_elem_of_filter. unfold by_net_score. tauto. }
  assert (Hbear : ∀ r, r ∈ bearish ↔ r ∈ scored_tickers ∧ (net_score r.2 < 0)%Z).
  { intros r. unfold bearish, bearish_df.
    rewrite sort_values_permutation, list_elem_of_filter. unfold by_net_score. tauto. }
  assert (Hperm : bullish ++ bearish ≡ₚ scored_tickers).
  { unfold bullish, bearish, bullish_df, bearish_df.
    rewrite !sort_values_permutation.
    rewrite <- (filter_app_complement (λ r, (0 < by_net_score r)%Z) scored_tickers) at 3.
    f_equiv. erewrite (filter_iff_elem_of (λ r, (by_net_score r < 0)%Z)); [done|].
    intros r Hr. specialize (Hnz r Hr). unfold by_net_score. lia. }
  split; [exact Hbull|].
  split; [apply (sort_values_sorted by_net_score false)|].
  split; [exact Hbear|].
  split; [apply (sort_values_sorted by_net_score true)|].
  split; [exact Hperm|].
  intros ticker Hin.
    assert (Hnd' : NoDup (bullish.*1 ++ bearish.*1)).
    { rewrite <- fmap_app. by rewrite Hperm. }
    apply NoDup_app in Hnd' as (_ & Hdisj & _).
    rewrite <- Hperm, fmap_app, elem_of_app in Hin.
  destruct Hin as [Hb|Hb]; [left|right]; split; try done.
  - by apply Hdisj.
  - intros Hb'. by apply (Hdisj ticker).
Qed.

End Ranked.

(** ** Examples *)

(** The normalizer on text with a truncation notice. *)
Example clean_article_content_example :
  clean_article_content ascii_only (py "  Stocks   rose
 today ... [+123 chars]") = py "Stocks rose today ...".
Proof. by vm_compute. Qed.

(** C3 at a text with one notice: the second pass finds nothing to
    remove. *)
Lemma clean_article_content_stable_witness :
  re.sub ascii_only TRUNCATION_NOTICE []
      (clean_article_content ascii_only (py "Fed holds rates  steady [+87 chars]"))
    = clean_article_content ascii_only (py "Fed holds rates  steady [+87 chars]")
  ∧ clean_article_content ascii_only
      (clean_article_content ascii_only (py "Fed holds rates  steady [+87 chars]"))
    = clean_article_content ascii_only (py "Fed holds rates  steady [+87 chars]").
Proof.
  split; [vm_compute; reflexivity|].
  apply (proj2 (clean_article_content_stable ascii_only
                  (py "Fed holds rates  steady [+87 chars]"))).
  vm_compute; reflexivity.
Defined.

(** C3, as stated, fails: with two notices at the end the first pass
    removes the last one and the second pass removes the other. *)
Lemma clean_article_content_not_idempotent :
  clean_article_content ascii_only
    (clean_article_content ascii_only (py "a [+1 chars] [+2 chars]"))
  ≠ clean_article_content ascii_only (py "a [+1 chars] [+2 chars]").
Proof. vm_compute. discriminate. Qed.

(** The examples of the specification for the scorer. *)
Example score_tickers_aapl :
  score_tickers [(py "AAPL", py "Positive"); (py "AAPL", py "Positive");
                 (py "AAPL", py "Negative")]
  = [(py "AAPL", {| positive := 2; negative := 1; net_score := 1 |})].
Proof. vm_compute. reflexivity. Qed.

Example score_tickers_msft :
  score_tickers [(py "MSFT", py "Positive"); (py "MSFT", py "Negative")] = [].
Proof. vm_compute. reflexivity. Qed.


(** The examples of the specification for the extractor. *)
Example extract_valid_signals_aapl :
  extract_valid_signals ascii_only example_registry
    [example_analyzed "Apple" (example_analysis "Positive" 4 ["AAPL surges"%string])] 3
  = Ok [(py "AAPL", py "Positive")].
Proof. by vm_compute. Qed.

Example extract_valid_signals_below_threshold :
  extract_valid_signals ascii_only example_registry
    [example_analyzed "Apple" (example_analysis "Positive" 4 ["AAPL surges"%string])] 5
  = Ok [].
Proof. by vm_compute. Qed.

Example extract_valid_signals_unlisted :
  extract_valid_signals ascii_only example_registry
    [example_analyzed "Sector" (example_analysis "Positive" 4 ["XYZQQ sector"%string])] 3
  = Ok [].
Proof. by vm_compute. Qed.

Example extract_valid_signals_two_tickers :
  extract_valid_signals ascii_only example_registry
    [example_analyzed "Tech"
       (example_analysis "Negative" 5
          ["Apple (AAPL) and Microsoft (MSFT) both fell"%string])] 3
  = Ok [(py "AAPL", py "Negative"); (py "MSFT", py "Negative")].
Proof. by vm_compute. Qed.

(** C1 at one analyzed article. *)
Lemma extract_valid_signals_spec_witness :
  Forall (λ a, analyzed_article a = true)
    [example_analyzed "Apple" (example_analysis "Positive" 4 ["AAPL surges"%string])]
  ∧ extract_valid_signals ascii_only example_registry
      [example_analyzed "Apple" (example_analysis "Positive" 4 ["AAPL surges"%string])] 3
    = Ok (extract_signals_spec ascii_only example_registry
            [example_analyzed "Apple"
               (example_analysis "Positive" 4 ["AAPL surges"%string])] 3).
Proof.
  assert (H : Forall (λ a, analyzed_article a = true)
                [example_analyzed "Apple"
                   (example_analysis "Positive" 4 ["AAPL surges"%string])]).
  { constructor; [vm_compute; reflexivity|constructor]. }
  split; [exact H|].
  exact (extract_valid_signals_spec ascii_only example_registry _ 3 H).
Defined.

(** C10 at an analysis that has no [confidence_score]. *)
Lemma missing_confidence_no_signal_witness :
  extract_valid_signals ascii_only example_registry
    ([] ++ example_analyzed "Apple"
             (VDict [(py "sentiment", VStr (py "Positive"));
                     (py "affected_entities", VList [VStr (py "AAPL surges")])])
        :: [])
    1
  = extract_valid_signals ascii_only example_registry ([] ++ []) 1.
Proof.
  refine (proj2 (missing_confidence_no_signal ascii_only example_registry [] []
                   (example_analyzed "Apple"
                      (VDict [(py "sentiment", VStr (py "Positive"));
                              (py "affected_entities", VList [VStr (py "AAPL surges")])]))
                   [(py "sentiment", VStr (py "Positive"));
                    (py "affected_entities", VList [VStr (py "AAPL surges")])]
                   1 _ _ _ _)).
  - vm_compute; reflexivity.
  - vm_compute; reflexivity.
  - vm_compute; reflexivity.
  - lia.
Defined.

(** C7 at three articles, the third with the url of the first. *)
Lemma unique_articles_first_occurrences_witness :
  Forall (λ a, has_url a = true)
    [example_article "One" "https://example.com/1" "x";
     example_article "Two" "https://example.com/2" "y";
     example_article "One again" "https://example.com/1" "z"]
  ∧ unique_articles
      [example_article "One" "https://example.com/1" "x";
       example_article "Two" "https://example.com/2" "y";
       example_article "One again" "https://example.com/1" "z"]
    = Ok (first_occurrences
            [example_article "One" "https://example.com/1" "x";
             example_article "Two" "https://example.com/2" "y";
             example_article "One again" "https://example.com/1" "z"]).
Proof.
  assert (H : Forall (λ a, has_url a = true)
                [example_article "One" "https://example.com/1" "x";
                 example_article "Two" "https://example.com/2" "y";
                 example_article "One again" "https://example.com/1" "z"]).
  { repeat (constructor; [vm_compute; reflexivity|]). constructor. }
  split; [exact H|].
  exact (proj1 (unique_articles_first_occurrences _ H)).
Defined.

Example unique_articles_example :
  unique_articles
    [example_article "One" "https://example.com/1" "x";
     example_article "Two" "https://example.com/2" "y";
     example_article "One again" "https://example.com/1" "z"]
  = Ok [example_article "One" "https://example.com/1" "x";
        example_article "Two" "https://example.com/2" "y"].
Proof. by vm_compute. Qed.

(** The filter on three articles: the second is blank, the third is a
    notice and nothing else. *)
Example preprocess_articles_example :
  preprocess_articles ascii_only
    [example_article "One" "https://example.com/1" "  Rates   held [+12 chars]";
     example_article "Two" "https://example.com/2" "   ";
     example_article "Three" "https://example.com/3" "[+3 chars]"]
  = [example_article "One" "https://example.com/1" "  Rates   held [+12 chars]"
     ++ [(py "cleaned_content", VStr (py "Rates held"))]].
Proof. by vm_compute. Qed.

(** The merge sort does what is asked of [sort_values]. *)
Lemma example_sort_values_permutation by_ ascending df :
  example_sort_values by_ ascending df ≡ₚ df.
Proof. apply merge_sort_Permutation. Qed.

Lemma example_sort_values_sorted by_ ascending df :
  Sorted (in_order by_ ascending) (example_sort_values by_ ascending df).
Proof.
  apply Sorted_merge_sort. intros a b. unfold in_order.
  destruct ascending; lia.
Qed.

(** C9 at the scores of the specification: A with 3, B with -2, C with 1. *)
Lemma ranked_view_partition_witness :
  NoDup example_scored.*1
  ∧ (∀ r, r ∈ example_scored → net_score r.2 ≠ 0%Z)
  ∧ bullish_df example_sort_values example_scored
    ++ bearish_df example_sort_values example_scored ≡ₚ example_scored.
Proof.
  assert (Hnd : NoDup example_scored.*1).
  { apply (bool_decide_unpack _). vm_compute. exact I. }
  assert (Hnz : ∀ r, r ∈ example_scored → net_score r.2 ≠ 0%Z).
  { apply Forall_forall. repeat (constructor; [discriminate|]). constructor. }
  split; [exact Hnd|]. split; [exact Hnz|].
  pose proof (ranked_view_partition example_sort_values
                example_sort_values_permutation example_sort_values_sorted
                example_scored Hnd Hnz) as H.
  cbv zeta in H. exact (proj1 (proj2 (proj2 (proj2 (proj2 H))))).
Defined.

Example ranked_view_example :
  bullish_df example_sort_values example_scored
  = [(py "A", {| positive := 3; negative := 0; net_score := 3 |});
     (py "C", {| positive := 2; negative := 1; net_score := 1 |})]
  ∧ bearish_df example_sort_values example_scored
    = [(py "B", {| positive := 1; negative := 3; net_score := -2 |})].
Proof. by vm_compute. Qed.

(** C4, as stated, fails: Ollama answers with prose, [json.loads] rejects
    it, and [analyze] raises. *)
Lemma analyze_raises_on_malformed_reply :
  ollama_chat example_services 0 (py "llama3.1")
    (format_prompt example_services (VStr (py "Shares of Acme fell.")))
  = Ok (py "Sorry, I cannot help with that.")
  ∧ json_loads example_services (py "Sorry, I cannot help with that.")
    = Raise (LibraryError (py "Expecting value: line 1 column 1 (char 0)"))
  ∧ analyze example_services ascii_only (OllamaAnalyzer (py "llama3.1")) 0
      (VStr (py "Shares of Acme fell."))
    = Raise (LibraryError (py "Expecting value: line 1 column 1 (char 0)")).
Proof. repeat split; by vm_compute. Qed.


(** The run of the examples: the first article gets the error object, the
    second the parsed reply. *)
Example run_analysis_pipeline_example :
  run_analysis_pipeline example_services ascii_only (py "Ollama") None None example_world
  = (Ok true,
     {| preprocessed_file := preprocessed_file example_world;
        analyzed_file :=
          Some [example_cleaned "Acme" "https://example.com/1" "Shares of Acme fell."
                ++ [(py "analysis",
                     VDict [(py "error",
                             VStr (py "Expecting value: line 1 column 1 (char 0)"))])];
                example_cleaned "Apple" "https://example.com/2" "Apple (AAPL) rose."
                ++ [(py "analysis", VDict [])]];
        requests := 2 |}).
Proof. by vm_compute. Qed.



(** A run without a key for OpenAI: nothing is sent and nothing is
    written. *)
Example run_analysis_pipeline_no_key :
  run_analysis_pipeline example_services ascii_only (py "OpenAI") (Some []) None
    example_world
  = (Ok false, example_world).
Proof. by vm_compute. Qed.
(** * Further properties *)

(** ** The normalizer *)

Lemma drop_while_all {A} (p : A → bool) (l : list A) :
  (∀ x, x ∈ l → p x = true) → drop_while p l = [].
Proof.
  induction l as [|x l IH]; intros Hl; cbn [drop_while]; [done|].
  rewrite (Hl x) by left. apply IH. intros y Hy. apply Hl. by right.
Qed.

Section NormalizerMore.
Variable U : unicode_db.

(** With nothing put in their place, the matches are cut out of the
    text. *)
Lemma sub_remove_sublist (pattern : list re.node) (s : pystr) :
  ∀ prev k, re.sub_from U pattern [] prev s k `sublist_of` s.
Proof.
  induction s as [|c s IH]; intros prev k.
  - destruct k; cbn [re.sub_from]; [|done].
    by destruct (re.match_here U pattern prev []) as [[|n]|].
  - destruct k as [|k]; cbn [re.sub_from].
    + destruct (re.match_here U pattern prev (c :: s)) as [[|n]|]; cbn [app].
      * by apply sublist_skip.
      * by apply sublist_cons.
      * by apply sublist_skip.
    + by apply sublist_cons.
Qed.

Lemma sub_whitespace_all_space (s : pystr) :
  ∀ prev k,
    (∀ c, c ∈ s → isspace U c = true) →
    ∀ c, c ∈ re.sub_from U WHITESPACE_RUN (py " ") prev s k → isspace U c = true.
Proof.
  induction s as [|c s IH]; intros prev k Hs d.
  - destruct k; cbn [re.sub_from]; rewrite ?match_here_whitespace; cbn;
      by intros ?%elem_of_nil.
  - assert (Hs' : ∀ c0, c0 ∈ s → isspace U c0 = true)
      by (intros c0 Hc0; apply Hs; by right).
    destruct k as [|k]; cbn [re.sub_from]; [|by apply IH].
    rewrite match_here_whitespace. cbn [take_while].
    rewrite (Hs c) by left. cbn [length].
    change (py " ") with [32%N]. cbn [app].
    intros [->|Hd]%elem_of_cons; [done|]. by eapply (IH (Some c)).
Qed.

Lemma collapsed_lookup (s : pystr) i c :
  collapsed U s = true → s !! i = Some c → isspace U c = true →
  c = 32%N ∧ isspace_opt U (s !! S i) = false.
Proof.
  revert i. induction s as [|d s IH]; intros i Hs Hi Hc; [done|].
  cbn [collapsed] in Hs. apply andb_true_iff in Hs as [Hd Hs].
  destruct i as [|i].
  - injection Hi as ->. rewrite Hc in Hd. cbn [negb orb] in Hd.
    apply andb_true_iff in Hd as [H32 Hnext]. apply N.eqb_eq in H32.
    split; [done|]. change ((_ :: s) !! 1) with (s !! 0). rewrite <- head_lookup.
    by apply negb_true_iff.
  - by apply (IH i).
Qed.

(** X1: in normalized text every whitespace character is one ASCII space
    with a character that is not whitespace on each side: there is none at
    either end, and no two follow each other. *)
Theorem clean_article_content_tidy (s : pystr) (i : nat) (c : N) :
  clean_article_content U s !! i = Some c →
  isspace U c = true →
  c = 32%N
  ∧ (∃ j b, i = S j ∧ clean_article_content U s !! j = Some b ∧ isspace U b = false)
  ∧ (∃ d, clean_article_content U s !! S i = Some d ∧ isspace U d = false).
Proof.
  set (t := clean_article_content U s). intros Hi Hc.
  pose proof (clean_article_content_collapsed U s) as Hcol. fold t in Hcol.
  destruct (strip_ends U (re.sub U WHITESPACE_RUN (py " ")
                            (re.sub U TRUNCATION_NOTICE [] s))) as [Hhead Hlast].
  change (strip U _) with t in Hhead, Hlast.
  destruct (collapsed_lookup t i c Hcol Hi Hc) as [-> Hnext].
  split; [done|]. split.
  - destruct i as [|j].
    + rewrite head_lookup, Hi in Hhead. cbn in Hhead. congruence.
    + destruct (t !! j) as [b|] eqn:Hj.
      * exists j, b. repeat split; try done.
        destruct (isspace U b) eqn:Hb; [|done].
        destruct (collapsed_lookup t j b Hcol Hj Hb) as [_ Hn].
        rewrite Hi in Hn. cbn in Hn. congruence.
      * apply lookup_ge_None in Hj. apply lookup_lt_Some in Hi. lia.
  - destruct (t !! S i) as [d|] eqn:Hd.
    + exists d. by split.
    + apply lookup_ge_None in Hd. pose proof (lookup_lt_Some _ _ _ Hi) as Hlt.
      assert (last t = Some 32%N) as Hl.
      { rewrite last_lookup. replace (Nat.pred (length t)) with i by lia. done. }
      rewrite Hl in Hlast. cbn in Hlast. congruence.
Qed.

(** X2: normalizing never lengthens the text. *)
Theorem clean_article_content_length (s : pystr) :
  length (clean_article_content U s) ≤ length s.
Proof.
  unfold clean_article_content.
  pose proof (strip_length U
                (re.sub U WHITESPACE_RUN (py " ") (re.sub U TRUNCATION_NOTICE [] s)))
    as H1.
  pose proof (sub_whitespace_length U (re.sub U TRUNCATION_NOTICE [] s) None O
                (Nat.le_0_l _)) as H2.
  destruct (sub_remove_length U TRUNCATION_NOTICE s None O) as [H3 _].
  unfold re.sub in *. lia.
Qed.

(** X3: text made of whitespace only, the empty text among them,
    normalizes to the empty text. *)
Theorem clean_article_content_blank (s : pystr) :
  (∀ c, c ∈ s → isspace U c = true) →
  clean_article_content U s = [].
Proof.
  intros Hs. unfold clean_article_content, strip.
  set (t := re.sub U WHITESPACE_RUN (py " ") (re.sub U TRUNCATION_NOTICE [] s)).
  assert (drop_while (isspace U) t = []) as ->; [|done].
  apply drop_while_all. apply sub_whitespace_all_space. intros c Hc. apply Hs.
  eapply elem_of_sublist; [exact Hc|]. apply sub_remove_sublist.
Qed.

End NormalizerMore.

(** ** The truncation notice *)

Lemma take_while_all {A} (p : A → bool) (l : list A) :
  (∀ x, x ∈ l → p x = true) → take_while p l = l.
Proof.
  induction l as [|x l IH]; intros Hl; cbn [take_while]; [done|].
  rewrite (Hl x) by left. f_equal. apply IH. intros y Hy. apply Hl. by right.
Qed.

Lemma take_while_app_stop {A} (p : A → bool) (a b : list A) :
  (∀ x, x ∈ a → p x = true) →
  (∀ x, head b = Some x → p x = false) →
  take_while p (a ++ b) = a.
Proof.
  intros Ha Hb. induction a as [|x a IH]; cbn [app take_while].
  - destruct b as [|y b]; [done|]. cbn [take_while]. by rewrite (Hb y).
  - rewrite (Ha x) by left. f_equal. apply IH. intros y Hy. apply Ha. by right.
Qed.

Lemma take_while_app_l {A} (p : A → bool) (a b : list A) :
  length (take_while p a) < length a →
  take_while p (a ++ b) = take_while p a.
Proof.
  induction a as [|x a IH]; cbn [app take_while length]; [lia|].
  destruct (p x); cbn [length]; [|done].
  intros Hlt. f_equal. apply IH. lia.
Qed.

Lemma take_while_not_last {A} (p : A → bool) (a : list A) (x : A) :
  last a = Some x → p x = false → length (take_while p a) < length a.
Proof.
  intros Hlast Hx.
  destruct (decide (length (take_while p a) < length a)) as [|Hge]; [done|].
  pose proof (take_while_length_le p a) as Hle.
  assert (Hfull : length (take_while p a) = length a) by lia.
  rewrite last_lookup in Hlast.
  destruct (take_while_lookup p a (Nat.pred (length a))) as (y & Hy & Hpy).
  { apply lookup_lt_Some in Hlast. lia. }
  congruence.
Qed.

Section Notice.
Variable U : unicode_db.

Lemma truncation_notice_nodes :
  TRUNCATION_NOTICE =
  [re.star re.Space; re.one (re.Lit 91); re.one (re.Lit 43); re.plus re.Digit;
   re.star re.Space; re.one (re.Lit 99); re.one (re.Lit 104); re.one (re.Lit 97);
   re.one (re.Lit 114); re.one (re.Lit 115); re.one (re.Lit 93);
   re.star re.Space; re.AtEnd].
Proof. reflexivity. Qed.

(** A literal character of the pattern. *)
Lemma match_here_literal (c : N) (rest : list re.node) prev (t : pystr) :
  re.match_here U (re.one (re.Lit c) :: rest) prev t =
  match t with
  | d :: t' =>
      if (d =? c)%N
      then match re.match_here U rest (Some d) t' with
           | Some r => Some (S r)
           | None => None
           end
      else None
  | [] => None
  end.
Proof.
  unfold re.one. cbn [re.match_here].
  change (re.in_cls U (re.Lit c)) with (λ x : N, (x =? c)%N).
  destruct t as [|d t']; [done|]. cbn [take_while].
  destruct (d =? c)%N; cbn [length Nat.min re.backtrack Nat.ltb Nat.leb]; [|done].
  cbn [re.prev_after]. change ((d :: t') !! 0) with (Some d).
  change (drop 1 (d :: t')) with t'.
  by destruct (re.match_here U rest (Some d) t').
Qed.

Lemma match_here_repeat lo hi (k : re.cls) (rest : list re.node) prev (t : pystr) :
  re.match_here U (re.Repeat lo hi k :: rest) prev t =
  re.backtrack
    (λ n, match re.match_here U rest (re.prev_after prev t n) (drop n t) with
          | Some r => Some (n + r)
          | None => None
          end)
    lo
    match hi with
    | Some h => h `min` length (take_while (re.in_cls U k) t)
    | None => length (take_while (re.in_cls U k) t)
    end.
Proof. reflexivity. Qed.

(** A greedy repetition that succeeds with all the characters it can
    take. *)
Lemma match_here_greedy lo (k : re.cls) (rest : list re.node) prev (t : pystr) r :
  lo ≤ length (take_while (re.in_cls U k) t) →
  re.match_here U rest
    (re.prev_after prev t (length (take_while (re.in_cls U k) t)))
    (drop (length (take_while (re.in_cls U k) t)) t) = Some r →
  re.match_here U (re.Repeat lo None k :: rest) prev t
  = Some (length (take_while (re.in_cls U k) t) + r).
Proof.
  intros Hlo Hrest. rewrite match_here_repeat.
  apply backtrack_top; [done|]. by rewrite Hrest.
Qed.

(** No match starts where the whitespace, if any, is not followed by an
    opening bracket. *)
Lemma match_here_no_bracket prev (t : pystr) :
  (∀ n d, n ≤ length (take_while (isspace U) t) → t !! n = Some d → d ≠ 91%N) →
  re.match_here U TRUNCATION_NOTICE prev t = None.
Proof.
  intros Hno. rewrite truncation_notice_nodes. unfold re.star at 1.
  rewrite match_here_repeat. change (re.in_cls U re.Space) with (isspace U).
  apply backtrack_none. intros n [_ Hn].
  rewrite match_here_literal.
  destruct (drop n t) as [|d t'] eqn:Hd; [done|].
  assert (Hnd : t !! n = Some d) by (by rewrite <- head_drop, Hd).
  destruct (N.eqb_spec d 91) as [->|]; [|done]. by destruct (Hno n 91%N Hn Hnd).
Qed.

Lemma sub_truncation_no_bracket (t : pystr) :
  ∀ prev, 91%N ∉ t → re.sub_from U TRUNCATION_NOTICE [] prev t 0 = t.
Proof.
  induction t as [|c t IH]; intros prev Hno; cbn [re.sub_from].
  - rewrite match_here_no_bracket; [done|]. intros n d _ Hd. by destruct n.
  - rewrite match_here_no_bracket.
    + f_equal. apply IH. intros Hin. apply Hno. by right.
    + intros n d _ Hd ->. apply Hno. by eapply list_elem_of_lookup_2.
Qed.

Lemma sub_remove_skip_all (pattern : list re.node) (s : pystr) :
  ∀ prev k, length s ≤ k → re.sub_from U pattern [] prev s k = [].
Proof.
  induction s as [|c s IH]; intros prev k Hk.
  - destruct k; cbn [re.sub_from]; [|done].
    by destruct (re.match_here U pattern prev []) as [[|n]|].
  - destruct k as [|k]; cbn [length] in Hk; [lia|].
    cbn [re.sub_from]. apply IH. lia.
Qed.

Lemma isdecimal_ascii d : ascii_isdigit d = true → isdecimal U d = true.
Proof.
  unfold isdecimal, ascii_isdigit, between. intros H.
  apply andb_true_iff in H as [H1 H2]. pose proof H2 as H2'.
  apply N.leb_le in H2'.
  destruct (N.ltb_spec d 128) as [_|Hge]; [|lia].
  by rewrite H1, H2.
Qed.

(** The notice, with the whitespace before it, is matched whole. *)
Lemma match_here_notice prev (w digits : pystr) :
  (∀ c, c ∈ w → isspace U c = true) →
  digits ≠ [] →
  (∀ d, d ∈ digits → ascii_isdigit d = true) →
  re.match_here U TRUNCATION_NOTICE prev (w ++ py "[+" ++ digits ++ py " chars]")
  = Some (length (w ++ py "[+" ++ digits ++ py " chars]")).
Proof.
  intros Hw Hne Hdigits. rewrite truncation_notice_nodes.
  change (py "[+") with [91%N; 43%N].
  change (py " chars]") with [32%N; 99%N; 104%N; 97%N; 114%N; 115%N; 93%N].
  set (tail := [re.one (re.Lit 99); re.one (re.Lit 104); re.one (re.Lit 97);
                re.one (re.Lit 114); re.one (re.Lit 115); re.one (re.Lit 93);
                re.star re.Space; re.AtEnd]).
  assert (Hend : ∀ p, re.match_here U [re.star re.Space; re.AtEnd] p [] = Some 0)
    by done.
  assert (Hchars : ∀ p, re.match_here U tail p
                          [99%N; 104%N; 97%N; 114%N; 115%N; 93%N] = Some 6).
  { intros p. unfold tail. rewrite !match_here_literal. cbn [N.eqb Pos.eqb].
    by rewrite Hend. }
  assert (Hspace : ∀ p, re.match_here U (re.star re.Space :: tail) p
                          [32%N; 99%N; 104%N; 97%N; 114%N; 115%N; 93%N] = Some 7).
  { intros p. unfold re.star at 1.
    assert (Hone : take_while (re.in_cls U re.Space)
                     [32%N; 99%N; 104%N; 97%N; 114%N; 115%N; 93%N] = [32%N]) by done.
    rewrite (match_here_greedy 0 re.Space tail p _ 6); rewrite Hone; [done|cbn; lia|].
    apply Hchars. }
  assert (Hdigit : ∀ p, re.match_here U (re.plus re.Digit :: re.star re.Space :: tail) p
                          (digits ++ [32%N; 99%N; 104%N; 97%N; 114%N; 115%N; 93%N])
                        = Some (length digits + 7)).
  { intros p. unfold re.plus.
    assert (Hrun : take_while (re.in_cls U re.Digit)
                     (digits ++ [32%N; 99%N; 104%N; 97%N; 114%N; 115%N; 93%N])
                   = digits).
    { apply take_while_app_stop; [|by intros x [= <-]].
      intros d Hd. by apply isdecimal_ascii, Hdigits. }
    rewrite (match_here_greedy 1 re.Digit _ p _ 7); rewrite Hrun; [done| |].
    - destruct digits; [done|cbn [length]; lia].
    - rewrite drop_app_length. apply Hspace. }
  assert (Hopen : ∀ p, re.match_here U
                         (re.one (re.Lit 91) :: re.one (re.Lit 43) :: re.plus re.Digit
                          :: re.star re.Space :: tail) p
                         ([91%N; 43%N] ++ digits
                          ++ [32%N; 99%N; 104%N; 97%N; 114%N; 115%N; 93%N])
                       = Some (2 + (length digits + 7))).
  { intros p. cbn [app]. rewrite !match_here_literal. cbn [N.eqb Pos.eqb].
    by rewrite Hdigit. }
  unfold re.star at 1.
  assert (Hrun : take_while (re.in_cls U re.Space)
                   (w ++ [91%N; 43%N] ++ digits
                    ++ [32%N; 99%N; 104%N; 97%N; 114%N; 115%N; 93%N]) = w).
  { apply take_while_app_stop; [done|]. by intros x [= <-]. }
  rewrite (match_here_greedy 0 re.Space _ prev _ (2 + (length digits + 7)));
    rewrite Hrun.
  - f_equal. rewrite !length_app. cbn [length]. lia.
  - lia.
  - rewrite drop_app_length. apply Hopen.
Qed.

Lemma sub_from_now (pattern : list re.node) (repl : pystr) prev (s : pystr) :
  re.sub_from U pattern repl prev s 0 =
  match re.match_here U pattern prev s with
  | Some 0 =>
      repl ++ match s with
              | [] => []
              | c :: s' => c :: re.sub_from U pattern repl (Some c) s' 0
              end
  | Some (S n) =>
      repl ++ match s with
              | [] => []
              | c :: s' => re.sub_from U pattern repl (Some c) s' n
              end
  | None =>
      match s with
      | [] => []
      | c :: s' => c :: re.sub_from U pattern repl (Some c) s' 0
      end
  end.
Proof. by destruct s. Qed.

(** The part of the text before the notice and its whitespace is kept;
    the rest is cut. *)
Lemma sub_truncation_cut (x w digits : pystr) :
  ∀ prev,
    91%N ∉ x →
    isspace_opt U (last x) = false →
    (∀ c, c ∈ w → isspace U c = true) →
    digits ≠ [] →
    (∀ d, d ∈ digits → ascii_isdigit d = true) →
    re.sub_from U TRUNCATION_NOTICE [] prev
      (x ++ w ++ py "[+" ++ digits ++ py " chars]") 0 = x.
Proof.
  induction x as [|c x IH]; intros prev Hno Hlast Hw Hne Hdigits.
  - cbn [app]. rewrite sub_from_now, match_here_notice by done.
    destruct (w ++ py "[+" ++ digits ++ py " chars]") as [|d t] eqn:Ht.
    { by destruct w. }
    cbn [length app]. apply sub_remove_skip_all. lia.
  - cbn [app re.sub_from].
    assert (Hlt : length (take_while (isspace U) (c :: x)) < length (c :: x)).
    { destruct (last (c :: x)) as [l|] eqn:Hl; [|by rewrite last_cons in Hl;
                                                   destruct (last x)].
      by apply (take_while_not_last _ _ l). }
    rewrite match_here_no_bracket.
    + f_equal. apply IH; try done.
      * intros Hin. apply Hno. by right.
      * rewrite last_cons in Hlast. by destruct (last x).
    + intros n d Hn Hd ->.
      change (c :: x ++ w ++ py "[+" ++ digits ++ py " chars]")
        with ((c :: x) ++ w ++ py "[+" ++ digits ++ py " chars]") in Hn, Hd.
      rewrite take_while_app_l in Hn by done.
      rewrite lookup_app_l in Hd by lia.
      apply Hno. by eapply list_elem_of_lookup_2.
Qed.

Lemma sub_whitespace_skip_all (s : pystr) :
  ∀ prev, re.sub_from U WHITESPACE_RUN (py " ") prev s (length s) = [].
Proof.
  induction s as [|c s IH]; intros prev; cbn [length re.sub_from]; [|done].
  by rewrite match_here_whitespace.
Qed.

(** Whitespace at the end of the text becomes one space at the end of the
    collapsed text. *)
Lemma sub_whitespace_app_space (x w : pystr) :
  ∀ prev k,
    isspace_opt U (last x) = false →
    (∀ c, c ∈ w → isspace U c = true) →
    k ≤ length (take_while (isspace U) x) →
    re.sub_from U WHITESPACE_RUN (py " ") prev (x ++ w) k =
    re.sub_from U WHITESPACE_RUN (py " ") prev x k
    ++ match w with [] => [] | _ => [32%N] end.
Proof.
  induction x as [|c x IH]; intros prev k Hlast Hw Hk.
  - cbn [take_while length] in Hk. assert (k = 0) as -> by lia.
    cbn [app]. rewrite !sub_from_now, !match_here_whitespace.
    rewrite (take_while_all _ w Hw). destruct w as [|d w]; [done|].
    cbn [length take_while app]. by rewrite sub_whitespace_skip_all.
  - assert (Hlt : length (take_while (isspace U) (c :: x)) < length (c :: x)).
    { destruct (last (c :: x)) as [l|] eqn:Hl; [|by rewrite last_cons in Hl;
                                                   destruct (last x)].
      by apply (take_while_not_last _ _ l). }
    assert (Hlast' : isspace U c = true → isspace_opt U (last x) = false ∧ x ≠ []).
    { intros Hc. rewrite last_cons in Hlast. destruct x as [|d x].
      - cbn in Hlast. congruence.
      - split; [|done]. by destruct (last (d :: x)). }
    cbn [app]. destruct k as [|k]; cbn [re.sub_from].
    + rewrite !match_here_whitespace.
      change (c :: x ++ w) with ((c :: x) ++ w).
      rewrite take_while_app_l by done. cbn [take_while].
      destruct (isspace U c) eqn:Hc; cbn [length].
      * destruct (Hlast' eq_refl) as [Hl _]. by rewrite IH.
      * rewrite last_cons in Hlast. rewrite IH; [done| |done|lia].
        destruct x; [done|]. by destruct (last (n :: x)).
    + revert Hk. cbn [take_while]. destruct (isspace U c) eqn:Hc; cbn [length]; [|lia].
      intros Hk. destruct (Hlast' eq_refl) as [Hl _]. apply IH; [done|done|lia].
Qed.

Lemma drop_while_app_keep {A} (p : A → bool) (a b : list A) :
  drop_while p a ≠ [] → drop_while p (a ++ b) = drop_while p a ++ b.
Proof.
  induction a as [|x a IH]; cbn [app drop_while]; [done|].
  destruct (p x); [apply IH|done].
Qed.

Lemma strip_app_space (y : pystr) : strip U (y ++ [32%N]) = strip U y.
Proof.
  unfold strip. destruct (drop_while (isspace U) y) as [|d t] eqn:Hy.
  - assert (Hall : ∀ c, c ∈ y ++ [32%N] → isspace U c = true).
    { intros c [Hc|Hc]%elem_of_app.
      - pose proof (take_drop_while (isspace U) y) as Hsplit.
        rewrite Hy, app_nil_r in Hsplit. rewrite <- Hsplit in Hc.
        clear Hsplit Hy. induction y as [|e y IHy]; cbn [take_while] in Hc.
        + by apply elem_of_nil in Hc.
        + destruct (isspace U e) eqn:He; [|by apply elem_of_nil in Hc].
          apply elem_of_cons in Hc as [->|Hc]; auto.
      - apply list_elem_of_singleton in Hc as ->. done. }
    by rewrite (drop_while_all _ _ Hall).
  - rewrite drop_while_app_keep by (by rewrite Hy). rewrite Hy.
    rewrite rev_app_distr. cbn [rev app drop_while].
    by rewrite (isspace_32 U).
Qed.

(** The text splits into what [rstrip] would keep and the whitespace at
    its end. *)
Lemma trailing_whitespace_split (s : pystr) :
  ∃ x w, s = x ++ w ∧ isspace_opt U (last x) = false
         ∧ (∀ c, c ∈ w → isspace U c = true).
Proof.
  exists (rev (drop_while (isspace U) (rev s))), (rev (take_while (isspace U) (rev s))).
  repeat split.
  - by rewrite <- rev_app_distr, take_drop_while, rev_involutive.
  - rewrite <- head_rev, rev_involutive.
    destruct (head (drop_while (isspace U) (rev s))) as [c|] eqn:Hc; [|done].
    by apply drop_while_head in Hc.
  - intros c Hc. apply list_elem_of_In, in_rev, list_elem_of_In in Hc.
    apply list_elem_of_lookup in Hc as [i Hi].
    destruct (take_while_lookup (isspace U) (rev s) i) as (d & Hd & Hsp).
    { by apply lookup_lt_Some in Hi. }
    assert (take_while (isspace U) (rev s) !! i = Some d).
    { pose proof (take_drop_while (isspace U) (rev s)) as Hsplit.
      rewrite <- Hsplit in Hd. rewrite lookup_app_l in Hd; [done|].
      by apply lookup_lt_Some in Hi. }
    congruence.
Qed.

(** X4: a truncation notice of NewsAPI at the end of the text, with the
    whitespace that precedes it, is removed: the text normalizes as
    though the notice were not there.  (The text itself holds no opening
    bracket.) *)
Theorem clean_article_content_removes_notice (s digits : pystr) :
  91%N ∉ s →
  digits ≠ [] →
  (∀ d, d ∈ digits → ascii_isdigit d = true) →
  clean_article_content U (s ++ py "[+" ++ digits ++ py " chars]")
  = clean_article_content U s.
Proof.
  intros Hno Hne Hdigits.
  destruct (trailing_whitespace_split s) as (x & w & -> & Hlast & Hw).
  unfold clean_article_content, re.sub.
  rewrite <- app_assoc.
  rewrite sub_truncation_cut; try done.
  2: { intros Hin. apply Hno. apply elem_of_app. by left. }
  rewrite sub_truncation_no_bracket by done.
  rewrite sub_whitespace_app_space by (done || lia).
  destruct w as [|d w]; [by rewrite app_nil_r|].
  by rewrite strip_app_space.
Qed.

End Notice.
(** ** Preprocessing and the fetch run *)

Lemma assoc_set_set {V} (k : pystr) (v v' : V) (d : assoc V) :
  assoc_set k v (assoc_set k v' d) = assoc_set k v d.
Proof.
  induction d as [|[k0 v0] d IH]; cbn [assoc_set].
  - by rewrite decide_True.
  - destruct (decide (k0 = k)) as [->|Hne]; cbn [assoc_set].
    + by rewrite decide_True.
    + rewrite decide_False by done. by rewrite IH.
Qed.

Lemma cleaned_content_ne_content : py "cleaned_content" ≠ py "content".
Proof. by vm_compute. Qed.
Lemma cleaned_content_ne_title : py "cleaned_content" ≠ py "title".
Proof. by vm_compute. Qed.

Section PreprocessMore.
Variable U : unicode_db.

Lemma with_cleaned_content_again (a : dict) :
  has_usable_content U a = true →
  has_usable_content U (with_cleaned_content U a) = true
  ∧ with_cleaned_content U (with_cleaned_content U a) = with_cleaned_content U a.
Proof.
  unfold has_usable_content, with_cleaned_content.
  destruct (assoc_get (py "content") a) as [[| | |content| |]|] eqn:Hc; try done.
  intros Huse.
  rewrite (assoc_get_set_ne (py "content") (py "cleaned_content"))
    by apply cleaned_content_ne_content.
  rewrite Hc. split; [done|]. apply assoc_set_set.
Qed.

Lemma preprocess_articles_shape (articles : list dict) :
  preprocess_articles U articles =
  with_cleaned_content U <$> filter (λ a, has_usable_content U a = true) articles.
Proof. unfold preprocess_articles. by rewrite preprocess_loop. Qed.

(** X5: preprocessing what was preprocessed changes nothing: the articles
    kept are kept again, with the same [cleaned_content]. *)
Theorem preprocess_articles_idempotent (articles : list dict) :
  preprocess_articles U (preprocess_articles U articles)
  = preprocess_articles U articles.
Proof.
  rewrite !preprocess_articles_shape.
  induction articles as [|a l IH]; [done|].
  rewrite filter_cons. destruct (decide (has_usable_content U a = true)) as [Ha|Ha];
    [|done].
  destruct (with_cleaned_content_again a Ha) as [Hkeep Hsame].
  rewrite fmap_cons, filter_cons, decide_True by done.
  by rewrite fmap_cons, Hsame, IH.
Qed.


Lemma has_title_with_cleaned_content (a : dict) :
  has_title (with_cleaned_content U a) = has_title a.
Proof.
  unfold with_cleaned_content, has_title.
  destruct (assoc_get (py "content") a) as [[| | |content| |]|]; try done.
  by rewrite (assoc_get_set_ne (py "title") (py "cleaned_content"))
    by apply cleaned_content_ne_title.
Qed.


Lemma preprocess_articles_kept (articles : list dict) (kept : dict) :
  kept ∈ preprocess_articles U articles →
  ∃ article content,
    article ∈ articles
    ∧ kept = with_cleaned_content U article
    ∧ assoc_get (py "content") article = Some (VStr content)
    ∧ clean_article_content U content ≠ []
    ∧ assoc_get (py "content") kept = Some (VStr content)
    ∧ assoc_get (py "cleaned_content") kept
      = Some (VStr (clean_article_content U content)).
Proof.
  rewrite preprocess_articles_shape.
  intros (a & -> & Ha)%list_elem_of_fmap.
  apply list_elem_of_filter in Ha as [Huse Ha].
  unfold has_usable_content in Huse. unfold with_cleaned_content.
  destruct (assoc_get (py "content") a) as [[| | |content| |]|] eqn:Ec; try done.
  exists a, content. rewrite Ec.
  split; [done|]. split; [done|]. split; [done|]. split; [|split].
  - by destruct (clean_article_content U content).
  - by rewrite (assoc_get_set_ne (py "content") (py "cleaned_content"))
      by apply cleaned_content_ne_content.
  - apply assoc_get_set_eq.
Qed.

Lemma preprocess_articles_kept_from (articles : list dict) (kept : dict) :
  kept ∈ preprocess_articles U articles →
  ∃ article, kept = with_cleaned_content U article ∧ article ∈ articles.
Proof.
  rewrite preprocess_articles_shape.
  intros (a & -> & Ha)%list_elem_of_fmap.
  apply list_elem_of_filter in Ha as [_ Ha]. eauto.
Qed.

End PreprocessMore.

Lemma list_filter_True_strong {A} (P : A → Prop) `{∀ x, Decision (P x)} (l : list A) :
  (∀ x, x ∈ l → P x) → filter P l = l.
Proof.
  induction l as [|x l IH]; intros Hl; [done|].
  rewrite filter_cons, decide_True by (apply Hl; by left).
  f_equal. apply IH. intros y Hy. apply Hl. by right.
Qed.

(** ** Removing duplicates, again *)

Lemma unique_loop_has_url (rest : list dict) :
  ∀ acc seen out,
    unique_loop rest acc seen = Ok out → Forall (λ a, has_url a = true) rest.
Proof.
  induction rest as [|a rest IH]; intros acc seen out; [by constructor|].
  cbn [unique_loop]. unfold getitem.
  destruct (assoc_get (py "url") a) as [url|] eqn:E1; [|done].
  cbn [mbind result_bind]. destruct (hash_key url) as [k|] eqn:E2;
    cbn [mbind result_bind]; [|done].
  intros Hloop. constructor; [unfold has_url, url_key; by rewrite E1, E2|].
  destruct (decide (k ∉ seen)); by eapply IH.
Qed.

Lemma first_from_distinct (rest : list dict) :
  ∀ pre : list dict,
    NoDup (url_key <$> rest) →
    (∀ a, a ∈ rest → url_key a ∉ (url_key <$> pre)) →
    omap (λ i, article ← (pre ++ rest) !! i;
               if decide (url_key article ∈ url_key <$> take i (pre ++ rest))
               then None else Some article)
         (seq (length pre) (length rest)) = rest.
Proof.
  induction rest as [|a rest IH]; intros pre Hnd Hpre; [done|].
  rewrite first_from_cons.
  rewrite fmap_cons in Hnd. apply NoDup_cons in Hnd as [Ha Hnd].
  rewrite decide_False by (apply Hpre; by left). cbn [app]. f_equal.
  apply IH; [done|]. intros b Hb.
  rewrite fmap_app, elem_of_app. cbn. rewrite list_elem_of_singleton.
  intros [Hin|Heq].
  - by apply (Hpre b); [right|].
  - apply Ha. rewrite <- Heq. by apply list_elem_of_fmap_2.
Qed.

Lemma unique_articles_ok (us_articles out : list dict) :
  unique_articles us_articles = Ok out →
  out = first_occurrences us_articles
  ∧ Forall (λ a, has_url a = true) us_articles
  ∧ NoDup (url_key <$> out)
  ∧ out `sublist_of` us_articles.
Proof.
  intros Hout. pose proof (unique_loop_has_url _ _ _ _ Hout) as Hurls.
  unfold unique_articles in Hout.
  rewrite (unique_loop_spec us_articles [] [] ∅) in Hout by (done || set_solver).
  injection Hout as <-.
  destruct (first_from_properties us_articles []) as (Hsub & _ & Hnd & _).
  done.
Qed.

(** X6: removing duplicates from a list that has none returns the list;
    so removing them twice is removing them once. *)
Theorem unique_articles_idempotent (us_articles out : list dict) :
  unique_articles us_articles = Ok out →
  unique_articles out = Ok out.
Proof.
  intros (-> & Hurls & Hnd & Hsub)%unique_articles_ok.
  set (out := first_occurrences us_articles) in *.
  assert (Hurls' : Forall (λ a, has_url a = true) out).
  { apply Forall_forall. intros a Ha. rewrite Forall_forall in Hurls.
    apply Hurls. by eapply elem_of_sublist. }
  unfold unique_articles.
  rewrite (unique_loop_spec out [] [] ∅) by (done || set_solver).
  cbn [app]. f_equal. apply (first_from_distinct out []); [done|].
  intros a _. cbn. apply not_elem_of_nil.
Qed.

(** ** The fetch run and the analysis run *)

Section RunMore.
Variable svc : services.
Variable U : unicode_db.

(** The outcomes of the fetch run: it ends before the writing, with the
    world as it was, or it reaches the writing with articles to write. *)
Lemma run_fetch_pipeline_cases (w : world) :
  (∃ r, run_fetch_pipeline svc U w = (r, Intact w) ∧ r ≠ Ok true)
  ∨ ∃ key us un,
      NEWS_API_KEY svc = Some key
      ∧ fetch_us_headlines svc key = Ok us
      ∧ unique_articles us = Ok un
      ∧ preprocess_articles U un ≠ []
      ∧ run_fetch_pipeline svc U w =
        match json_dump (preprocess_articles U un) with
        | Ok written =>
            (Ok true, Intact {| preprocessed_file := Some written;
                                analyzed_file := analyzed_file w;
                                requests := requests w |})
        | Raise e => (Raise e, PreprocessedCutShort (analyzed_file w) (requests w))
        end.
Proof.
  unfold run_fetch_pipeline.
  destruct (NEWS_API_KEY svc) as [[|c key]|] eqn:Hkey;
    try (left; by eexists).
  destruct (fetch_us_headlines svc (c :: key)) as [us|e] eqn:Hus;
    cbn [mbind result_bind]; [|left; by eexists].
  destruct (unique_articles us) as [un|e] eqn:Hun;
    cbn [mbind result_bind mret result_ret]; [|left; by eexists].
  destruct (preprocess_articles U un) as [|p ps] eqn:Hp; [left; by eexists|].
  right. exists (c :: key), us, un. by rewrite Hp.
Qed.




Lemma encodable_assoc_set (k : pystr) (v : value) (d : dict) :
  encodable_text k = true → encodable v = true → encodable (VDict d) = true →
  encodable (VDict (assoc_set k v d)) = true.
Proof.
  intros Hk Hv. induction d as [|[k0 v0] d IH]; cbn [assoc_set encodable forallb].
  - intros _. by rewrite Hk, Hv.
  - intros [H0 Hd]%andb_prop. destruct (decide (k0 = k)); cbn [forallb].
    + by rewrite Hk, Hv, Hd.
    + rewrite H0. by apply IH.
Qed.

(** What the run writes can be encoded when the articles it read and the
    answers of the oracle can. *)
Lemma annotated_encodable analyzer (n : nat) (articles : list dict) :
  (∀ m content,
     match analyze svc U analyzer m content with
     | Ok analysis_data => encodable analysis_data
     | Raise e => encodable_text (str_exn e)
     end = true) →
  Forall (λ a, encodable (VDict a) = true) articles →
  Forall (λ a, encodable (VDict a) = true) (annotated svc U analyzer n articles).
Proof.
  intros Horacle Harticles. unfold annotated. apply Forall_forall. intros a Ha.
  apply elem_of_lookup_imap in Ha as (i & b & -> & Hb).
  apply encodable_assoc_set; [by vm_compute| |].
  - unfold analysis_entry.
    destruct (assoc_get (py "cleaned_content") b) as [content|]; [|by vm_compute].
    specialize (Horacle (n + requests_for (take i articles)) content).
    destruct (analyze svc U analyzer _ content) as [v|e]; [done|].
    unfold error_object. cbn [encodable forallb]. by rewrite Horacle.
  - rewrite Forall_forall in Harticles. apply Harticles.
    by eapply list_elem_of_lookup_2.
Qed.

(** X9: a fetch run followed by an analysis run.  When the headlines come
    with titles that can be printed, the analyzer can be built and the
    answers of the oracle hold no surrogate, the analysis of what the
    fetch run wrote returns [True], sends one request for each article
    and writes as many entries as there are articles. *)
Theorem fetch_then_analyze
    (provider : pystr) (api_key model_name : option pystr) (analyzer : LLMAnalyzer)
    (w w1 : world) :
  (∀ key fetched, fetch_us_headlines svc key = Ok fetched →
                  Forall (λ a, has_title a = true) fetched) →
  (∀ n content,
     match analyze svc U analyzer n content with
     | Ok analysis_data => encodable analysis_data
     | Raise e => encodable_text (str_exn e)
     end = true) →
  get_analyzer provider api_key model_name = Ok analyzer →
  run_fetch_pipeline svc U w = (Ok true, w1) →
  ∃ processed,
    preprocessed_file w1 = Some processed
    ∧ run_analysis_pipeline svc U provider api_key model_name w1 =
        (Ok true,
         {| preprocessed_file := Some processed;
            analyzed_file := Some (annotated svc U analyzer (requests w) processed);
            requests := requests w + length processed |})
    ∧ length (annotated svc U analyzer (requests w) processed) = length processed.
Proof.
  intros Htitles Horacle Han Hfetch.
  assert (Hprocessed : ∃ fetched un,
            Forall (λ a, has_title a = true) fetched
            ∧ un `sublist_of` fetched
            ∧ preprocess_articles U un ≠ []
            ∧ Forall (λ a, encodable (VDict a) = true) (preprocess_articles U un)
            ∧ w1 = {| preprocessed_file := Some (preprocess_articles U un);
                      analyzed_file := analyzed_file w;
                      requests := requests w |}).
  { destruct (run_fetch_pipeline_cases w)
      as [(r0 & Hr0 & Hne)|(key & us & un & Hkey & Hus & Hun & Hne & Hrun)].
    { rewrite Hr0 in Hfetch. injection Hfetch as Hr _. by rewrite Hr in Hne. }
    rewrite Hrun in Hfetch.
    destruct (json_dump_cases (preprocess_articles U un)) as [[Hd Henc]|[Hd _]];
      rewrite Hd in Hfetch; [|done].
    injection Hfetch as <-.
    apply unique_articles_ok in Hun as (_ & _ & _ & Hsub).
    exists us, un. split; [by eapply Htitles|]. done. }
  destruct Hprocessed as (fetched & un & Hft & Hsub & Hne & Henc & ->).
  set (processed := preprocess_articles U un) in *.
  assert (Hpt : Forall (λ a, has_title a = true) processed).
  { apply Forall_forall. intros a (b & -> & Hb)%preprocess_articles_kept_from.
    rewrite has_title_with_cleaned_content.
    rewrite Forall_forall in Hft. apply Hft. by eapply elem_of_sublist. }
  assert (Hreq : requests_for processed = length processed).
  { unfold requests_for. f_equal. apply list_filter_True_strong.
    intros a (b & content & _ & _ & _ & _ & _ & Hcc)%preprocess_articles_kept.
    unfold assoc_has. by rewrite Hcc. }
  exists processed. split; [done|]. split.
  - rewrite (run_analysis_pipeline_writes svc U provider api_key model_name analyzer
               processed) by done.
    cbn [requests].
    destruct (json_dump_cases (annotated svc U analyzer (requests w) processed))
      as [[-> _]|[_ Hno]].
    + by rewrite Hreq.
    + destruct Hno. by apply annotated_encodable.
  - unfold annotated. apply length_imap.
Qed.

End RunMore.

(** ** The dashboard *)

Lemma take_while_Forall {A} (p : A → bool) (l : list A) (x : A) :
  x ∈ take_while p l → p x = true.
Proof.
  induction l as [|y l IH]; cbn [take_while]; [by intros ?%elem_of_nil|].
  destruct (p y) eqn:E; [|by intros ?%elem_of_nil].
  intros [->|Hx]%elem_of_cons; auto.
Qed.

Lemma assoc_get_elem {V} (k : pystr) (v : V) (d : assoc V) :
  NoDup d.*1 → (k, v) ∈ d → assoc_get k d = Some v.
Proof.
  induction d as [|[k0 v0] d IH]; [by intros _ ?%elem_of_nil|].
  rewrite fmap_cons, NoDup_cons. cbn [fst assoc_get]. intros [Hk0 Hnd].
  intros [[= -> ->]|Hin]%elem_of_cons.
  - by rewrite decide_True.
  - destruct (decide (k0 = k)) as [->|]; [|auto].
    destruct Hk0. apply list_elem_of_fmap. by exists (k, v).
Qed.

Section DashboardMore.
Variable U : unicode_db.
Variable VALID_TICKERS : gset pystr.

Lemma findall_ticker_shaped (s t : pystr) :
  t ∈ re.findall U TICKER_TOKEN s → ticker_shaped t.
Proof.
  rewrite findall_ticker_candidates. unfold candidates_spec.
  intros (i & _ & Hi)%list_elem_of_omap. revert Hi. unfold candidate_at.
  destruct (_ && _) eqn:Hcond; [|done]. intros [= <-].
  repeat (apply andb_true_iff in Hcond as [Hcond ?]).
  split; [split; by (apply Nat.leb_le)|]. intros c. apply take_while_Forall.
Qed.

(** The signals of one article: listed tickers, each with the sentiment
    of the article, which is Positive or Negative. *)
Lemma article_signals_listed (article : dict) thr (new : list signal) :
  article_signals U VALID_TICKERS article thr = Ok new →
  ∀ ticker sentiment, (ticker, sentiment) ∈ new →
    ticker ∈ VALID_TICKERS ∧ ticker_shaped ticker
    ∧ (sentiment = py "Positive" ∨ sentiment = py "Negative").
Proof.
  unfold article_signals.
  destruct (negb (truthy (dict_get "analysis" article)));
    [by intros [= <-] ? ? ?%elem_of_nil|].
  destruct (contains (py "error") (dict_get "analysis" article)) as [[|]|];
    cbn [mbind result_bind]; [by intros [= <-] ? ? ?%elem_of_nil| |done].
  destruct (get_method (dict_get "analysis" article)) as [fields|];
    cbn [mbind result_bind]; [|done].
  destruct (less_than _ thr) as [[|]|]; cbn [mbind result_bind];
    [by intros [= <-] ? ? ?%elem_of_nil| |done].
  destruct (dict_get "sentiment" fields) as [| | |s| |];
    try by intros [= <-] ? ? ?%elem_of_nil.
  cbn [eq_str].
  destruct (bool_decide (s = py "Positive") || bool_decide (s = py "Negative"))
    eqn:Hs; cbn [negb]; [|by intros [= <-] ? ? ?%elem_of_nil].
  destruct (iterate _) as [entities|]; cbn [mbind result_bind]; [|done].
  intros [= <-] ticker sentiment Hin.
  apply list_elem_of_In, in_flat_map in Hin as (entity & _ & Hin).
  apply list_elem_of_In in Hin.
  destruct entity as [| | |e| |]; try by apply elem_of_nil in Hin.
  cbn [entity_signals] in Hin.
  apply list_elem_of_fmap in Hin as (t & [= -> ->] & Ht).
  apply list_elem_of_filter in Ht as [Hlisted Ht].
  split; [done|]. split; [by eapply findall_ticker_shaped|].
  apply orb_true_iff in Hs as [Hs|Hs]; apply bool_decide_eq_true in Hs; auto.
Qed.

Lemma extract_loop_listed (articles : list dict) thr :
  ∀ acc out,
    extract_loop U VALID_TICKERS articles thr acc = Ok out →
    ∀ x, x ∈ out →
      x ∈ acc ∨ (x.1 ∈ VALID_TICKERS ∧ ticker_shaped x.1
                 ∧ (x.2 = py "Positive" ∨ x.2 = py "Negative")).
Proof.
  induction articles as [|a l IH]; intros acc out.
  - intros [= <-] x Hx. by left.
  - cbn [extract_loop].
    destruct (article_signals U VALID_TICKERS a thr) as [new|] eqn:Hnew;
      cbn [mbind result_bind]; [|done].
    intros Hout x Hx. destruct (IH _ _ Hout x Hx) as [Hacc|?]; [|by right].
    apply elem_of_app in Hacc as [?|Hin]; [by left|]. right.
    destruct x as [t s]. by eapply article_signals_listed.
Qed.

Lemma extract_valid_signals_rows
    (articles : list dict) thr (signals : list signal) :
  extract_valid_signals U VALID_TICKERS articles thr = Ok signals →
  ∀ ticker sentiment, (ticker, sentiment) ∈ signals →
    ticker ∈ VALID_TICKERS ∧ ticker_shaped ticker.
Proof.
  intros Hout ticker sentiment Hin.
  destruct (extract_loop_listed _ _ _ _ Hout _ Hin) as [Hnil|(? & ? & _)]; [|done].
  by apply elem_of_nil in Hnil.
Qed.

(** X10: whatever the documents hold, a signal that is returned names a
    listed ticker, of 1 to 5 capital letters, with the sentiment Positive
    or Negative. *)
Theorem extract_valid_signals_listed
    (articles : list dict) (confidence_threshold : Z) (signals : list signal) :
  extract_valid_signals U VALID_TICKERS articles confidence_threshold = Ok signals →
  ∀ ticker sentiment, (ticker, sentiment) ∈ signals →
    ticker ∈ VALID_TICKERS
    ∧ ticker_shaped ticker
    ∧ (sentiment = py "Positive" ∨ sentiment = py "Negative").
Proof.
  intros Hout ticker sentiment Hin.
  destruct (extract_loop_listed _ _ _ _ Hout _ Hin) as [Hnil|H]; [|exact H].
  by apply elem_of_nil in Hnil.
Qed.

Lemma extract_skips (before after : list dict) (article : dict) thr :
  article_signals U VALID_TICKERS article thr = Ok [] →
  extract_valid_signals U VALID_TICKERS (before ++ article :: after) thr
  = extract_valid_signals U VALID_TICKERS (before ++ after) thr.
Proof.
  intros Hnone. unfold extract_valid_signals. rewrite !extract_loop_app.
  destruct (extract_loop U VALID_TICKERS before thr []) as [acc|e]; [|done].
  cbn [mbind result_bind extract_loop]. rewrite Hnone.
  cbn [mbind result_bind]. by rewrite app_nil_r.
Qed.

(** X11: an article whose analysis holds the key [error], as the object
    the analysis run writes when the oracle fails, adds no signal,
    whatever else the analysis holds. *)
Theorem failed_analysis_no_signal
    (before after : list dict) (article fields : dict) (confidence_threshold : Z) :
  assoc_get (py "analysis") article = Some (VDict fields) →
  assoc_has (py "error") fields = true →
  article_signals U VALID_TICKERS article confidence_threshold = Ok []
  ∧ extract_valid_signals U VALID_TICKERS (before ++ article :: after)
      confidence_threshold
    = extract_valid_signals U VALID_TICKERS (before ++ after) confidence_threshold.
Proof.
  intros Han Herr.
  assert (Hnone : article_signals U VALID_TICKERS article confidence_threshold = Ok []).
  { unfold article_signals, dict_get, dict_get_default. rewrite Han.
    destruct fields as [|kv fields']; [done|]. cbn [truthy negb contains].
    cbn [mbind result_bind]. by rewrite Herr. }
  split; [done|]. by apply extract_skips.
Qed.

(** X12: a [confidence_score] that is not a number, a string or [null]
    for instance, makes the comparison with the threshold raise
    [TypeError]: the extraction stops there and returns no signal at
    all. *)
Theorem confidence_not_a_number_raises
    (before after : list dict) (article fields : dict) (score : value)
    (confidence_threshold : Z) (signals : list signal) :
  assoc_get (py "analysis") article = Some (VDict fields) →
  assoc_has (py "error") fields = false →
  assoc_get (py "confidence_score") fields = Some score →
  (∀ z, score ≠ VInt z) → (∀ b, score ≠ VBool b) →
  extract_valid_signals U VALID_TICKERS before confidence_threshold = Ok signals →
  ∃ msg,
    article_signals U VALID_TICKERS article confidence_threshold
    = Raise (TypeError msg)
    ∧ extract_valid_signals U VALID_TICKERS (before ++ article :: after)
        confidence_threshold
      = Raise (TypeError msg).
Proof.
  intros Han Herr Hscore Hint Hbool Hbefore.
  assert (Hraise : ∃ msg, article_signals U VALID_TICKERS article confidence_threshold
                          = Raise (TypeError msg)).
  { unfold article_signals, dict_get, dict_get_default. rewrite Han.
    destruct fields as [|kv fields']; [done|]. set (fields := kv :: fields') in *.
    cbn [truthy negb contains]. cbn [mbind result_bind]. rewrite Herr.
    cbn [get_method mbind result_bind]. rewrite Hscore.
    destruct score as [|b|z| | |]; cbn [less_than mbind result_bind]; eauto.
    - by destruct (Hbool b).
    - by destruct (Hint z). }
  destruct Hraise as [msg Hmsg]. exists msg. split; [done|].
  unfold extract_valid_signals in *. rewrite extract_loop_app, Hbefore.
  cbn [mbind result_bind extract_loop]. by rewrite Hmsg.
Qed.

End DashboardMore.

(** ** Scores *)

Lemma score_tickers_lookup (signals : list signal) (ticker : pystr) :
  assoc_get ticker (score_tickers signals) =
  let p := count_of ticker (py "Positive") signals in
  let n := count_of ticker (py "Negative") signals in
  if decide (p - n = 0)%Z then None
  else Some {| positive := p; negative := n; net_score := p - n |}.
Proof.
  unfold score_tickers. cbv zeta.
  rewrite keep_scored_loop by (apply count_signal_NoDup; constructor).
  rewrite count_signal_loop. cbv zeta. cbn [assoc_get].
  set (p := count_of ticker (py "Positive") signals).
  set (n := count_of ticker (py "Negative") signals).
  destruct (decide (p = 0 ∧ n = 0)%Z) as [[Hp Hn]|Hpn].
  - case_decide; [done|lia].
  - cbn [tally_positive tally_negative]. by case_decide.
Qed.

Lemma score_tickers_NoDup (signals : list signal) : NoDup (score_tickers signals).*1.
Proof. apply keep_scored_NoDup. constructor. Qed.

Lemma score_tickers_row (signals : list signal) (r : row) :
  r ∈ score_tickers signals →
  positive r.2 = count_of r.1 (py "Positive") signals
  ∧ negative r.2 = count_of r.1 (py "Negative") signals
  ∧ net_score r.2 = (positive r.2 - negative r.2)%Z
  ∧ net_score r.2 ≠ 0%Z.
Proof.
  destruct r as [t s]. intros Hin.
  apply assoc_get_elem in Hin; [|apply score_tickers_NoDup].
  rewrite score_tickers_lookup in Hin. cbv zeta in Hin.
  case_decide; [done|]. by injection Hin as <-.
Qed.

(** X13: the scores depend on which signals there are, not on their
    order: two lists with the same signals give every ticker the same
    entry. *)
Theorem score_tickers_order (signals signals' : list signal) (ticker : pystr) :
  signals ≡ₚ signals' →
  assoc_get ticker (score_tickers signals) = assoc_get ticker (score_tickers signals').
Proof.
  intros Hperm. rewrite !score_tickers_lookup.
  assert (Hcount : ∀ s, count_of ticker s signals = count_of ticker s signals').
  { intros s. unfold count_of. f_equal. by rewrite Hperm. }
  by rewrite !Hcount.
Qed.


Lemma count_of_elem (ticker sentiment : pystr) (signals : list signal) :
  count_of ticker sentiment signals ≠ 0%Z → (ticker, sentiment) ∈ signals.
Proof.
  unfold count_of.
  destruct (filter (λ s, s = (ticker, sentiment)) signals) as [|x l] eqn:Hf; [done|].
  intros _. assert (Hx : x ∈ filter (λ s, s = (ticker, sentiment)) signals)
    by (rewrite Hf; left).
  by apply list_elem_of_filter in Hx as [-> ?].
Qed.

(** ** The main display *)

Section Display.
Variable U : unicode_db.
Variable VALID_TICKERS : gset pystr.
Variable sort_values : (row → Z) → bool → list row → list row.
Hypothesis sort_values_permutation :
  ∀ by_ ascending df, sort_values by_ ascending df ≡ₚ df.

Lemma tables_partition (scored_tickers : list row) :
  (∀ r, r ∈ scored_tickers → net_score r.2 ≠ 0%Z) →
  bullish_df sort_values scored_tickers ++ bearish_df sort_values scored_tickers
  ≡ₚ scored_tickers.
Proof.
  intros Hnz. unfold bullish_df, bearish_df.
  rewrite !sort_values_permutation.
  rewrite <- (filter_app_complement (λ r, (0 < by_net_score r)%Z) scored_tickers) at 3.
  f_equiv. erewrite (filter_iff_elem_of (λ r, (by_net_score r < 0)%Z)); [done|].
  intros r Hr. specialize (Hnz r Hr). unfold by_net_score. lia.
Qed.

(** X14: when the page shows the two tables, each scored ticker is a row
    of one of them and of one only; a row names a listed ticker, its net
    score is the number of its Positive signals less the number of its
    Negative ones, above zero in the bullish table and below zero in the
    bearish one; and there is at least one row. *)
Theorem main_display_overview
    (articles : option (list dict)) (confidence_thresh : Z)
    (total : nat) (bullish bearish : list row) :
  main_display U VALID_TICKERS sort_values articles confidence_thresh
  = Ok (Overview total bullish bearish) →
  ∃ loaded signals,
    articles = Some loaded ∧ total = length loaded
    ∧ extract_valid_signals U VALID_TICKERS loaded confidence_thresh = Ok signals
    ∧ bullish ++ bearish ≡ₚ score_tickers signals
    ∧ NoDup (bullish ++ bearish).*1
    ∧ 1 ≤ length bullish + length bearish
    ∧ (∀ r, r ∈ bullish ++ bearish →
         r.1 ∈ VALID_TICKERS
         ∧ net_score r.2 = (count_of r.1 (py "Positive") signals
                            - count_of r.1 (py "Negative") signals)%Z)
    ∧ (∀ r, r ∈ bullish → (0 < net_score r.2)%Z)
    ∧ (∀ r, r ∈ bearish → (net_score r.2 < 0)%Z).
Proof.
  unfold main_display. destruct articles as [[|a l]|]; try done.
  set (loaded := a :: l).
  destruct (extract_valid_signals U VALID_TICKERS loaded confidence_thresh)
    as [signals|] eqn:Hsig; cbn [mbind result_bind]; [|done].
  destruct (score_tickers signals) as [|r0 rs] eqn:Hscore; [done|].
  rewrite <- Hscore. intros [= <- <- <-].
  assert (Hnz : ∀ r, r ∈ score_tickers signals → net_score r.2 ≠ 0%Z).
  { intros r Hr. by apply score_tickers_row in Hr as (_ & _ & _ & ?). }
  pose proof (tables_partition _ Hnz) as Hperm.
  exists loaded, signals. split; [done|]. split; [done|]. split; [done|].
  split; [done|]. split; [|split; [|split; [|split]]].
  - rewrite Hperm. apply score_tickers_NoDup.
  - rewrite <- length_app, Hperm, Hscore. cbn [length]. lia.
  - intros r Hr. rewrite Hperm in Hr.
    destruct (score_tickers_row _ _ Hr) as (Hp & Hn & Hnet & Hne).
    split; [|by rewrite Hnet, Hp, Hn].
    rewrite Hnet, Hp, Hn in Hne.
    destruct (decide (count_of r.1 (py "Positive") signals = 0%Z)) as [Hz|Hz].
    + assert (Hneg : count_of r.1 (py "Negative") signals ≠ 0%Z) by lia.
      apply count_of_elem in Hneg.
      by destruct (extract_valid_signals_rows U VALID_TICKERS _ _ _ Hsig _ _ Hneg).
    + apply count_of_elem in Hz.
      by destruct (extract_valid_signals_rows U VALID_TICKERS _ _ _ Hsig _ _ Hz).
  - intros r. unfold bullish_df. rewrite sort_values_permutation.
    by intros [? _]%list_elem_of_filter.
  - intros r. unfold bearish_df. rewrite sort_values_permutation.
    by intros [? _]%list_elem_of_filter.
Qed.

End Display.

(** ** The controls *)

Section ControlsMore.
Variable svc : services.
Variable U : unicode_db.

(** X15: through the button "Analyze News", which needs the preprocessed
    document to be there, the analysis run is never started without the
    key its provider needs: the warning is shown and nothing changes.
    When the run is started the analyzer can be built, so the run ends
    with "Analysis complete!" or with an exception, never with "Analysis
    failed.". *)
Theorem analyze_news_outcome (llm_provider typed : pystr) (articles : list dict)
    (w : world) :
  llm_provider ∈ LLM_PROVIDERS →
  preprocessed_file w = Some articles →
  (llm_provider ≠ py "Ollama" ∧ typed = [] →
     analyze_news svc U llm_provider typed w
     = (Ok (st_warning (py "Please enter your " ++ llm_provider ++ py " API key.")), w))
  ∧ (¬ (llm_provider ≠ py "Ollama" ∧ typed = []) →
       (∃ analyzer, get_analyzer llm_provider (sidebar_api_key llm_provider typed) None
                    = Ok analyzer)
       ∧ ∀ text, (analyze_news svc U llm_provider typed w).1 ≠ Ok (st_warning text))
  ∧ ∀ text, (analyze_news svc U llm_provider typed w).1 ≠ Ok (st_error text).
Proof.
  intros Hprovider Hfile.
  assert (Hrun : ∀ api_key analyzer,
            get_analyzer llm_provider api_key None = Ok analyzer →
            ∀ text,
              (match run_analysis_pipeline svc U llm_provider api_key None w with
               | (Ok success, left_on_disk) =>
                   (Ok (if (success : bool) then st_success (py "Analysis complete!")
                        else st_error (py "Analysis failed.")), left_on_disk)
               | (Raise e, left_on_disk) => (Raise e, left_on_disk)
               end).1 ≠ Ok (st_warning text)
              ∧ (match run_analysis_pipeline svc U llm_provider api_key None w with
                 | (Ok success, left_on_disk) =>
                     (Ok (if (success : bool) then st_success (py "Analysis complete!")
                          else st_error (py "Analysis failed.")), left_on_disk)
                 | (Raise e, left_on_disk) => (Raise e, left_on_disk)
                 end).1 ≠ Ok (st_error text)).
  { intros api_key analyzer Han text.
    unfold run_analysis_pipeline. rewrite Hfile, Han.
    destruct (analyze_loop svc U analyzer articles [] w) as [[out|e] w']; [|done].
    by destruct (json_dump out). }
  unfold LLM_PROVIDERS in Hprovider.
  apply elem_of_cons in Hprovider as [->|Hprovider];
    [|apply elem_of_cons in Hprovider as [->|Hprovider];
      [|apply list_elem_of_singleton in Hprovider as ->]].
  - unfold analyze_news, sidebar_api_key.
    rewrite !decide_False by (by vm_compute). rewrite bool_decide_eq_true_2 by done.
    cbn [negb andb].
    split; [by intros [? _]|]. split.
    + intros _. split; [by eexists|]. intros text. by eapply Hrun.
    + intros text. by eapply Hrun.
  - unfold analyze_news, sidebar_api_key.
    rewrite decide_True by done. rewrite bool_decide_eq_false_2 by (by vm_compute).
    destruct typed as [|c key]; cbn [negb andb missing].
    + split; [done|]. split; [intros []; by split|]. done.
    + assert (Han : get_analyzer (py "OpenAI") (Some (c :: key)) None
                    = Ok (OpenAIAnalyzer (c :: key) (py "gpt-4o-mini"))) by done.
      split; [by intros [_ ?]|]. split.
      * intros _. split; [by eexists|]. intros text. by eapply Hrun.
      * intros text. by eapply Hrun.
  - unfold analyze_news, sidebar_api_key.
    rewrite decide_False by (by vm_compute). rewrite decide_True by done.
    rewrite bool_decide_eq_false_2 by (by vm_compute).
    destruct typed as [|c key]; cbn [negb andb missing].
    + split; [done|]. split; [intros []; by split|]. done.
    + assert (Han : get_analyzer (py "Google Gemini") (Some (c :: key)) None
                    = Ok (GeminiAnalyzer (c :: key) (py "gemini-1.5-flash"))) by done.
      split; [by intros [_ ?]|]. split.
      * intros _. split; [by eexists|]. intros text. by eapply Hrun.
      * intros text. by eapply Hrun.
Qed.

End ControlsMore.


(** ** The reply of Gemini *)

Lemma fence_prefix (s : pystr) :
  is_prefix (py "```") s = (3 <=? length (take_while (N.eqb 96) s)).
Proof.
  change (py "```") with [96; 96; 96]%N.
  destruct s as [|a [|b [|c t]]]; cbn [is_prefix take_while];
    repeat (destruct (96 =? _)%N; cbn [andb length Nat.leb take_while]); try done.
Qed.

Lemma replace_fence_here (t : pystr) :
  replace (py "```") [] ([96; 96; 96]%N ++ t) = replace (py "```") [] t.
Proof. done. Qed.

Lemma replace_fence_next (c : N) (s : pystr) :
  is_prefix (py "```") (c :: s) = false →
  replace (py "```") [] (c :: s) = c :: replace (py "```") [] s.
Proof.
  intros Hp. unfold replace. cbn [replace_from]. by rewrite Hp.
Qed.

Lemma replace_fence_clean (s : pystr) :
  length (take_while (N.eqb 96) (replace (py "```") [] s))
  ≤ length (take_while (N.eqb 96) s)
  ∧ is_substring (py "```") (replace (py "```") [] s) = false.
Proof.
  remember (length s) as n eqn:Hn. revert s Hn.
  induction n as [n IH] using lt_wf_ind. intros s ->.
  destruct (is_prefix (py "```") s) eqn:Hp.
  - assert (∃ t, s = [96; 96; 96]%N ++ t) as [t ->].
    { revert Hp. change (py "```") with [96; 96; 96]%N.
      destruct s as [|a [|b [|c t]]]; cbn [is_prefix andb];
        rewrite ?andb_false_r; try done.
      intros Hp. repeat apply andb_prop in Hp as [?%N.eqb_eq Hp]. subst.
      by exists t. }
    rewrite replace_fence_here.
    destruct (IH (length t) ltac:(cbn [app length]; lia) t eq_refl) as [Hlead Hno].
    split; [|done]. cbn [app take_while N.eqb Pos.eqb length]. lia.
  - destruct s as [|c s]; [done|].
    rewrite (replace_fence_next _ _ Hp).
    destruct (IH (length s) ltac:(cbn [length]; lia) s eq_refl) as [Hlead Hno].
    assert (Hle : length (take_while (N.eqb 96) (c :: replace (py "```") [] s))
                  ≤ length (take_while (N.eqb 96) (c :: s))).
    { cbn [take_while]. destruct (96 =? c)%N; cbn [length]; lia. }
    split; [done|].
    cbn [is_substring]. rewrite Hno, orb_false_r.
    rewrite fence_prefix in Hp |- *.
    apply Nat.leb_gt in Hp. apply Nat.leb_gt. lia.
Qed.

Section GeminiMore.
Variable svc : services.
Variable U : unicode_db.

(** X16: the text the Gemini analyzer hands to [json.loads] holds no run
    of three backticks, whatever the model answered: the second [replace]
    leaves of each run of backticks its length modulo 3. *)
Theorem gemini_reply_without_fence
    (api_key model_name : pystr) (n : nat) (article_content : value)
    (cleaned_response : pystr) :
  reply_text svc U (GeminiAnalyzer api_key model_name) n article_content
  = Ok cleaned_response →
  is_substring (py "```") cleaned_response = false
  ∧ analyze svc U (GeminiAnalyzer api_key model_name) n article_content
    = json_loads svc cleaned_response.
Proof.
  unfold analyze, reply_text.
  destruct (gemini_generate_content svc n api_key model_name _) as [text|e];
    cbn [mbind result_bind mret result_ret]; [|done].
  intros [= <-]. split; [|done]. apply replace_fence_clean.
Qed.

End GeminiMore.

(** ** The fetcher *)

Lemma clean_loop_app (pre rest : list value) :
  ∀ acc, NewsFetcher.clean_loop (pre ++ rest) acc
         = (out ← NewsFetcher.clean_loop pre acc; NewsFetcher.clean_loop rest out).
Proof.
  induction pre as [|v pre IH]; intros acc; [done|].
  cbn [app NewsFetcher.clean_loop].
  destruct (get_method v) as [a|]; cbn [mbind result_bind]; [|done].
  destruct (truthy (dict_get "content" a)); [|apply IH].
  repeat (match goal with
          | |- context [mbind _ ?r] => destruct r; cbn [mbind result_bind]; [|done]
          end).
  apply IH.
Qed.

Lemma clean_loop_fetched (rest : list value) :
  ∀ all acc out,
    (∀ v, v ∈ rest → v ∈ all) →
    NewsFetcher.clean_loop rest acc = Ok out →
    Forall (fetched_from all) acc →
    Forall (fetched_from all) out ∧ length out ≤ length acc + length rest.
Proof.
  induction rest as [|v rest IH]; intros all acc out Hall; cbn [NewsFetcher.clean_loop].
  - intros [= <-] Hacc. split; [done|lia].
  - assert (Hrest : ∀ x, x ∈ rest → x ∈ all) by (intros x Hx; apply Hall; by right).
    destruct v as [| | | | |a]; try done. cbn [get_method mbind result_bind].
    destruct (truthy (dict_get "content" a)) eqn:Htruthy.
    2:{ intros Hloop Hacc. destruct (IH all acc out Hrest Hloop Hacc).
        split; [done|]. cbn [length]. lia. }
    unfold getitem.
    destruct (assoc_get (py "source") a) as [source|]; cbn [mbind result_bind]; [|done].
    destruct (subscript "name" source) as [name|]; cbn [mbind result_bind]; [|done].
    destruct (assoc_get (py "title") a) as [title|] eqn:Etitle;
      cbn [mbind result_bind]; [|done].
    destruct (assoc_get (py "url") a) as [url|] eqn:Eurl;
      cbn [mbind result_bind]; [|done].
    destruct (assoc_get (py "publishedAt") a) as [published_at|] eqn:Edate;
      cbn [mbind result_bind]; [|done].
    destruct (assoc_get (py "content") a) as [content|] eqn:Econtent;
      cbn [mbind result_bind]; [|done].
    intros Hloop Hacc.
    destruct (IH all _ out Hrest Hloop) as [Hout Hlen].
    + apply Forall_app. split; [done|]. constructor; [|done].
      split; [done|]. split.
      * revert Htruthy. unfold dict_get, dict_get_default. by rewrite Econtent.
      * exists a. split; [apply Hall; by left|].
        by rewrite Etitle, Eurl, Econtent, Edate.
    + split; [done|]. rewrite length_app in Hlen. cbn [length] in *. lia.
Qed.

Lemma clean_loop_documented (rest : list value) :
  ∀ acc,
    Forall (λ v, documented v = true) rest →
    Forall (λ a, has_url a = true) acc →
    ∃ out, NewsFetcher.clean_loop rest acc = Ok out
           ∧ Forall (λ a, has_url a = true) out.
Proof.
  induction rest as [|v rest IH]; intros acc Hdoc Hacc; [by exists acc|].
  apply Forall_cons in Hdoc as [Hv Hdoc]. cbn [NewsFetcher.clean_loop].
  destruct v as [| | | | |a]; try done. cbn [get_method mbind result_bind].
  destruct (truthy (dict_get "content" a)) eqn:Htruthy; [|by apply IH].
  revert Hv. unfold documented, getitem.
  destruct (assoc_get (py "source") a) as [[| | | | |source]|]; try done.
  destruct (assoc_get (py "title") a) as [title|]; [|done].
  destruct (assoc_get (py "url") a) as [[| | |url| |]|]; try done.
  destruct (assoc_get (py "publishedAt") a) as [published_at|]; [|done].
  unfold assoc_has. cbn [mbind result_bind subscript]. unfold getitem.
  destruct (assoc_get (py "name") source) as [name|]; [|done].
  intros _. cbn [mbind result_bind].
  destruct (assoc_get (py "content") a) as [content|] eqn:Econtent.
  2:{ revert Htruthy. unfold dict_get, dict_get_default. by rewrite Econtent. }
  cbn [mbind result_bind]. apply IH; [done|].
  apply Forall_app. split; [done|]. by constructor.
Qed.

Lemma unique_articles_total (us_articles : list dict) :
  Forall (λ a, has_url a = true) us_articles →
  ∃ out, unique_articles us_articles = Ok out.
Proof.
  intros Hurls. unfold unique_articles.
  rewrite (unique_loop_spec us_articles [] [] ∅) by (done || set_solver).
  by eexists.
Qed.

(** X17: every article [_clean_articles] returns has the five keys
    source, title, url, published_at and content, in this order, with a
    content that is not empty, and takes its title, url, content and date
    from an entry of ["articles"]; no more articles are returned than
    there are entries. *)
Theorem clean_articles_shape (data : value) (cleaned_articles : list dict) :
  NewsFetcher._clean_articles data = Ok cleaned_articles →
  ∃ d articles,
    data = VDict d
    ∧ iterate (dict_get_default "articles" (VList []) d) = Ok articles
    ∧ Forall (fetched_from articles) cleaned_articles
    ∧ length cleaned_articles ≤ length articles.
Proof.
  unfold NewsFetcher._clean_articles.
  destruct data as [| | | | |d]; try done. cbn [get_method mbind result_bind].
  destruct (iterate _) as [articles|] eqn:Hiter; cbn [mbind result_bind]; [|done].
  intros Hloop. exists d, articles. split; [done|]. split; [done|].
  by apply (clean_loop_fetched articles articles []).
Qed.

(** ** What can be written *)

Lemma encodable_text_spec (s : pystr) :
  encodable_text s = true ↔ ∀ c, c ∈ s → is_surrogate c = false.
Proof.
  unfold encodable_text. rewrite forallb_forall. split.
  - intros H c Hc. apply negb_true_iff, H. by apply list_elem_of_In.
  - intros H c Hc. apply negb_true_iff, H. by apply list_elem_of_In.
Qed.

Lemma encodable_assoc_get (k : pystr) (v : value) (d : dict) :
  encodable (VDict d) = true → assoc_get k d = Some v → encodable v = true.
Proof.
  induction d as [|[k0 v0] d IH]; cbn [assoc_get encodable forallb]; [done|].
  intros [[_ H0]%andb_prop Hd]%andb_prop.
  destruct (decide (k0 = k)); [by intros [= <-]|by apply IH].
Qed.

Lemma drop_while_elem {A} (p : A → bool) (l : list A) (x : A) :
  x ∈ drop_while p l → x ∈ l.
Proof.
  induction l as [|y l IH]; cbn [drop_while]; [done|].
  destruct (p y); [|done]. intros Hx. right. by apply IH.
Qed.

Section Characters.
Variable U : unicode_db.

Lemma sub_from_elem (pattern : list re.node) (repl s : pystr) (c : N) :
  ∀ prev k, c ∈ re.sub_from U pattern repl prev s k → c ∈ s ∨ c ∈ repl.
Proof.
  induction s as [|x s IH]; intros prev k.
  - destruct k; cbn [re.sub_from]; [|by intros ?%elem_of_nil].
    destruct (re.match_here U pattern prev []) as [[|n]|];
      rewrite ?app_nil_r; [by right|by right|by intros ?%elem_of_nil].
  - destruct k as [|k]; cbn [re.sub_from].
    + destruct (re.match_here U pattern prev (x :: s)) as [[|n]|].
      * intros [?|[->|Hc]%elem_of_cons]%elem_of_app; [by right|left; by left|].
        destruct (IH _ _ Hc); [left; by right|by right].
      * intros [?|Hc]%elem_of_app; [by right|].
        destruct (IH _ _ Hc); [left; by right|by right].
      * intros [->|Hc]%elem_of_cons; [left; by left|].
        destruct (IH _ _ Hc); [left; by right|by right].
    + intros Hc. destruct (IH _ _ Hc); [left; by right|by right].
Qed.

Lemma strip_elem (s : pystr) (c : N) : c ∈ strip U s → c ∈ s.
Proof.
  unfold strip. intros Hc%list_elem_of_In. rewrite <- in_rev in Hc.
  apply list_elem_of_In, drop_while_elem, list_elem_of_In in Hc.
  rewrite <- in_rev in Hc. by apply list_elem_of_In, drop_while_elem in Hc.
Qed.

(** The normalizer writes no character of its own but the space. *)
Lemma clean_article_content_chars (s : pystr) (c : N) :
  c ∈ clean_article_content U s → c ∈ s ∨ c = 32%N.
Proof.
  unfold clean_article_content. intros Hc%strip_elem.
  apply sub_from_elem in Hc as [Hc|Hc].
  - apply sub_from_elem in Hc as [Hc|Hc]; [by left|by apply elem_of_nil in Hc].
  - right. by apply list_elem_of_singleton in Hc.
Qed.

Lemma clean_article_content_encodable (s : pystr) :
  encodable_text s = true → encodable_text (clean_article_content U s) = true.
Proof.
  rewrite !encodable_text_spec. intros Hs c [Hc| ->]%clean_article_content_chars;
    [by apply Hs|done].
Qed.

Lemma preprocess_articles_encodable (articles : list dict) :
  Forall (λ a, encodable (VDict a) = true) articles →
  Forall (λ a, encodable (VDict a) = true) (preprocess_articles U articles).
Proof.
  intros Harticles. apply Forall_forall.
  intros kept (article & -> & Hin)%preprocess_articles_kept_from.
  rewrite Forall_forall in Harticles. specialize (Harticles _ Hin).
  unfold with_cleaned_content.
  destruct (assoc_get (py "content") article) as [[| | |content| |]|] eqn:Hc;
    try done.
  apply encodable_assoc_set; [by vm_compute| |done].
  apply clean_article_content_encodable.
  exact (encodable_assoc_get _ _ _ Harticles Hc).
Qed.

End Characters.

Lemma clean_loop_encodable (rest : list value) :
  ∀ acc out,
    Forall (λ v, encodable v = true) rest →
    NewsFetcher.clean_loop rest acc = Ok out →
    Forall (λ a, encodable (VDict a) = true) acc →
    Forall (λ a, encodable (VDict a) = true) out.
Proof.
  induction rest as [|v rest IH]; intros acc out Hrest; cbn [NewsFetcher.clean_loop].
  - by intros [= <-].
  - apply Forall_cons in Hrest as [Hv Hrest].
    destruct v as [| | | | |a]; try done. cbn [get_method mbind result_bind].
    destruct (truthy (dict_get "content" a)); [|by apply IH].
    unfold getitem.
    destruct (assoc_get (py "source") a) as [source|] eqn:Esource;
      cbn [mbind result_bind]; [|done].
    destruct (subscript "name" source) as [name|] eqn:Ename;
      cbn [mbind result_bind]; [|done].
    destruct (assoc_get (py "title") a) as [title|] eqn:Etitle;
      cbn [mbind result_bind]; [|done].
    destruct (assoc_get (py "url") a) as [url|] eqn:Eurl;
      cbn [mbind result_bind]; [|done].
    destruct (assoc_get (py "publishedAt") a) as [published_at|] eqn:Edate;
      cbn [mbind result_bind]; [|done].
    destruct (assoc_get (py "content") a) as [content|] eqn:Econtent;
      cbn [mbind result_bind]; [|done].
    intros Hloop Hacc. apply (IH _ _ Hrest Hloop).
    apply Forall_app. split; [done|]. constructor; [|done].
    assert (Hname : encodable name = true).
    { destruct source as [| | | | |fields]; try done.
      cbn [subscript] in Ename. unfold getitem in Ename.
      destruct (assoc_get (py "name") fields) as [x|] eqn:Ex; [|done].
      injection Ename as <-.
      apply (encodable_assoc_get (py "name") _ fields); [|done].
      exact (encodable_assoc_get _ _ _ Hv Esource). }
    cbn [encodable forallb].
    rewrite Hname, (encodable_assoc_get _ _ _ Hv Etitle),
      (encodable_assoc_get _ _ _ Hv Eurl), (encodable_assoc_get _ _ _ Hv Edate),
      (encodable_assoc_get _ _ _ Hv Econtent).
    by vm_compute.
Qed.

Section FetcherMore.
Variable svc : services.
Variable U : unicode_db.
Variable requests_get : pystr → dict → response.
Hypothesis services_over_requests : over_requests svc requests_get.

(** X18: a request that fails is not told apart from a day without news:
    [fetch_us_headlines] returns the empty list, and the fetch run
    returns [False] and writes nothing. *)
Theorem request_failure_is_no_news (api_key msg : pystr) (w : world) :
  NEWS_API_KEY svc = Some api_key → api_key ≠ [] →
  requests_get NewsFetcher.HEADLINES_URL (NewsFetcher.us_params api_key 100)
  = RequestException msg →
  NewsFetcher.fetch_us_headlines requests_get api_key 100 = Ok []
  ∧ run_fetch_pipeline svc U w = (Ok false, w).
Proof.
  intros Hkey Hne Hget.
  assert (Hfetch : NewsFetcher.fetch_us_headlines requests_get api_key 100 = Ok [])
    by (unfold NewsFetcher.fetch_us_headlines; by rewrite Hget).
  split; [done|]. unfold run_fetch_pipeline. rewrite Hkey.
  destruct api_key as [|c key]; [done|].
  by rewrite services_over_requests, Hfetch.
Qed.

(** X19: one entry with a content and without a source is enough for the
    whole fetch to raise [KeyError]: the entries before it are lost, the
    exception is not a [RequestException] and leaves [run_fetch_pipeline]
    with nothing written. *)
Theorem entry_without_source_raises
    (api_key : pystr) (d a : dict) (before after : list value)
    (cleaned_articles : list dict) (w : world) :
  NEWS_API_KEY svc = Some api_key → api_key ≠ [] →
  requests_get NewsFetcher.HEADLINES_URL (NewsFetcher.us_params api_key 100)
  = Json (VDict d) →
  dict_get_default "articles" (VList []) d = VList (before ++ VDict a :: after) →
  NewsFetcher.clean_loop before [] = Ok cleaned_articles →
  truthy (dict_get "content" a) = true →
  assoc_get (py "source") a = None →
  NewsFetcher._clean_articles (VDict d) = Raise (KeyError (py "source"))
  ∧ run_fetch_pipeline svc U w = (Raise (KeyError (py "source")), w).
Proof.
  intros Hkey Hne Hget Harticles Hbefore Htruthy Hsource.
  assert (Hclean : NewsFetcher._clean_articles (VDict d)
                   = Raise (KeyError (py "source"))).
  { unfold NewsFetcher._clean_articles. cbn [get_method mbind result_bind].
    rewrite Harticles. cbn [iterate mbind result_bind].
    rewrite clean_loop_app, Hbefore. cbn [mbind result_bind NewsFetcher.clean_loop get_method].
    rewrite Htruthy. unfold getitem. by rewrite Hsource. }
  split; [done|]. unfold run_fetch_pipeline. rewrite Hkey.
  destruct api_key as [|c key]; [done|].
  rewrite services_over_requests.
  unfold NewsFetcher.fetch_us_headlines. by rewrite Hget, Hclean.
Qed.

(** X20: when the body is an object whose ["articles"] are entries with
    the documented fields and hold no surrogate, the fetch run raises
    nothing: it returns [True] or [False]. *)
Theorem documented_body_never_raises
    (api_key : pystr) (d : dict) (articles : list value) (w : world) :
  NEWS_API_KEY svc = Some api_key → api_key ≠ [] →
  requests_get NewsFetcher.HEADLINES_URL (NewsFetcher.us_params api_key 100)
  = Json (VDict d) →
  dict_get_default "articles" (VList []) d = VList articles →
  Forall (λ v, documented v = true) articles →
  Forall (λ v, encodable v = true) articles →
  ∃ success : bool, (run_fetch_pipeline svc U w).1 = Ok success.
Proof.
  intros Hkey Hne Hget Harticles Hdoc Henc.
  destruct (clean_loop_documented articles [] Hdoc) as (us & Hus & Hurls);
    [by constructor|].
  pose proof (clean_loop_encodable _ _ _ Henc Hus (Forall_nil_2 _)) as Hus_enc.
  destruct (unique_articles_total us Hurls) as [unique Hunique].
  assert (Hunique_enc : Forall (λ a, encodable (VDict a) = true) unique).
  { apply unique_articles_ok in Hunique as (_ & _ & _ & Hsub).
    apply Forall_forall. intros a Ha. rewrite Forall_forall in Hus_enc.
    apply Hus_enc. by eapply elem_of_sublist. }
  pose proof (preprocess_articles_encodable U _ Hunique_enc) as Hprocessed.
  unfold run_fetch_pipeline. rewrite Hkey.
  destruct api_key as [|c key]; [done|].
  rewrite services_over_requests.
  unfold NewsFetcher.fetch_us_headlines, NewsFetcher._clean_articles.
  rewrite Hget. cbn [get_method mbind result_bind]. rewrite Harticles.
  cbn [iterate mbind result_bind]. rewrite Hus. cbn [mbind result_bind].
  rewrite Hunique. cbn [mbind result_bind mret result_ret].
  destruct (preprocess_articles U unique) as [|p ps] eqn:Hp; [by eexists|].
  destruct (json_dump_cases (p :: ps)) as [[-> _]|[_ Hno]]; [by eexists|].
  by destruct Hno.
Qed.

End FetcherMore.

(** ** The list of tickers *)

Lemma splitlines_from_line (t : pystr) :
  ∀ line rest,
    (∀ c, c ∈ t → is_linebreak c = false) →
    splitlines_from (t ++ 10%N :: rest) line = (line ++ t) :: splitlines_from rest [].
Proof.
  induction t as [|c t IH]; intros line rest Ht.
  - cbn [app splitlines_from]. by rewrite app_nil_r.
  - cbn [app splitlines_from]. rewrite (Ht c) by left.
    rewrite IH by (intros x Hx; apply Ht; by right).
    by rewrite <- app_assoc.
Qed.

Lemma splitlines_written (tickers : list pystr) :
  (∀ t c, t ∈ tickers → c ∈ t → is_linebreak c = false) →
  splitlines (concat ((λ ticker, ticker ++ [10%N]) <$> tickers)) = tickers.
Proof.
  unfold splitlines. induction tickers as [|t tickers IH]; intros Hno; [done|].
  rewrite fmap_cons, concat_cons, <- app_assoc. cbn [app].
  rewrite splitlines_from_line by (intros c; apply Hno; by left).
  cbn [app]. f_equal. apply IH. intros x c Hx. apply Hno. by right.
Qed.

Section TickerValidatorMore.
Variable read_csv : pystr → result DataFrame.
Variable sorted : list pystr → list pystr.
Hypothesis sorted_permutation : ∀ l, sorted l ≡ₚ l.

Lemma download_loop_spec (urls : list (pystr * pystr)) :
  ∀ all_tickers t,
    t ∈ download_loop read_csv urls all_tickers
    ↔ t ∈ all_tickers
      ∨ ∃ exchange url df cells,
          (exchange, url) ∈ urls ∧ read_csv url = Ok df
          ∧ assoc_get (ticker_column df) df = Some cells
          ∧ Some t ∈ removelast cells.
Proof.
  induction urls as [|[exchange url] urls IH]; intros acc t; cbn [download_loop].
  - split; [by left|]. intros [?|(? & ? & ? & ? & []%elem_of_nil & _)]. done.
  - assert (Hrest : (∃ exchange' url' df cells,
                       (exchange', url') ∈ (exchange, url) :: urls
                       ∧ read_csv url' = Ok df
                       ∧ assoc_get (ticker_column df) df = Some cells
                       ∧ Some t ∈ removelast cells)
                    ↔ (∃ df cells, read_csv url = Ok df
                         ∧ assoc_get (ticker_column df) df = Some cells
                         ∧ Some t ∈ removelast cells)
                      ∨ (∃ exchange' url' df cells,
                           (exchange', url') ∈ urls ∧ read_csv url' = Ok df
                           ∧ assoc_get (ticker_column df) df = Some cells
                           ∧ Some t ∈ removelast cells)).
    { split.
      - intros (x & u & df & cells & [[= -> ->]|Hin]%elem_of_cons & H).
        + left. by exists df, cells.
        + right. by exists x, u, df, cells.
      - intros [(df & cells & H)|(x & u & df & cells & Hin & H)].
        + exists exchange, url, df, cells. split; [by left|done].
        + exists x, u, df, cells. split; [by right|done]. }
    rewrite Hrest. clear Hrest.
    destruct (read_csv url) as [df|e] eqn:Hread; cbn [mbind result_bind].
    + unfold symbols.
      destruct (assoc_get (ticker_column df) df) as [cells|] eqn:Hcol.
      * rewrite IH, elem_of_union, elem_of_list_to_set, list_elem_of_omap.
        split.
        -- intros [[?|(x & Hx & [= <-])]|?]; [by left| |by right; right].
           right; left. by exists df, cells.
        -- intros [?|[(df' & cells' & [= <-] & Hcol' & Hin)|?]];
             [by left; left| |by right].
           rewrite Hcol in Hcol'. injection Hcol' as <-.
           left; right. by exists (Some t).
      * rewrite IH. split.
        -- intros [?|?]; [by left|by right; right].
        -- intros [?|[(df' & cells' & [= <-] & Hcol' & _)|?]];
             [by left| |by right].
           by rewrite Hcol in Hcol'.
    + rewrite IH. split.
      * intros [?|?]; [by left|by right; right].
      * intros [?|[(df' & cells' & [=] & _)|?]]; [by left|by right].
Qed.

(** X21: when there is no cache file, the set returned holds the symbols
    of the files that could be read and of no other: the cells of the
    column [Symbol], or [ACT Symbol] in a file without it, that are not
    NaN, the last row left out.  A file that cannot be read, or has
    neither column, takes nothing from the other. *)
Theorem downloaded_tickers (t : pystr) :
  t ∈ (get_ticker_list read_csv sorted None).1
  ↔ ∃ exchange url df cells,
      (exchange, url) ∈ TICKER_URLS ∧ read_csv url = Ok df
      ∧ assoc_get (ticker_column df) df = Some cells
      ∧ Some t ∈ removelast cells.
Proof.
  cbn [get_ticker_list fst]. rewrite download_loop_spec.
  split; [intros [[]%elem_of_empty|?]; done|by right].
Qed.

(** X22: the cache a download writes is read back as the set that was
    returned, whatever the order [sorted] gives, as long as no symbol
    holds a character that ends a line: the next call returns the same
    set without any download and leaves the file as it is. *)
Theorem ticker_cache_round_trip
    (tickers : gset pystr) (cache : option pystr)
    (read_csv' : pystr → result DataFrame) :
  get_ticker_list read_csv sorted None = (tickers, cache) →
  (∀ t c, t ∈ tickers → c ∈ t → is_linebreak c = false) →
  get_ticker_list read_csv' sorted cache = (tickers, cache).
Proof.
  cbn [get_ticker_list]. intros [= <- <-] Hno. cbn [get_ticker_list].
  f_equal. rewrite splitlines_written.
  - rewrite sorted_permutation. apply list_to_set_elements_L.
  - intros t c Ht. rewrite sorted_permutation in Ht.
    apply Hno. by apply elem_of_elements in Ht.
Qed.

(** X23: when neither file can be read, an empty cache file is written
    all the same; from then on every call returns the empty set without
    a download, and with the empty set no document gives a signal. *)
Theorem failed_download_is_cached
    (read_csv' : pystr → result DataFrame) (U : unicode_db)
    (articles : list dict) (confidence_threshold : Z) (signals : list signal) :
  (∀ exchange url, (exchange, url) ∈ TICKER_URLS → ∃ e, read_csv url = Raise e) →
  get_ticker_list read_csv sorted None = (∅, Some [])
  ∧ get_ticker_list read_csv' sorted (Some []) = (∅, Some [])
  ∧ (extract_valid_signals U ∅ articles confidence_threshold = Ok signals →
     signals = []).
Proof.
  intros Hfail. split; [|split].
  - assert (Hempty : download_loop read_csv TICKER_URLS ∅ = ∅).
    { apply set_eq. intros t. rewrite download_loop_spec. split; [|set_solver].
      intros [?|(exchange & url & df & cells & Hin & Hread & _)]; [done|].
      destruct (Hfail _ _ Hin) as [e He]. by rewrite He in Hread. }
    cbn [get_ticker_list]. rewrite Hempty, elements_empty.
    pose proof (sorted_permutation []) as Hnil.
    apply Permutation_nil_r in Hnil. by rewrite Hnil.
  - done.
  - intros Hsig. destruct signals as [|[ticker sentiment] signals]; [done|].
    destruct (extract_valid_signals_rows U ∅ _ _ _ Hsig ticker sentiment) as [Hin _];
      [by left|]. by apply elem_of_empty in Hin.
Qed.

End TickerValidatorMore.

(** ** From the two buttons to the page *)

Section Page.
Variable svc : services.
Variable U : unicode_db.
Variable VALID_TICKERS : gset pystr.
Variable sort_values : (row → Z) → bool → list row → list row.

Lemma analyze_loop_returns analyzer (articles : list dict) :
  ∀ acc w out w',
    analyze_loop svc U analyzer articles acc w = (Ok out, w') →
    Forall (λ a, has_title a = true) articles.
Proof.
  induction articles as [|a l IH]; intros acc w out w'; [by constructor|].
  cbn [analyze_loop]. unfold pure, getitem, mbind, io_bind, has_title.
  destruct (assoc_get (py "title") a) as [[| | |t|t|]|] eqn:Htitle; try done;
    cbn [slice50]; rewrite analyze_article_spec; intros Hloop;
    (constructor; [by rewrite Htitle|by eapply IH]).
Qed.

(** X24: once "Fetch Latest News" and then "Analyze News" have both
    reported success, analyzed_articles.json holds one article for each
    article of preprocessed_articles.json, each with an [analysis], there
    is at least one, and the page no longer shows the welcome
    message. *)
Theorem page_after_both_buttons
    (llm_provider typed fetched analyzed : pystr) (confidence_thresh : Z)
    (w w1 w2 : world) :
  fetch_latest_news svc U w = (Ok (st_success fetched), w1) →
  analyze_news svc U llm_provider typed w1 = (Ok (st_success analyzed), w2) →
  ∃ processed loaded,
    preprocessed_file w1 = Some processed
    ∧ load_analyzed_data w2 = Some loaded
    ∧ length loaded = length processed
    ∧ loaded ≠ []
    ∧ Forall (λ a, assoc_has (py "analysis") a = true) loaded
    ∧ main_display U VALID_TICKERS sort_values (load_analyzed_data w2)
        confidence_thresh ≠ Ok Welcome.
Proof.
  intros Hfetch Hanalyze.
  assert (Hprocessed : ∃ p ps, preprocessed_file w1 = Some (p :: ps)).
  { revert Hfetch. unfold fetch_latest_news.
    destruct (run_fetch_pipeline_cases svc U w)
      as [(r0 & -> & Hr0)|(key & us & un & _ & _ & _ & Hne & ->)].
    - by destruct r0 as [[|]|e].
    - destruct (json_dump_cases (preprocess_articles U un)) as [[-> _]|[-> _]];
        [|done].
      intros [= _ <-]. cbn [preprocessed_file].
      destruct (preprocess_articles U un) as [|p ps]; [done|]. by exists p, ps. }
  destruct Hprocessed as (p & ps & Hfile).
  revert Hanalyze. unfold analyze_news.
  destruct (negb _ && missing _); [done|].
  unfold run_analysis_pipeline. rewrite Hfile.
  destruct (get_analyzer llm_provider _ None) as [analyzer|[]]; try done.
  destruct (analyze_loop svc U analyzer (p :: ps) [] w1) as [[out|e] w'] eqn:Hloop;
    [|done].
  pose proof (analyze_loop_returns _ _ _ _ _ _ Hloop) as Htitles.
  rewrite analyze_loop_spec in Hloop by done. injection Hloop as <- <-.
  cbn [app].
  destruct (json_dump_cases (annotated svc U analyzer (requests w1) (p :: ps)))
    as [[-> _]|[-> _]]; [|done].
  intros [= _ <-]. cbn [load_analyzed_data analyzed_file].
  exists (p :: ps), (annotated svc U analyzer (requests w1) (p :: ps)).
  split; [done|]. split; [done|].
  assert (Hlen : length (annotated svc U analyzer (requests w1) (p :: ps))
                 = length (p :: ps)) by apply length_imap.
  split; [done|]. split; [by intros Hnil; rewrite Hnil in Hlen|]. split.
  - unfold annotated. apply Forall_forall. intros a Ha.
    apply elem_of_lookup_imap in Ha as (i & b & -> & _).
    unfold assoc_has. by rewrite assoc_get_set_eq.
  - destruct (annotated svc U analyzer (requests w1) (p :: ps)) as [|a l] eqn:Hann;
      [done|].
    unfold main_display.
    destruct (extract_valid_signals U VALID_TICKERS (a :: l) confidence_thresh);
      cbn [mbind result_bind]; [|done].
    by destruct (score_tickers _).
Qed.

End Page.

(** ** More examples *)

(** X1 at the space of "Rates held". *)
Lemma clean_article_content_tidy_witness :
  clean_article_content ascii_only (py "Rates   held ") !! 5 = Some 32%N
  ∧ 32%N = 32%N
  ∧ (∃ j b, 5 = S j
            ∧ clean_article_content ascii_only (py "Rates   held ") !! j = Some b
            ∧ isspace ascii_only b = false)
  ∧ (∃ d, clean_article_content ascii_only (py "Rates   held ") !! 6 = Some d
          ∧ isspace ascii_only d = false).
Proof.
  split; [vm_compute; reflexivity|].
  apply (clean_article_content_tidy ascii_only (py "Rates   held ") 5 32%N);
    vm_compute; reflexivity.
Defined.

(** X3 at a space, a tab and a line feed. *)
Lemma clean_article_content_blank_witness :
  clean_article_content ascii_only [32; 9; 10]%N = [].
Proof.
  apply (clean_article_content_blank ascii_only [32; 9; 10]%N).
  intros c Hc.
  repeat (apply elem_of_cons in Hc as [->|Hc]; [vm_compute; reflexivity|]).
  by apply elem_of_nil in Hc.
Defined.

(** X4 at a notice of two digits. *)
Lemma clean_article_content_removes_notice_witness :
  clean_article_content ascii_only
    (py "Rates   held " ++ py "[+" ++ py "12" ++ py " chars]")
  = clean_article_content ascii_only (py "Rates   held ").
Proof.
  apply (clean_article_content_removes_notice ascii_only (py "Rates   held ") (py "12")).
  - apply (bool_decide_unpack _). vm_compute. exact I.
  - discriminate.
  - intros d Hd.
    repeat (apply elem_of_cons in Hd as [->|Hd]; [vm_compute; reflexivity|]).
    by apply elem_of_nil in Hd.
Defined.

(** X6 at three articles, the third with the url of the first. *)
Lemma unique_articles_idempotent_witness :
  unique_articles
    [example_article "One" "https://example.com/1" "x";
     example_article "Two" "https://example.com/2" "y"]
  = Ok [example_article "One" "https://example.com/1" "x";
        example_article "Two" "https://example.com/2" "y"].
Proof.
  apply (unique_articles_idempotent
           [example_article "One" "https://example.com/1" "x";
            example_article "Two" "https://example.com/2" "y";
            example_article "One again" "https://example.com/1" "z"]).
  vm_compute; reflexivity.
Defined.



(** X9 at the three headlines, analyzed with Ollama. *)
Lemma fetch_then_analyze_witness :
  ∃ processed,
    preprocessed_file example_fetched = Some processed
    ∧ run_analysis_pipeline example_news_services ascii_only (py "Ollama") None None
        example_fetched
      = (Ok true,
         {| preprocessed_file := Some processed;
            analyzed_file :=
              Some (annotated example_news_services ascii_only
                      (OllamaAnalyzer (py "llama3.1")) (requests example_start)
                      processed);
            requests := requests example_start + length processed |})
    ∧ length (annotated example_news_services ascii_only
                (OllamaAnalyzer (py "llama3.1")) (requests example_start) processed)
      = length processed.
Proof.
  apply (fetch_then_analyze example_news_services ascii_only (py "Ollama") None None
           (OllamaAnalyzer (py "llama3.1")) example_start example_fetched).
  - intros key fetched [= <-].
    repeat (constructor; [vm_compute; reflexivity|]). constructor.
  - intros n content. by destruct n.
  - vm_compute; reflexivity.
  - vm_compute; reflexivity.
Defined.

(** X10 at the signal of one analyzed article. *)
Lemma extract_valid_signals_listed_witness :
  py "AAPL" ∈ example_registry
  ∧ ticker_shaped (py "AAPL")
  ∧ (py "Positive" = py "Positive" ∨ py "Positive" = py "Negative").
Proof.
  apply (extract_valid_signals_listed ascii_only example_registry
           [example_analyzed "Apple"
              (example_analysis "Positive" 4 ["AAPL surges"%string])]
           3 [(py "AAPL", py "Positive")]).
  - vm_compute; reflexivity.
  - left.
Defined.

(** X11 at the error object of the analysis run, with a sentiment and a
    ticker besides. *)
Lemma failed_analysis_no_signal_witness :
  article_signals ascii_only example_registry
    (example_analyzed "Apple"
       (VDict [(py "error", VStr (py "Connection error."));
               (py "sentiment", VStr (py "Positive"));
               (py "confidence_score", VInt 5);
               (py "affected_entities", VList [VStr (py "AAPL")])])) 1
  = Ok []
  ∧ extract_valid_signals ascii_only example_registry
      ([] ++ example_analyzed "Apple"
               (VDict [(py "error", VStr (py "Connection error."));
                       (py "sentiment", VStr (py "Positive"));
                       (py "confidence_score", VInt 5);
                       (py "affected_entities", VList [VStr (py "AAPL")])])
          :: []) 1
    = extract_valid_signals ascii_only example_registry ([] ++ []) 1.
Proof.
  apply (failed_analysis_no_signal ascii_only example_registry [] []
           (example_analyzed "Apple"
              (VDict [(py "error", VStr (py "Connection error."));
                      (py "sentiment", VStr (py "Positive"));
                      (py "confidence_score", VInt 5);
                      (py "affected_entities", VList [VStr (py "AAPL")])]))
           [(py "error", VStr (py "Connection error."));
            (py "sentiment", VStr (py "Positive"));
            (py "confidence_score", VInt 5);
            (py "affected_entities", VList [VStr (py "AAPL")])] 1);
    vm_compute; reflexivity.
Defined.

(** X12 at a score given in words. *)
Lemma confidence_not_a_number_raises_witness :
  ∃ msg,
    article_signals ascii_only example_registry
      (example_analyzed "Apple"
         (VDict [(py "sentiment", VStr (py "Positive"));
                 (py "confidence_score", VStr (py "high"))])) 3
    = Raise (TypeError msg)
    ∧ extract_valid_signals ascii_only example_registry
        ([] ++ example_analyzed "Apple"
                 (VDict [(py "sentiment", VStr (py "Positive"));
                         (py "confidence_score", VStr (py "high"))])
            :: []) 3
      = Raise (TypeError msg).
Proof.
  apply (confidence_not_a_number_raises ascii_only example_registry [] []
           (example_analyzed "Apple"
              (VDict [(py "sentiment", VStr (py "Positive"));
                      (py "confidence_score", VStr (py "high"))]))
           [(py "sentiment", VStr (py "Positive"));
            (py "confidence_score", VStr (py "high"))]
           (VStr (py "high")) 3 []);
    try (vm_compute; reflexivity); discriminate.
Defined.

(** X13 at two signals, swapped. *)
Lemma score_tickers_order_witness :
  assoc_get (py "AAPL")
    (score_tickers [(py "AAPL", py "Positive"); (py "MSFT", py "Negative")])
  = assoc_get (py "AAPL")
      (score_tickers [(py "MSFT", py "Negative"); (py "AAPL", py "Positive")]).
Proof.
  apply (score_tickers_order
           [(py "AAPL", py "Positive"); (py "MSFT", py "Negative")]
           [(py "MSFT", py "Negative"); (py "AAPL", py "Positive")]).
  apply perm_swap.
Defined.

(** X14 at one analyzed article, with the merge sort. *)
Lemma main_display_overview_witness :
  ∃ loaded signals,
    Some [example_analyzed "Apple"
            (example_analysis "Positive" 4 ["AAPL surges"%string])]
    = Some loaded
    ∧ 1 = length loaded
    ∧ extract_valid_signals ascii_only example_registry loaded 3 = Ok signals
    ∧ [(py "AAPL", {| positive := 1; negative := 0; net_score := 1 |})] ++ []
      ≡ₚ score_tickers signals
    ∧ NoDup ([(py "AAPL", {| positive := 1; negative := 0; net_score := 1 |})] ++ []).*1
    ∧ 1 ≤ length [(py "AAPL", {| positive := 1; negative := 0; net_score := 1 |})]
          + length (@nil row)
    ∧ (∀ r, r ∈ [(py "AAPL", {| positive := 1; negative := 0; net_score := 1 |})] ++ [] →
         r.1 ∈ example_registry
         ∧ net_score r.2 = (count_of r.1 (py "Positive") signals
                            - count_of r.1 (py "Negative") signals)%Z)
    ∧ (∀ r, r ∈ [(py "AAPL", {| positive := 1; negative := 0; net_score := 1 |})] →
         (0 < net_score r.2)%Z)
    ∧ (∀ r, r ∈ @nil row → (net_score r.2 < 0)%Z).
Proof.
  apply (main_display_overview ascii_only example_registry example_sort_values
           example_sort_values_permutation).
  vm_compute; reflexivity.
Defined.

(** X15 at Ollama, which needs no key. *)
Lemma analyze_news_outcome_witness :
  (py "Ollama" ≠ py "Ollama" ∧ @nil N = [] →
     analyze_news example_services ascii_only (py "Ollama") [] example_world
     = (Ok (st_warning (py "Please enter your " ++ py "Ollama" ++ py " API key.")),
        example_world))
  ∧ (¬ (py "Ollama" ≠ py "Ollama" ∧ @nil N = []) →
       (∃ analyzer,
          get_analyzer (py "Ollama") (sidebar_api_key (py "Ollama") []) None
          = Ok analyzer)
       ∧ ∀ text,
           (analyze_news example_services ascii_only (py "Ollama") [] example_world).1
           ≠ Ok (st_warning text))
  ∧ ∀ text,
      (analyze_news example_services ascii_only (py "Ollama") [] example_world).1
      ≠ Ok (st_error text).
Proof.
  apply (analyze_news_outcome example_services ascii_only (py "Ollama") []
           [example_cleaned "Acme" "https://example.com/1" "Shares of Acme fell.";
            example_cleaned "Apple" "https://example.com/2" "Apple (AAPL) rose."]
           example_world).
  - left.
  - reflexivity.
Defined.

(** X16 at a reply in a fenced block. *)
Lemma gemini_reply_without_fence_witness :
  is_substring (py "```") ([10%N] ++ py "{}" ++ [10%N]) = false
  ∧ analyze example_gemini_services ascii_only
      (GeminiAnalyzer (py "key") (py "gemini-1.5-flash")) 0 (VStr (py "Rates held"))
    = json_loads example_gemini_services ([10%N] ++ py "{}" ++ [10%N]).
Proof.
  apply (gemini_reply_without_fence example_gemini_services ascii_only
           (py "key") (py "gemini-1.5-flash") 0 (VStr (py "Rates held"))).
  vm_compute; reflexivity.
Defined.

(** X17 at a reply with two entries, the second without content. *)
Lemma clean_articles_shape_witness :
  NewsFetcher._clean_articles (VDict example_body)
  = Ok [example_article "Rates" "https://example.com/1" "Rates   held [+12 chars]"]
  ∧ ∃ d articles,
      VDict example_body = VDict d
      ∧ iterate (dict_get_default "articles" (VList []) d) = Ok articles
      ∧ Forall (fetched_from articles)
          [example_article "Rates" "https://example.com/1" "Rates   held [+12 chars]"]
      ∧ length [example_article "Rates" "https://example.com/1"
                  "Rates   held [+12 chars]"]
        ≤ length articles.
Proof.
  assert (H : NewsFetcher._clean_articles (VDict example_body)
              = Ok [example_article "Rates" "https://example.com/1"
                      "Rates   held [+12 chars]"]) by (vm_compute; reflexivity).
  split; [exact H|].
  exact (clean_articles_shape _ _ H).
Defined.

(** X18 when NewsAPI cannot be reached. *)
Lemma request_failure_is_no_news_witness :
  NewsFetcher.fetch_us_headlines (λ _ _, RequestException (py "Connection refused"))
    (py "0123456789abcdef") 100
  = Ok []
  ∧ run_fetch_pipeline
      (example_http_services (λ _ _, RequestException (py "Connection refused")))
      ascii_only example_start
    = (Ok false, example_start).
Proof.
  apply (request_failure_is_no_news
           (example_http_services (λ _ _, RequestException (py "Connection refused")))
           ascii_only (λ _ _, RequestException (py "Connection refused"))
           (λ _, eq_refl) (py "0123456789abcdef") (py "Connection refused")
           example_start).
  - reflexivity.
  - discriminate.
  - reflexivity.
Defined.

(** X19 at a reply whose second entry has a content and nothing else. *)
Lemma entry_without_source_raises_witness :
  NewsFetcher._clean_articles (VDict example_broken_body)
  = Raise (KeyError (py "source"))
  ∧ run_fetch_pipeline (example_http_services (λ _ _, Json (VDict example_broken_body)))
      ascii_only example_start
    = (Raise (KeyError (py "source")), example_start).
Proof.
  apply (entry_without_source_raises
           (example_http_services (λ _ _, Json (VDict example_broken_body)))
           ascii_only (λ _ _, Json (VDict example_broken_body))
           (λ _, eq_refl) (py "0123456789abcdef") example_broken_body
           [(py "content", VStr (py "Orphan."))]
           [example_entry "Rates" "https://example.com/1" (VStr (py "Rates held."))]
           []
           [example_article "Rates" "https://example.com/1" "Rates held."]
           example_start).
  - reflexivity.
  - discriminate.
  - reflexivity.
  - reflexivity.
  - vm_compute; reflexivity.
  - reflexivity.
  - reflexivity.
Defined.

(** X20 at a reply with two entries. *)
Lemma documented_body_never_raises_witness :
  ∃ success : bool,
    (run_fetch_pipeline (example_http_services (λ _ _, Json (VDict example_body)))
       ascii_only example_start).1
    = Ok success.
Proof.
  apply (documented_body_never_raises
           (example_http_services (λ _ _, Json (VDict example_body)))
           ascii_only (λ _ _, Json (VDict example_body))
           (λ _, eq_refl) (py "0123456789abcdef") example_body
           [example_entry "Rates" "https://example.com/1"
              (VStr (py "Rates   held [+12 chars]"));
            example_entry "Video" "https://example.com/2" VNone]
           example_start).
  - reflexivity.
  - discriminate.
  - reflexivity.
  - reflexivity.
  - repeat (constructor; [vm_compute; reflexivity|]). constructor.
  - repeat (constructor; [vm_compute; reflexivity|]). constructor.
Defined.

Lemma example_sorted_permutation (l : list pystr) : example_sorted l ≡ₚ l.
Proof. apply merge_sort_Permutation. Qed.

(** The download of the examples: the two symbols of NASDAQ, in order in
    the cache. *)
Example get_ticker_list_example :
  get_ticker_list example_read_csv example_sorted None
  = ({[ py "MSFT"; py "AAPL" ]}, Some (py "AAPL" ++ [10%N] ++ py "MSFT" ++ [10%N])).
Proof. by vm_compute. Qed.

(** X22 at this download. *)
Lemma ticker_cache_round_trip_witness :
  get_ticker_list (λ _, Raise (LibraryError (py "offline"))) example_sorted
    (Some (py "AAPL" ++ [10%N] ++ py "MSFT" ++ [10%N]))
  = ({[ py "MSFT"; py "AAPL" ]}, Some (py "AAPL" ++ [10%N] ++ py "MSFT" ++ [10%N])).
Proof.
  apply (ticker_cache_round_trip example_read_csv example_sorted
           example_sorted_permutation).
  - vm_compute; reflexivity.
  - intros t c Ht Hc. apply elem_of_union in Ht as [Ht|Ht];
      apply elem_of_singleton in Ht; subst t;
      repeat (apply elem_of_cons in Hc as [->|Hc]; [vm_compute; reflexivity|]);
      by apply elem_of_nil in Hc.
Defined.

(** X23 when neither file can be read. *)
Lemma failed_download_is_cached_witness :
  get_ticker_list (λ _, Raise (LibraryError (py "offline"))) example_sorted None
  = (∅, Some [])
  ∧ get_ticker_list example_read_csv example_sorted (Some []) = (∅, Some [])
  ∧ (extract_valid_signals ascii_only ∅
       [example_analyzed "Apple"
          (example_analysis "Positive" 4 ["AAPL surges"%string])] 3
     = Ok [] →
     @nil signal = []).
Proof.
  apply (failed_download_is_cached (λ _, Raise (LibraryError (py "offline")))
           example_sorted example_sorted_permutation).
  intros exchange url _. by eexists.
Defined.

(** X24 at the three headlines, analyzed with Ollama. *)
Lemma page_after_both_buttons_witness :
  ∃ processed loaded,
    preprocessed_file example_fetched = Some processed
    ∧ load_analyzed_data example_fetched_analyzed = Some loaded
    ∧ length loaded = length processed
    ∧ loaded ≠ []
    ∧ Forall (λ a, assoc_has (py "analysis") a = true) loaded
    ∧ main_display ascii_only example_registry example_sort_values
        (load_analyzed_data example_fetched_analyzed) 3
      ≠ Ok Welcome.
Proof.
  apply (page_after_both_buttons example_news_services ascii_only example_registry
           example_sort_values (py "Ollama") []
           (py "News fetched successfully!") (py "Analysis complete!") 3
           example_start example_fetched example_fetched_analyzed).
  - vm_compute; reflexivity.
  - vm_compute; reflexivity.
Defined.

(** The writing cut short: a headline with a surrogate in the fetch run,
    an answer of the oracle with one in the analysis run. *)
Example run_fetch_pipeline_surrogate :
  run_fetch_pipeline example_surrogate_services ascii_only example_start
  = (Raise UnicodeEncodeError, PreprocessedCutShort None 0).
Proof. by vm_compute. Qed.

Example run_analysis_pipeline_surrogate :
  run_analysis_pipeline example_surrogate_services ascii_only (py "Ollama") None None
    example_world
  = (Raise UnicodeEncodeError,
     AnalyzedCutShort (preprocessed_file example_world) 2).
Proof. by vm_compute. Qed.
